(** * JSON-to-ZIP converter: file utilities, drop zone validation, API client

    A shallow embedding of the client-side utilities of the converter
    (validation of JSON text and files, the batch parser, the filename
    helpers, the per-file validation of the drop zone and the client of the
    remote conversion service), with the properties of its specification
    stated and proved over the embedding. *)

From Stdlib Require Import List NArith ZArith String Ascii Bool Lia DecimalString.
Import ListNotations.

Set Warnings "-register-all".
Local Open Scope N_scope.
Local Open Scope list_scope.

(** ** The JavaScript values the code handles *)

Module JS.

(** A JavaScript string is a sequence of UTF-16 code units. *)
Definition jsstring := list N.

(** [js "text"] is the string literal ['text'] of the source. *)
Definition js (s : string) : jsstring := map N_of_ascii (list_ascii_of_string s).

(** The code unit of a character literal. *)
Definition ch (a : ascii) : N := N_of_ascii a.

(** The empty string. *)
Definition js_empty : jsstring := [].

(** A text written with apostrophes where it has double quotes: the JSON
    texts of the examples. *)
Definition quoted (s : string) : jsstring :=
  map (fun c => if c =? 39 then 34 else c) (js s).

(** [===] on two strings. *)
Fixpoint str_eqb (a b : jsstring) : bool :=
  match a, b with
  | [], [] => true
  | x :: a', y :: b' => (x =? y) && str_eqb a' b'
  | _, _ => false
  end.

Fixpoint starts_with (p s : jsstring) : bool :=
  match p, s with
  | [], _ => true
  | x :: p', y :: s' => (x =? y) && starts_with p' s'
  | _ :: _, [] => false
  end.

(** [String.prototype.includes]: [p] occurs somewhere in [s]. *)
Fixpoint includes (s p : jsstring) : bool :=
  starts_with p s ||
  match s with
  | [] => false
  | _ :: s' => includes s' p
  end.

(** [Array.prototype.includes] on an array of strings. *)
Definition array_includes (a : list jsstring) (x : jsstring) : bool :=
  existsb (str_eqb x) a.

(** [Array.prototype.join] on an array of strings. *)
Fixpoint join (sep : jsstring) (a : list jsstring) : jsstring :=
  match a with
  | [] => []
  | [x] => x
  | x :: a' => x ++ sep ++ join sep a'
  end.

(** The decimal text of a non-negative integer, as a template literal
    prints it. *)
Definition decimal (n : N) : jsstring := js (NilEmpty.string_of_uint (N.to_uint n)).

(** [String.prototype.toLowerCase], code unit by code unit: the letters of
    ASCII and of the Latin-1 supplement.  The case tables of Unicode beyond
    U+00FF are the platform's and are not part of this model, which leaves
    those code units as they are. *)
Definition lower_unit (c : N) : N :=
  if (65 <=? c) && (c <=? 90) then c + 32
  else if (192 <=? c) && (c <=? 222) && negb (c =? 215) then c + 32
  else c.

Definition toLowerCase (s : jsstring) : jsstring := map lower_unit s.

(** A number: the two infinities, NaN, and the finite values, written as
    a signed decimal [(-1)^neg * mantissa * 10^exp10] (every finite double is
    such a decimal).  Rounding to a 64-bit float is not modelled. *)
Inductive number :=
| NaN
| Infinity (neg : bool)
| Fin (neg : bool) (mantissa : N) (exp10 : Z).

Definition of_N (n : N) : number := Fin false n 0.

Definition is_zero_or_NaN (n : number) : bool :=
  match n with
  | NaN => true
  | Infinity _ => false
  | Fin _ m _ => m =? 0
  end.

(** Values.  An object is the ordered list of its own enumerable data
    properties; functions and symbols are opaque. *)
Inductive value :=
| VUndefined
| VNull
| VBool (b : bool)
| VNumber (n : number)
| VBigInt (z : Z)
| VString (s : jsstring)
| VSymbol (id : N)
| VFunction (id : N)
| VArray (items : list value)
| VObject (props : list (jsstring * value)).

Definition obj := list (jsstring * value).

(** [o[k]] on a plain object: the own property, or [undefined]. *)
Fixpoint obj_get (o : obj) (k : jsstring) : value :=
  match o with
  | [] => VUndefined
  | (k', v) :: o' => if str_eqb k k' then v else obj_get o' k
  end.


(** [o[k] = v]: an existing property keeps its place and takes the new
    value, a new one is added at the end. *)
Fixpoint obj_set (o : obj) (k : jsstring) (v : value) : obj :=
  match o with
  | [] => [(k, v)]
  | (k', v') :: o' => if str_eqb k k' then (k', v) :: o' else (k', v') :: obj_set o' k v
  end.

(** [{...target, ...source}]: the properties of [source] are set on
    [target] in their order. *)
Definition obj_spread (target source : obj) : obj :=
  fold_left (fun acc kv => obj_set acc (fst kv) (snd kv)) source target.

(** [typeof v]. *)
Definition typeof (v : value) : jsstring :=
  match v with
  | VUndefined => js "undefined"
  | VNull => js "object"
  | VBool _ => js "boolean"
  | VNumber _ => js "number"
  | VBigInt _ => js "bigint"
  | VString _ => js "string"
  | VSymbol _ => js "symbol"
  | VFunction _ => js "function"
  | VArray _ => js "object"
  | VObject _ => js "object"
  end.

(** [ToBoolean v], the test of [if (v)], [!v] and [v || w]. *)
Definition ToBoolean (v : value) : bool :=
  match v with
  | VUndefined | VNull => false
  | VBool b => b
  | VNumber n => negb (is_zero_or_NaN n)
  | VBigInt z => negb (z =? 0)%Z
  | VString s => negb (str_eqb s [])
  | VSymbol _ | VFunction _ | VArray _ | VObject _ => true
  end.

(** [a || b]. *)
Definition or_else (a b : value) : value := if ToBoolean a then a else b.

(** [v.k] where [v] is not [null] or [undefined]: the own property of an
    object; the prototypes of booleans, numbers, strings and arrays define
    none of the names the code asks for ([isValid], [error], [message]). *)
Definition get (v : value) (k : jsstring) : value :=
  match v with
  | VObject o => obj_get o k
  | _ => VUndefined
  end.

Definition Array_isArray (v : value) : bool :=
  match v with
  | VArray _ => true
  | _ => false
  end.

(** [a.length] for an array [a]. *)
Definition array_length (v : value) : N :=
  match v with
  | VArray items => N.of_nat (List.length items)
  | _ => 0
  end.

End JS.
Import JS.

(** ** [JSON.parse]

    The grammar of ECMA-404 as a pushdown automaton that reads the text one
    code unit at a time: a stack of the arrays and objects that are open,
    and what is expected next.  A key that comes again takes the place of
    its first occurrence with the last value; the properties of an object
    are kept in the order of the text (an engine lists the keys that are
    array indices first). *)

Module JSON.

Inductive frame :=
| FArray (items : list value)
| FObject (props : obj) (key : option jsstring).

(** Where the automaton is inside a number. *)
Inductive numstate :=
| NMinus | NZero | NInt | NDot | NFrac | NExp | NExpSign | NExpDigits.

Record numacc := {
  nneg : bool;     (* a leading minus *)
  mant : N;        (* the digits of the integer and fraction parts *)
  scale : Z;       (* how many of them are fraction digits *)
  eneg : bool;     (* the sign of the exponent *)
  eabs : N         (* the exponent *)
}.

(** Where the automaton is inside a string. *)
Inductive strstate :=
| SNormal
| SEscape
| SUnicode (k : nat) (code : N).

Inductive mode :=
| MValue                 (* a value must start *)
| MValueOrEnd            (* after '[': a value or ']' *)
| MKeyOrEnd              (* after '{': a key or '}' *)
| MKey                   (* after ',' in an object: a key *)
| MColon                 (* after a key *)
| MAfter                 (* after a value inside an array or object *)
| MDone (v : value)      (* after the value of the text *)
| MLiteral (rest : jsstring) (v : value)
| MNumber (st : numstate) (acc : numacc)
| MString (iskey : bool) (acc : jsstring) (st : strstate).

Definition state := (list frame * mode)%type.

Definition is_ws (c : N) : bool :=
  (c =? 9) || (c =? 10) || (c =? 13) || (c =? 32).

Definition is_digit (c : N) : bool := (48 <=? c) && (c <=? 57).

Definition hex_digit (c : N) : option N :=
  if (48 <=? c) && (c <=? 57) then Some (c - 48)
  else if (65 <=? c) && (c <=? 70) then Some (c - 55)
  else if (97 <=? c) && (c <=? 102) then Some (c - 87)
  else None.

(** A value is complete: it goes to the array or object that is open, or
    is the value of the text. *)
Definition deliver (stack : list frame) (v : value) : option state :=
  match stack with
  | [] => Some ([], MDone v)
  | FArray items :: st => Some (FArray (items ++ [v]) :: st, MAfter)
  | FObject props (Some k) :: st => Some (FObject (obj_set props k v) None :: st, MAfter)
  | FObject _ None :: _ => None
  end.

Definition close_array (stack : list frame) : option state :=
  match stack with
  | FArray items :: st => deliver st (VArray items)
  | _ => None
  end.

Definition close_object (stack : list frame) : option state :=
  match stack with
  | FObject props None :: st => deliver st (VObject props)
  | _ => None
  end.

Definition start_number (neg : bool) (m : N) : numacc :=
  {| nneg := neg; mant := m; scale := 0; eneg := false; eabs := 0 |}.

Definition start_value (stack : list frame) (c : N) : option state :=
  if c =? ch "n" then Some (stack, MLiteral (js "ull") VNull)
  else if c =? ch "t" then Some (stack, MLiteral (js "rue") (VBool true))
  else if c =? ch "f" then Some (stack, MLiteral (js "alse") (VBool false))
  else if c =? 34 then Some (stack, MString false [] SNormal)
  else if c =? ch "[" then Some (FArray [] :: stack, MValueOrEnd)
  else if c =? ch "{" then Some (FObject [] None :: stack, MKeyOrEnd)
  else if c =? ch "-" then Some (stack, MNumber NMinus (start_number true 0))
  else if c =? ch "0" then Some (stack, MNumber NZero (start_number false 0))
  else if is_digit c then Some (stack, MNumber NInt (start_number false (c - 48)))
  else None.

(** The end of a string: a key waits for its colon, a value is delivered. *)
Definition end_string (stack : list frame) (iskey : bool) (s : jsstring) : option state :=
  if iskey then
    match stack with
    | FObject props None :: st => Some (FObject props (Some s) :: st, MColon)
    | _ => None
    end
  else deliver stack (VString s).

Definition step_string (stack : list frame) (iskey : bool) (acc : jsstring)
  (st : strstate) (c : N) : option state :=
  match st with
  | SNormal =>
      if c =? 34 then end_string stack iskey acc
      else if c =? 92 then Some (stack, MString iskey acc SEscape)
      else if c <? 32 then None
      else Some (stack, MString iskey (acc ++ [c]) SNormal)
  | SEscape =>
      let put x := Some (stack, MString iskey (acc ++ [x]) SNormal) in
      if c =? 34 then put 34
      else if c =? 92 then put 92
      else if c =? ch "/" then put 47
      else if c =? ch "b" then put 8
      else if c =? ch "f" then put 12
      else if c =? ch "n" then put 10
      else if c =? ch "r" then put 13
      else if c =? ch "t" then put 9
      else if c =? ch "u" then Some (stack, MString iskey acc (SUnicode 0 0))
      else None
  | SUnicode k code =>
      match hex_digit c with
      | Some h =>
          let code' := code * 16 + h in
          if Nat.eqb k 3 then Some (stack, MString iskey (acc ++ [code']) SNormal)
          else Some (stack, MString iskey acc (SUnicode (S k) code'))
      | None => None
      end
  end.

(** One code unit read outside a number. *)
Definition step_simple (s : state) (c : N) : option state :=
  let (stack, m) := s in
  match m with
  | MValue =>
      if is_ws c then Some s else start_value stack c
  | MValueOrEnd =>
      if is_ws c then Some s
      else if c =? ch "]" then close_array stack
      else start_value stack c
  | MKeyOrEnd =>
      if is_ws c then Some s
      else if c =? 34 then Some (stack, MString true [] SNormal)
      else if c =? ch "}" then close_object stack
      else None
  | MKey =>
      if is_ws c then Some s
      else if c =? 34 then Some (stack, MString true [] SNormal)
      else None
  | MColon =>
      if is_ws c then Some s
      else if c =? ch ":" then Some (stack, MValue)
      else None
  | MAfter =>
      if is_ws c then Some s
      else if c =? ch "," then
        match stack with
        | FArray _ :: _ => Some (stack, MValue)
        | FObject _ None :: _ => Some (stack, MKey)
        | _ => None
        end
      else if c =? ch "]" then close_array stack
      else if c =? ch "}" then close_object stack
      else None
  | MDone _ =>
      if is_ws c then Some s else None
  | MLiteral rest v =>
      match rest with
      | r :: rest' =>
          if c =? r then
            match rest' with
            | [] => deliver stack v
            | _ => Some (stack, MLiteral rest' v)
            end
          else None
      | [] => None
      end
  | MString iskey acc st => step_string stack iskey acc st c
  | MNumber _ _ => None
  end.

(** A number may end where the automaton is now. *)
Definition accepting (st : numstate) : bool :=
  match st with
  | NZero | NInt | NFrac | NExpDigits => true
  | _ => false
  end.

Definition number_value (a : numacc) : value :=
  VNumber (Fin (nneg a) (mant a)
             ((if eneg a then - Z.of_N (eabs a) else Z.of_N (eabs a)) - scale a)%Z).

Definition push_digit (a : numacc) (d : N) : numacc :=
  {| nneg := nneg a; mant := mant a * 10 + d; scale := scale a;
     eneg := eneg a; eabs := eabs a |}.

Definition push_frac (a : numacc) (d : N) : numacc :=
  {| nneg := nneg a; mant := mant a * 10 + d; scale := (scale a + 1)%Z;
     eneg := eneg a; eabs := eabs a |}.

Definition push_exp (a : numacc) (d : N) : numacc :=
  {| nneg := nneg a; mant := mant a; scale := scale a;
     eneg := eneg a; eabs := eabs a * 10 + d |}.

Definition set_eneg (a : numacc) (b : bool) : numacc :=
  {| nneg := nneg a; mant := mant a; scale := scale a; eneg := b; eabs := eabs a |}.

(** The next code unit of a number, [None] when [c] is not part of it. *)
Definition step_number (st : numstate) (a : numacc) (c : N) : option (numstate * numacc) :=
  let is_e := (c =? ch "e") || (c =? ch "E") in
  match st with
  | NMinus =>
      if c =? ch "0" then Some (NZero, a)
      else if is_digit c then Some (NInt, push_digit a (c - 48))
      else None
  | NZero =>
      if c =? ch "." then Some (NDot, a)
      else if is_e then Some (NExp, a)
      else None
  | NInt =>
      if is_digit c then Some (NInt, push_digit a (c - 48))
      else if c =? ch "." then Some (NDot, a)
      else if is_e then Some (NExp, a)
      else None
  | NDot =>
      if is_digit c then Some (NFrac, push_frac a (c - 48)) else None
  | NFrac =>
      if is_digit c then Some (NFrac, push_frac a (c - 48))
      else if is_e then Some (NExp, a)
      else None
  | NExp =>
      if c =? ch "+" then Some (NExpSign, a)
      else if c =? ch "-" then Some (NExpSign, set_eneg a true)
      else if is_digit c then Some (NExpDigits, push_exp a (c - 48))
      else None
  | NExpSign =>
      if is_digit c then Some (NExpDigits, push_exp a (c - 48)) else None
  | NExpDigits =>
      if is_digit c then Some (NExpDigits, push_exp a (c - 48)) else None
  end.

(** One code unit read.  A code unit that cannot continue a number ends it,
    when it may end there, and is then read as what follows a value. *)
Definition step (s : state) (c : N) : option state :=
  match s with
  | (stack, MNumber st a) =>
      match step_number st a c with
      | Some (st', a') => Some (stack, MNumber st' a')
      | None =>
          if accepting st then
            match deliver stack (number_value a) with
            | Some s' => step_simple s' c
            | None => None
            end
          else None
      end
  | _ => step_simple s c
  end.

(** The end of the text. *)
Definition finish (s : state) : option value :=
  match s with
  | ([], MDone v) => Some v
  | ([], MNumber st a) => if accepting st then Some (number_value a) else None
  | _ => None
  end.

Fixpoint run (s : state) (text : jsstring) : option value :=
  match text with
  | [] => finish s
  | c :: text' =>
      match step s c with
      | Some s' => run s' text'
      | None => None
      end
  end.

(** [JSON.parse(text)]: [None] when it throws a [SyntaxError]. *)
Definition parse (text : jsstring) : option value := run ([], MValue) text.

End JSON.

(** ** Asynchronous code

    An [async] function runs to its end, or to the first exception that no
    [catch] takes, suspending at each [await]; what it does to the outside
    is recorded in order.  [M Ev Ex A] is such a run: the events and then
    the exception thrown or the value returned. *)

Module Async.

Section Monad.
Context {Ev Ex : Type}.

Definition M (A : Type) : Type := (list Ev * (Ex + A))%type.

Definition ret {A} (a : A) : M A := ([], inr a).

Definition throw {A} (e : Ex) : M A := ([], inl e).

Definition emit (ev : Ev) : M unit := ([ev], inr tt).

Definition bind {A B} (m : M A) (k : A -> M B) : M B :=
  match m with
  | (t, inl e) => (t, inl e)
  | (t, inr a) => let (t', r) := k a in (t ++ t', r)
  end.

(** [try { m } catch (error) { handler }]. *)
Definition try_catch {A} (m : M A) (handler : Ex -> M A) : M A :=
  match m with
  | (t, inl e) => let (t', r) := handler e in (t ++ t', r)
  | (t, inr a) => (t, inr a)
  end.

Definition trace {A} (m : M A) : list Ev := fst m.

Definition outcome {A} (m : M A) : Ex + A := snd m.

End Monad.

Arguments M : clear implicits.

End Async.
Import Async.

Notation "x <- m ;; k" := (bind m (fun x => k))
  (at level 61, m at next level, right associativity).
Notation "m ;;; k" := (bind m (fun _ => k))
  (at level 61, right associativity).

(** ** fileUtils *)

Module FileUtils.

(** [isValidJson]: the parse is tried and its outcome reported. *)
Definition isValidJson (jsonString : jsstring) : bool :=
  match JSON.parse jsonString with
  | Some _ => true
  | None => false
  end.

Record ValidationResult := {
  isValid : bool;
  errors : list jsstring
}.

(** [validateJsonData].  The [errors] array is local and threaded through;
    [typeof data === 'string'] is the case of a string, which is replaced by
    what it parses to before the last test. *)
Definition validateJsonData (data : value) : ValidationResult :=
  let errors := [] in
  if negb (ToBoolean data) then
    let errors := errors ++ [js "Data is required"] in
    {| isValid := false; errors := errors |}
  else
    let parsed : ValidationResult + value :=
      match data with
      | VString text =>
          if negb (isValidJson text) then
            inl {| isValid := false; errors := errors ++ [js "Invalid JSON format"] |}
          else
            match JSON.parse text with
            | Some data' => inr data'
            | None =>
                inl {| isValid := false; errors := errors ++ [js "Failed to parse JSON"] |}
            end
      | _ => inr data
      end in
    match parsed with
    | inl early => early
    | inr data =>
        let errors :=
          if negb (str_eqb (typeof data) (js "object"))
          then errors ++ [js "JSON must be an object or array"]
          else errors in
        {| isValid := (N.of_nat (List.length errors) =? 0); errors := errors |}
    end.

(** A [File]: its name, its declared MIME type, its size in bytes, and what
    a [FileReader] delivers for it as text ([None]: the read fails and the
    reader fires its error event). *)
Record File := {
  name : jsstring;
  type : jsstring;
  size : N;
  content : option jsstring
}.

(** What the code of this module throws or lets through: an [Error] with
    its message, the [SyntaxError] of [JSON.parse], and the error event of a
    [FileReader], which is not an [Error] and has no [message]. *)
Inductive thrown :=
| Error (message : jsstring)
| SyntaxError
| ProgressEvent.

(** [`${error.message}`].  The text of a [SyntaxError] is the engine's; a
    fixed text stands for it. *)
Definition message_text (error : thrown) : jsstring :=
  match error with
  | Error message => message
  | SyntaxError => js "Unexpected token"
  | ProgressEvent => js "undefined"
  end.

Inductive event :=
| ReadAsText (file : File).

Definition Task := M event thrown.

(** [readFileAsText]: the promise resolves with the text on [load] and
    rejects with the event on [error]. *)
Definition readFileAsText (file : File) : Task jsstring :=
  emit (ReadAsText file) ;;;
  match content file with
  | Some text => ret text
  | None => throw ProgressEvent
  end.

Definition default_allowedTypes : list jsstring :=
  [js "application/json"; js "text/plain"].

Definition default_maxSize : N := 10 * 1024 * 1024.

(** [validateFileType(file, allowedTypes)]. *)
Definition validateFileType (file : File) (allowedTypes : list jsstring) : bool :=
  array_includes allowedTypes (type file).

(** [validateFileSize(file, maxSize)]. *)
Definition validateFileSize (file : File) (maxSize : N) : bool :=
  size file <=? maxSize.

(** An element of the array [parseMultipleJsonFiles] resolves with. *)
Record ParsedFile := {
  filename : jsstring;
  data : value;
  psize : N
}.

(** The body of the [try] block for one file: the [results] array after
    the push. *)
Definition process (file : File) (results : list ParsedFile) : Task (list ParsedFile) :=
  if negb (validateFileType file default_allowedTypes) then
    throw (Error (js "Invalid file type: " ++ type file))
  else if negb (validateFileSize file default_maxSize) then
    throw (Error (js "File size exceeds limit"))
  else
    content <- readFileAsText file ;;
    let validation := validateJsonData (VString content) in
    if negb (isValid validation) then
      throw (Error (js "Invalid JSON in " ++ name file ++ js ": "
                      ++ join (js ", ") (errors validation)))
    else
      match JSON.parse content with
      | Some data =>
          ret (results ++ [{| filename := name file; data := data; psize := size file |}])
      | None => throw SyntaxError
      end.

(** The [for ... of] loop, with what [catch] rethrows. *)
Fixpoint parse_loop (files : list File) (results : list ParsedFile) : Task (list ParsedFile) :=
  match files with
  | [] => ret results
  | file :: rest =>
      results' <-
        try_catch (process file results)
          (fun error =>
             throw (Error (js "Error processing " ++ name file ++ js ": "
                             ++ message_text error))) ;;
      parse_loop rest results'
  end.

(** [parseMultipleJsonFiles]. *)
Definition parseMultipleJsonFiles (files : list File) : Task (list ParsedFile) :=
  parse_loop files [].

(** What the code reads of a drag event: [event.dataTransfer?.types] and
    [event.dataTransfer?.files]. *)
Record DragEvent := {
  dataTransfer_types : option (list jsstring);
  dataTransfer_files : option (list File)
}.

(** [handleFileDrop]: the files of the event, which must have some. *)
Definition handleFileDrop (event : DragEvent) : thrown + list File :=
  match dataTransfer_files event with
  | Some ((_ :: _) as files) => inr files
  | _ => inl (Error (js "No files dropped"))
  end.

(** [isDragEventWithFiles]. *)
Definition isDragEventWithFiles (event : DragEvent) : bool :=
  match dataTransfer_types event with
  | Some types => array_includes types (js "Files")
  | None => false
  end.

(** *** Filenames *)

Definition underscore : N := 95.

(** The class [[a-z0-9.-]] under the flag [i]: without the flag [u] the
    only code units that fold onto [a-z] are [A-Z]. *)
Definition in_class (c : N) : bool :=
  ((97 <=? c) && (c <=? 122)) || ((65 <=? c) && (c <=? 90))
  || ((48 <=? c) && (c <=? 57)) || (c =? 46) || (c =? 45).

(** [.replace(/[^a-z0-9.-]/gi, '_')]. *)
Definition replace_outside_class (s : jsstring) : jsstring :=
  map (fun c => if in_class c then c else underscore) s.

(** [.replace(/_{2,}/g, '_')]: of a run of two or more underscores one
    stays, that is, an underscore followed by another one goes. *)
Fixpoint replace_runs (s : jsstring) : jsstring :=
  match s with
  | [] => []
  | c :: s' =>
      match s' with
      | c' :: _ =>
          if (c =? underscore) && (c' =? underscore) then replace_runs s'
          else c :: replace_runs s'
      | [] => [c]
      end
  end.

Definition remove_first_underscore (s : jsstring) : jsstring :=
  match s with
  | c :: s' => if c =? underscore then s' else s
  | [] => []
  end.

Fixpoint remove_last_underscore (s : jsstring) : jsstring :=
  match s with
  | [] => []
  | [c] => if c =? underscore then [] else [c]
  | c :: s' => c :: remove_last_underscore s'
  end.

(** [.replace(/^_|_$/g, '')]: the underscore at the start goes, then the
    one at the end of what is left. *)
Definition replace_ends (s : jsstring) : jsstring :=
  remove_last_underscore (remove_first_underscore s).

(** [sanitizeFilename]. *)
Definition sanitizeFilename (filename : jsstring) : jsstring :=
  replace_ends (replace_runs (replace_outside_class filename)).

(** [s.split('.')]. *)
Fixpoint split_dot (s : jsstring) : list jsstring :=
  match s with
  | [] => [[]]
  | c :: s' =>
      if c =? 46 then [] :: split_dot s'
      else
        match split_dot s' with
        | piece :: pieces => (c :: piece) :: pieces
        | [] => [[c]]
        end
  end.

(** [a.pop()], the value it returns: [None] for [undefined]. *)
Fixpoint pop (a : list jsstring) : option jsstring :=
  match a with
  | [] => None
  | [x] => Some x
  | _ :: a' => pop a'
  end.

(** [getFileExtension]: [filename.split('.').pop()?.toLowerCase() || '']. *)
Definition getFileExtension (filename : jsstring) : jsstring :=
  match option_map toLowerCase (pop (split_dot filename)) with
  | Some ext => if str_eqb ext js_empty then js_empty else ext
  | None => js_empty
  end.

Fixpoint lastIndexOf_from (s : jsstring) (c : N) (i found : Z) : Z :=
  match s with
  | [] => found
  | x :: s' => lastIndexOf_from s' c (i + 1)%Z (if x =? c then i else found)
  end.

(** [s.lastIndexOf(c)], [-1] when [c] does not occur. *)
Definition lastIndexOf (s : jsstring) (c : N) : Z := lastIndexOf_from s c 0%Z (-1)%Z.

(** [s.substring(0, n)] for [0 <= n]. *)
Definition substring0 (s : jsstring) (n : Z) : jsstring := firstn (Z.to_nat n) s.

(** [removeFileExtension]. *)
Definition removeFileExtension (filename : jsstring) : jsstring :=
  let lastDotIndex := lastIndexOf filename 46 in
  if (0 <? lastDotIndex)%Z then substring0 filename lastDotIndex else filename.

End FileUtils.

(** ** The drop zone *)

Module DropZone.

Import FileUtils.

(** An entry of the [errors] state: [{ file, message }], or [{ message }]
    alone. *)
Record FileError := {
  file : option jsstring;
  message : value
}.

Record Validated := {
  validFiles : list File;
  errors : list FileError
}.

(** The state of the component that the handlers write. *)
Record State := {
  isDragOver : bool;
  files : list File;
  shown : list FileError
}.

Section Component.

(** The props. *)
Variable acceptedTypes : list jsstring.
Variable maxFileSize : N.
Variable multiple : bool.
Variable disabled : bool.

(** The callback of [forEach] in [validateFiles], on the two arrays it
    pushes to.  [validateFileType] and [validateFileSize] are those of
    fileUtils, and return booleans. *)
Definition validate_one (acc : Validated) (file : File) : Validated :=
  let typeValidation := VBool (validateFileType file acceptedTypes) in
  let sizeValidation := VBool (validateFileSize file maxFileSize) in
  if negb (ToBoolean (get typeValidation (js "isValid"))) then
    {| validFiles := validFiles acc;
       errors := errors acc ++
         [{| file := Some (name file); message := get typeValidation (js "error") |}] |}
  else if negb (ToBoolean (get sizeValidation (js "isValid"))) then
    {| validFiles := validFiles acc;
       errors := errors acc ++
         [{| file := Some (name file); message := get sizeValidation (js "error") |}] |}
  else
    {| validFiles := validFiles acc ++ [file]; errors := errors acc |}.

(** [validateFiles]. *)
Definition validateFiles (fileList : list File) : Validated :=
  fold_left validate_one fileList {| validFiles := []; errors := [] |}.

(** What both handlers do with a list of files: the new state and, when
    the callback is called, what [onFilesSelected] receives. *)
Definition take (st : State) (fileList : list File) : State * option (list File) :=
  let r := validateFiles fileList in
  let st := {| isDragOver := isDragOver st; files := files st; shown := errors r |} in
  match validFiles r with
  | [] => (st, None)
  | first :: _ =>
      let filesToAdd := if multiple then validFiles r else [first] in
      let newFiles := if multiple then files st ++ filesToAdd else filesToAdd in
      ({| isDragOver := isDragOver st; files := newFiles; shown := shown st |},
       Some newFiles)
  end.

(** [handleDrop]. *)
Definition handleDrop (st : State) (e : DragEvent) : State * option (list File) :=
  let st := {| isDragOver := false; files := files st; shown := shown st |} in
  if disabled then (st, None)
  else
    match handleFileDrop e with
    | inr droppedFiles => take st droppedFiles
    | inl error =>
        ({| isDragOver := isDragOver st; files := files st;
            shown := [{| file := None;
                         message := VString (js "Error processing dropped files: "
                                               ++ message_text error) |}] |},
         None)
    end.

(** [handleFileInputChange], for the files of the input. *)
Definition handleFileInputChange (st : State) (selectedFiles : option (list File))
  : State * option (list File) :=
  match selectedFiles with
  | None | Some [] => (st, None)
  | Some selectedFiles => take st selectedFiles
  end.

End Component.

(** The defaults of the props. *)
Definition default_acceptedTypes : list jsstring := [js ".json"].

Definition default_maxFileSize : N := 10 * 1024 * 1024.

End DropZone.

(** ** The client of the conversion service *)

Module Api.

Import FileUtils.

(** What [JSON.stringify] throws on: a BigInt anywhere in the value. *)
Fixpoint has_bigint (v : value) : bool :=
  match v with
  | VBigInt _ => true
  | VArray items => existsb has_bigint items
  | VObject props => existsb (fun kv => has_bigint (snd kv)) props
  | _ => false
  end.

(** A field of a [FormData]. *)
Inductive FormValue :=
| FormFile (f : File)
| FormText (s : jsstring)
| FormJson (v : value).      (* the text [JSON.stringify(v)] *)

(** The body of a request: none, the text [JSON.stringify(v)], or a form. *)
Inductive Body :=
| NoBody
| JsonBody (v : value)
| FormData (fields : list (jsstring * FormValue)).

Record Request := {
  url : jsstring;
  method : jsstring;
  headers : list (jsstring * jsstring);
  body : Body
}.

(** A response: its status, its [content-type] header when it has one,
    the text of its body ([None]: reading the body fails) and the size of
    the body in bytes. *)
Record Response := {
  status : N;
  contentType : option jsstring;
  bodyText : option jsstring;
  bodySize : N
}.

(** [response.ok]. *)
Definition ok (r : Response) : bool := (200 <=? status r) && (status r <=? 299).

(** What [fetch] does with a request: it settles after some milliseconds,
    fulfilled with a response or rejected with a [TypeError], or it never
    settles. *)
Inductive FetchOutcome :=
| Fulfilled (r : Response)
| Failed (message : jsstring).

Inductive Network :=
| Settles (after : N) (o : FetchOutcome)
| Hangs.

(** What the code of this module throws or lets through. *)
Inductive thrown :=
| ApiError (message : value) (status : N) (data : value)
| Error (message : jsstring)
| TypeError (message : jsstring)
| SyntaxError.

(** [new ApiError(message, status)]: [data] is [null]. *)
Definition ApiError2 (message : jsstring) (status : N) : thrown :=
  ApiError (VString message) status VNull.

(** [error instanceof ApiError]. *)
Definition instanceof_ApiError (e : thrown) : bool :=
  match e with
  | ApiError _ _ _ => true
  | _ => false
  end.

Inductive event :=
| Fetch (req : Request)
| ConsoleError (label : jsstring) (error : thrown)
| Download (filename : jsstring) (size : N).

Definition Task := M event thrown.

Definition REQUEST_TIMEOUT : N := 30000.

Definition default_API_URL : jsstring := js "http://localhost:3001/api".

Section Client.

(** The environment: the variable [VITE_API_URL] and the network. *)
Variable VITE_API_URL : option jsstring.
Variable network : Request -> Network.

(** [import.meta.env.VITE_API_URL || 'http://localhost:3001/api']. *)
Definition API_BASE_URL : jsstring :=
  match VITE_API_URL with
  | Some u => if str_eqb u [] then default_API_URL else u
  | None => default_API_URL
  end.

(** [fetchWithTimeout]: the race of the request with a timer.  The request
    wins when it settles before the timer fires. *)
Definition fetchWithTimeout (req : Request) (timeout : N) : Task Response :=
  emit (Fetch req) ;;;
  match network req with
  | Settles after o =>
      if after <? timeout then
        match o with
        | Fulfilled r => ret r
        | Failed message => throw (TypeError message)
        end
      else throw (Error (js "Request timeout"))
  | Hangs => throw (Error (js "Request timeout"))
  end.

(** [await p] for a promise that is already settled one way or the other. *)
Definition await {A} (p : thrown + A) : Task A := ([], p).

(** [response.json()]. *)
Definition response_json (r : Response) : thrown + value :=
  match bodyText r with
  | Some text =>
      match JSON.parse text with
      | Some v => inr v
      | None => inl SyntaxError
      end
  | None => inl (TypeError (js "Failed to fetch"))
  end.

(** [response.text()]. *)
Definition response_text (r : Response) : thrown + jsstring :=
  match bodyText r with
  | Some text => inr text
  | None => inl (TypeError (js "Failed to fetch"))
  end.

(** [response.blob()], of which the code uses the size. *)
Definition response_blob (r : Response) : thrown + N :=
  match bodyText r with
  | Some _ => inr (bodySize r)
  | None => inl (TypeError (js "Failed to fetch"))
  end.

(** [`HTTP error! status: ${response.status}`]. *)
Definition http_error_message (r : Response) : value :=
  VString (js "HTTP error! status: " ++ decimal (status r)).

(** [contentType && contentType.includes('application/json')], for the
    header that [response.headers.get('content-type')] returns. *)
Definition is_json_type (contentType : option jsstring) : bool :=
  match contentType with
  | Some contentType =>
      negb (str_eqb contentType []) && includes contentType (js "application/json")
  | None => false
  end.

(** The two variables [handleResponse] assigns, and what its [try] block
    threw, if it threw. *)
Record ErrorState := {
  errorMessage : value;
  errorData : value;
  parseError : option thrown
}.

(** The [try] block of [handleResponse], from the initial values of the two
    variables: an assignment made before a throw stays. *)
Definition read_error (r : Response) : ErrorState :=
  let errorMessage := http_error_message r in
  let errorData := VNull in
  if is_json_type (contentType r) then
    match response_json r with
    | inl e => {| errorMessage := errorMessage; errorData := errorData; parseError := Some e |}
    | inr parsed =>
        let errorData := parsed in
        match errorData with
        | VNull =>
            {| errorMessage := errorMessage; errorData := errorData;
               parseError := Some (TypeError (js "Cannot read properties of null")) |}
        | _ =>
            {| errorMessage := or_else (get errorData (js "message")) errorMessage;
               errorData := errorData; parseError := None |}
        end
    end
  else
    match response_text r with
    | inl e => {| errorMessage := errorMessage; errorData := errorData; parseError := Some e |}
    | inr text =>
        {| errorMessage := or_else (VString text) errorMessage;
           errorData := errorData; parseError := None |}
    end.

(** [handleResponse]. *)
Definition handleResponse (r : Response) : Task Response :=
  if negb (ok r) then
    let st := read_error r in
    match parseError st with
    | Some e => emit (ConsoleError (js "Error parsing error response:") e)
    | None => ret tt
    end ;;;
    throw (ApiError (errorMessage st) (status r) (errorData st))
  else ret r.

(** [JSON.stringify(v)] as the body of a request. *)
Definition stringify (v : value) : Task Body :=
  if has_bigint v then throw (TypeError (js "Do not know how to serialize a BigInt"))
  else ret (JsonBody v).

(** The anchor that is made, clicked and removed. *)
Definition download (size : N) (filename : jsstring) : Task unit :=
  emit (Download filename size).

(** The [catch] block every operation ends with. *)
Definition rethrow {A} (label failure : jsstring) (error : thrown) : Task A :=
  emit (ConsoleError label error) ;;;
  throw (if instanceof_ApiError error then error else ApiError2 failure 500).

Definition json_headers : list (jsstring * jsstring) :=
  [(js "Content-Type", js "application/json")].

(** The [options] of the request of [convertJsonToZip]. *)
Definition convertJsonToZip_options (options : obj) : obj :=
  obj_spread
    [ (js "compression", or_else (obj_get options (js "compression")) (VString (js "DEFLATE")));
      (js "compressionLevel", or_else (obj_get options (js "compressionLevel")) (VNumber (of_N 6)));
      (js "createFolders", or_else (obj_get options (js "createFolders")) (VBool false)) ]
    options.

Definition convertJsonToZip_requestBody (jsonData : value) (filename : jsstring)
  (options : obj) : value :=
  VObject [ (js "data", jsonData);
            (js "filename", VString filename);
            (js "options", VObject (convertJsonToZip_options options)) ].

(** [convertJsonToZip]. *)
Definition convertJsonToZip (jsonData : value) (filename : jsstring) (options : obj)
  : Task value :=
  try_catch
    (if negb (ToBoolean jsonData) || negb (str_eqb (typeof jsonData) (js "object")) then
       throw (ApiError2 (js "Invalid JSON data provided") 400)
     else
       let requestBody := convertJsonToZip_requestBody jsonData filename options in
       payload <- stringify requestBody ;;
       response <- fetchWithTimeout
                     {| url := API_BASE_URL ++ js "/convert/json-to-zip";
                        method := js "POST";
                        headers := json_headers;
                        body := payload |} REQUEST_TIMEOUT ;;
       handleResponse response ;;;
       blob <- await (response_blob response) ;;
       download blob filename ;;;
       ret (VObject [ (js "success", VBool true);
                      (js "filename", VString filename);
                      (js "size", VNumber (of_N blob)) ]))
    (rethrow (js "Error converting JSON to ZIP:") (js "Failed to convert JSON to ZIP")).

(** [s.replace(p, '')] for a string [p]: its first occurrence goes. *)
Fixpoint remove_first (s p : jsstring) : jsstring :=
  if starts_with p s then skipn (List.length p) s
  else
    match s with
    | [] => []
    | c :: s' => c :: remove_first s' p
    end.

(** [uploadAndConvertJson]; [null] for [file] or [outputFilename] is
    [None]. *)
Definition uploadAndConvertJson (file : option File) (outputFilename : option jsstring)
  (options : obj) : Task value :=
  try_catch
    (match file with
     | None => throw (ApiError2 (js "Please provide a valid JSON file") 400)
     | Some file =>
         if negb (str_eqb (type file) (js "application/json")) then
           throw (ApiError2 (js "Please provide a valid JSON file") 400)
         else
           let given :=
             match outputFilename with
             | Some n => if str_eqb n [] then None else Some n
             | None => None
             end in
           let fields1 := [(js "file", FormFile file)] in
           let fields2 :=
             match given with
             | Some n => fields1 ++ [(js "filename", FormText n)]
             | None => fields1
             end in
           fields3 <-
             (if 0 <? N.of_nat (List.length options) then
                stringify (VObject options) ;;;
                ret (fields2 ++ [(js "options", FormJson (VObject options))])
              else ret fields2) ;;
           response <- fetchWithTimeout
                         {| url := API_BASE_URL ++ js "/convert/upload-json-to-zip";
                            method := js "POST";
                            headers := [];
                            body := FormData fields3 |} REQUEST_TIMEOUT ;;
           handleResponse response ;;;
           blob <- await (response_blob response) ;;
           let filename :=
             match given with
             | Some n => n
             | None => remove_first (name file) (js ".json") ++ js ".zip"
             end in
           download blob filename ;;;
           ret (VObject [ (js "success", VBool true);
                          (js "originalFile", VString (name file));
                          (js "outputFile", VString filename);
                          (js "size", VNumber (of_N blob)) ])
     end)
    (rethrow (js "Error uploading and converting JSON:")
             (js "Failed to upload and convert JSON file")).

(** [getConversionStatus]. *)
Definition getConversionStatus (jobId : jsstring) : Task value :=
  try_catch
    (if str_eqb jobId [] then throw (ApiError2 (js "Job ID is required") 400)
     else
       response <- fetchWithTimeout
                     {| url := API_BASE_URL ++ js "/convert/status/" ++ jobId;
                        method := js "GET";
                        headers := [];
                        body := NoBody |} REQUEST_TIMEOUT ;;
       handleResponse response ;;;
       await (response_json response))
    (rethrow (js "Error getting conversion status:") (js "Failed to get conversion status")).

(** The [options] of the request of [convertMultipleJsonToZip]. *)
Definition convertMultipleJsonToZip_options (options : obj) : obj :=
  obj_spread
    [ (js "compression", or_else (obj_get options (js "compression")) (VString (js "DEFLATE")));
      (js "compressionLevel", or_else (obj_get options (js "compressionLevel")) (VNumber (of_N 6)));
      (js "createSeparateFiles", or_else (obj_get options (js "createSeparateFiles")) (VBool true));
      (js "fileNaming", or_else (obj_get options (js "fileNaming")) (VString (js "auto"))) ]
    options.

Definition convertMultipleJsonToZip_requestBody (jsonArray : value) (filename : jsstring)
  (options : obj) : value :=
  VObject [ (js "data", jsonArray);
            (js "filename", VString filename);
            (js "options", VObject (convertMultipleJsonToZip_options options)) ].

(** [convertMultipleJsonToZip]. *)
Definition convertMultipleJsonToZip (jsonArray : value) (filename : jsstring) (options : obj)
  : Task value :=
  try_catch
    (if negb (Array_isArray jsonArray) || (array_length jsonArray =? 0) then
       throw (ApiError2 (js "Please provide a non-empty array of JSON objects") 400)
     else
         let requestBody := convertMultipleJsonToZip_requestBody jsonArray filename options in
         payload <- stringify requestBody ;;
         response <- fetchWithTimeout
                       {| url := API_BASE_URL ++ js "/convert/batch-json-to-zip";
                          method := js "POST";
                          headers := json_headers;
                          body := payload |} REQUEST_TIMEOUT ;;
         handleResponse response ;;;
         blob <- await (response_blob response) ;;
         download blob filename ;;;
         ret (VObject [ (js "success", VBool true);
                        (js "filename", VString filename);
                        (js "itemsProcessed", VNumber (of_N (array_length jsonArray)));
                        (js "size", VNumber (of_N blob)) ]))
    (rethrow (js "Error converting multiple JSON objects to ZIP:")
             (js "Failed to convert multiple JSON objects to ZIP")).

(** [validateJsonData] of the client: the service validates. *)
Definition validateJsonData (jsonData : value) : Task value :=
  try_catch
    (payload <- stringify (VObject [(js "data", jsonData)]) ;;
     response <- fetchWithTimeout
                   {| url := API_BASE_URL ++ js "/validate/json";
                      method := js "POST";
                      headers := json_headers;
                      body := payload |} REQUEST_TIMEOUT ;;
     handleResponse response ;;;
     await (response_json response))
    (rethrow (js "Error validating JSON data:") (js "Failed to validate JSON data")).

(** [getSupportedFormats]. *)
Definition getSupportedFormats : Task value :=
  try_catch
    (response <- fetchWithTimeout
                   {| url := API_BASE_URL ++ js "/formats";
                      method := js "GET";
                      headers := [];
                      body := NoBody |} REQUEST_TIMEOUT ;;
     handleResponse response ;;;
     await (response_json response))
    (rethrow (js "Error getting supported formats:") (js "Failed to get supported formats")).

End Client.

End Api.

(** ** What the specification says, in the terms of the model *)

Module Contract.

Import FileUtils.

(** The two shapes of a validation result. *)
Definition invalid (error : jsstring) : ValidationResult :=
  {| isValid := false; errors := [error] |}.

Definition valid : ValidationResult := {| isValid := true; errors := [] |}.

(** An object or an array. *)
Definition container (v : value) : bool :=
  match v with
  | VArray _ | VObject _ => true
  | _ => false
  end.

(** The contract of [validateJsonData], case by case.  A text that parses
    to [null] is in none of the cases. *)
Inductive expected : value -> ValidationResult -> Prop :=
| required data :
    ToBoolean data = false ->
    expected data (invalid (js "Data is required"))
| bad_format text :
    text <> [] ->
    JSON.parse text = None ->
    expected (VString text) (invalid (js "Invalid JSON format"))
| parsed_scalar text v :
    JSON.parse text = Some v ->
    container v = false ->
    v <> VNull ->
    expected (VString text) (invalid (js "JSON must be an object or array"))
| parsed_container text v :
    JSON.parse text = Some v ->
    container v = true ->
    expected (VString text) valid
| given_scalar data :
    ToBoolean data = true ->
    (forall text, data <> VString text) ->
    container data = false ->
    expected data (invalid (js "JSON must be an object or array"))
| given_container data :
    container data = true ->
    expected data valid.

(** A file fails one of the three validations: of its type, of its size, of
    its text as JSON. *)
Definition fails_validation (f : File) : bool :=
  negb (validateFileType f default_allowedTypes)
  || negb (validateFileSize f default_maxSize)
  || match content f with
     | Some text => negb (isValid (validateJsonData (VString text)))
     | None => false
     end.

(** A file fails one of the four steps: the three validations and the read
    of its text. *)
Definition fails (f : File) : bool :=
  fails_validation f
  || match content f with
     | Some _ => false
     | None => true
     end.

(** Why a failing file fails, as the message says it. *)
Definition reason (f : File) : jsstring :=
  if negb (validateFileType f default_allowedTypes) then js "Invalid file type: " ++ type f
  else if negb (validateFileSize f default_maxSize) then js "File size exceeds limit"
  else
    match content f with
    | None => js "undefined"
    | Some text =>
        js "Invalid JSON in " ++ name f ++ js ": "
        ++ join (js ", ") (errors (validateJsonData (VString text)))
    end.

(** The record of a file: its name, its size, and what its text parses to. *)
Definition record_of (f : File) (r : ParsedFile) : Prop :=
  filename r = name f /\
  psize r = size f /\
  exists text, content f = Some text /\ JSON.parse text = Some (data r).

(** Two files to try the batch parser on: one that cannot be read, one of a
    type that is not allowed; and two that pass. *)
Definition unreadable_json : File :=
  {| name := js "a.json"; type := js "application/json"; size := 20; content := None |}.

Definition picture : File :=
  {| name := js "b.png"; type := js "image/png"; size := 20; content := Some (js "{}") |}.

Definition settings_json : File :=
  {| name := js "settings.json"; type := js "application/json"; size := 11;
     content := Some (quoted "{'dark':true}") |}.

Definition list_txt : File :=
  {| name := js "list.txt"; type := js "text/plain"; size := 7;
     content := Some (js "[1,2,3]") |}.

Definition number_json : File :=
  {| name := js "n.json"; type := js "application/json"; size := 2;
     content := Some (js "42") |}.

(** A file passes the three validations: its text was read and is valid. *)
Definition passes (f : File) : bool :=
  validateFileType f default_allowedTypes
  && validateFileSize f default_maxSize
  && match content f with
     | Some text => isValid (validateJsonData (VString text))
     | None => false
     end.

(** The characters that [sanitizeFilename] keeps: the letters of either
    case, the digits, the dot and the hyphen. *)
Definition kept_characters : jsstring :=
  js "abcdefghijklmnopqrstuvwxyzABCDEFGHIJKLMNOPQRSTUVWXYZ0123456789.-".

Definition kept (c : N) : bool := existsb (N.eqb c) kept_characters.

(** Every other character becomes an underscore. *)
Definition underscore_others (s : jsstring) : jsstring :=
  map (fun c => if kept c then c else underscore) s.

(** A run of underscores becomes one underscore: an underscore that comes
    right after another one is dropped. *)
Fixpoint collapse (after_underscore : bool) (s : jsstring) : jsstring :=
  match s with
  | [] => []
  | c :: s' =>
      if c =? underscore then
        if after_underscore then collapse true s' else c :: collapse true s'
      else c :: collapse false s'
  end.

(** The underscores at the start are dropped. *)
Fixpoint drop_underscores (s : jsstring) : jsstring :=
  match s with
  | [] => []
  | c :: s' => if c =? underscore then drop_underscores s' else s
  end.

(** The underscores at the start and at the end are dropped. *)
Definition trim (s : jsstring) : jsstring :=
  rev (drop_underscores (rev (drop_underscores s))).

(** [sanitizeFilename] as the specification words it. *)
Definition sanitize_spec (filename : jsstring) : jsstring :=
  trim (collapse false (underscore_others filename)).

Definition starts_with_underscore (s : jsstring) : bool :=
  match s with
  | c :: _ => c =? underscore
  | [] => false
  end.

Definition ends_with_underscore (s : jsstring) : bool :=
  starts_with_underscore (rev s).

(** Two underscores in a row somewhere in [s]. *)
Fixpoint has_double_underscore (s : jsstring) : bool :=
  match s with
  | [] => false
  | c :: s' =>
      ((c =? underscore) && starts_with_underscore s') || has_double_underscore s'
  end.

(** [s] has a dot. *)
Definition has_dot (s : jsstring) : bool := existsb (N.eqb 46) s.


(** The operations of the client, each with its arguments. *)
Inductive operation :=
| ConvertJsonToZip (jsonData : value) (filename : jsstring) (options : obj)
| UploadAndConvertJson (file : option File) (outputFilename : option jsstring) (options : obj)
| GetConversionStatus (jobId : jsstring)
| ConvertMultipleJsonToZip (jsonArray : value) (filename : jsstring) (options : obj)
| ValidateJsonData (jsonData : value)
| GetSupportedFormats.

(** A call of an operation, in an environment. *)
Definition call (VITE_API_URL : option jsstring) (network : Api.Request -> Api.Network)
  (op : operation) : Api.Task value :=
  match op with
  | ConvertJsonToZip jsonData filename options =>
      Api.convertJsonToZip VITE_API_URL network jsonData filename options
  | UploadAndConvertJson file outputFilename options =>
      Api.uploadAndConvertJson VITE_API_URL network file outputFilename options
  | GetConversionStatus jobId =>
      Api.getConversionStatus VITE_API_URL network jobId
  | ConvertMultipleJsonToZip jsonArray filename options =>
      Api.convertMultipleJsonToZip VITE_API_URL network jsonArray filename options
  | ValidateJsonData jsonData =>
      Api.validateJsonData VITE_API_URL network jsonData
  | GetSupportedFormats =>
      Api.getSupportedFormats VITE_API_URL network
  end.

(** The message of the error an operation raises when it fails for a
    reason that is not an [ApiError] already. *)
Definition failure_text (op : operation) : jsstring :=
  match op with
  | ConvertJsonToZip _ _ _ => js "Failed to convert JSON to ZIP"
  | UploadAndConvertJson _ _ _ => js "Failed to upload and convert JSON file"
  | GetConversionStatus _ => js "Failed to get conversion status"
  | ConvertMultipleJsonToZip _ _ _ => js "Failed to convert multiple JSON objects to ZIP"
  | ValidateJsonData _ => js "Failed to validate JSON data"
  | GetSupportedFormats => js "Failed to get supported formats"
  end.

(** The timer fires before the request settles. *)
Definition timed_out (n : Api.Network) : bool :=
  match n with
  | Api.Settles after _ => Api.REQUEST_TIMEOUT <=? after
  | Api.Hangs => true
  end.

(** The request fails, before the timer fires. *)
Definition network_failure (n : Api.Network) : bool :=
  match n with
  | Api.Settles after (Api.Failed _) => after <? Api.REQUEST_TIMEOUT
  | _ => false
  end.

(** The request is answered with [r] before the timer fires. *)
Definition answered (n : Api.Network) (r : Api.Response) : Prop :=
  exists after,
    n = Api.Settles after (Api.Fulfilled r) /\ (after <? Api.REQUEST_TIMEOUT) = true.






Definition hanging : Api.Request -> Api.Network := fun _ => Api.Hangs.

Definition offline : Api.Request -> Api.Network :=
  fun _ => Api.Settles 120 (Api.Failed (js "Failed to fetch")).

Definition answering (r : Api.Response) : Api.Request -> Api.Network :=
  fun _ => Api.Settles 250 (Api.Fulfilled r).

(** The outcome of the race of a request with the timer. *)
Definition raced (n : Api.Network) : Api.thrown + Api.Response :=
  match n with
  | Api.Settles after o =>
      if after <? Api.REQUEST_TIMEOUT then
        match o with
        | Api.Fulfilled r => inr r
        | Api.Failed message => inl (Api.TypeError message)
        end
      else inl (Api.Error (js "Request timeout"))
  | Api.Hangs => inl (Api.Error (js "Request timeout"))
  end.

End Contract.

(** ** Names with a timestamp *)

Module Timestamp.

(** [.replace(/[:.]/g, '-')]. *)
Definition replace_colon_dot (s : jsstring) : jsstring :=
  map (fun c => if (c =? 58) || (c =? 46) then 45 else c) s.

(** [s.slice(0, -n)]: all of [s] but its last [n] code units, nothing when
    [s] has no more than [n]. *)
Definition slice_off (n : nat) (s : jsstring) : jsstring :=
  firstn (List.length s - n) s.

Definition default_baseName : jsstring := js "converted".

Definition default_extension : jsstring := js "zip".

(** [generateFilename] of fileUtils, at the moment when
    [new Date().toISOString()] is [now]. *)
Definition generateFilename (now baseName extension : jsstring) : jsstring :=
  let timestamp := slice_off 5 (replace_colon_dot now) in
  baseName ++ js "-" ++ timestamp ++ js "." ++ extension.

(** A piece of text without colon or dot. *)
Definition plain (s : jsstring) : bool :=
  forallb (fun c => negb ((c =? 58) || (c =? 46))) s.

End Timestamp.

(** ** Shapes of names *)

Module Names.

Import FileUtils Contract.

(** A name that [sanitizeFilename] has nothing to do on: kept characters
    and underscores only, no underscore at either end, no two in a row. *)
Definition clean (s : jsstring) : bool :=
  forallb (fun c => kept c || (c =? underscore)) s
  && negb (starts_with_underscore s)
  && negb (ends_with_underscore s)
  && negb (has_double_underscore s).

End Names.

(** ** The drop zone: the other handlers, and a session *)

Module Zone.

Import FileUtils DropZone.

(** [a.filter((_, index) => keep(index))], from index [i] on. *)
Fixpoint filter_index {A} (keep : nat -> bool) (i : nat) (a : list A) : list A :=
  match a with
  | [] => []
  | x :: a' =>
      if keep i then x :: filter_index keep (S i) a' else filter_index keep (S i) a'
  end.

Section Component.

Variable acceptedTypes : list jsstring.
Variable maxFileSize : N.
Variable multiple : bool.
Variable disabled : bool.

(** [handleDragEnter]. *)
Definition handleDragEnter (st : State) (e : DragEvent) : State :=
  if disabled || negb (isDragEventWithFiles e) then st
  else {| isDragOver := true; files := files st; shown := shown st |}.

(** [handleDragLeave]; [inside] is [e.currentTarget.contains(e.relatedTarget)]. *)
Definition handleDragLeave (st : State) (inside : bool) : State :=
  if inside then st
  else {| isDragOver := false; files := files st; shown := shown st |}.

(** [handleDragOver] writes no state. *)
Definition handleDragOver (st : State) : State := st.

(** [removeFile]: the new state and what [onFilesSelected] receives. *)
Definition removeFile (st : State) (indexToRemove : nat) : State * option (list File) :=
  let newFiles := filter_index (fun index => negb (Nat.eqb index indexToRemove)) 0 (files st) in
  ({| isDragOver := isDragOver st; files := newFiles; shown := shown st |}, Some newFiles).

(** [clearAllFiles]. *)
Definition clearAllFiles (st : State) : State * option (list File) :=
  ({| isDragOver := isDragOver st; files := []; shown := [] |}, Some []).

(** What happens to the component. *)
Inductive action :=
| DragEnter (e : DragEvent)
| DragLeave (inside : bool)
| DragOver
| Drop (e : DragEvent)
| InputChange (selectedFiles : option (list File))
| RemoveFile (index : nat)
| ClearAll.

(** One action: the new state and the call of [onFilesSelected], if any. *)
Definition step (st : State) (a : action) : State * option (list File) :=
  match a with
  | DragEnter e => (handleDragEnter st e, None)
  | DragLeave inside => (handleDragLeave st inside, None)
  | DragOver => (handleDragOver st, None)
  | Drop e => handleDrop acceptedTypes maxFileSize multiple disabled st e
  | InputChange selectedFiles =>
      handleFileInputChange acceptedTypes maxFileSize multiple st selectedFiles
  | RemoveFile index => removeFile st index
  | ClearAll => clearAllFiles st
  end.

(** A session: the actions one after the other, each on the state the one
    before left; the last state and the calls of [onFilesSelected] in
    order. *)
Fixpoint run (st : State) (actions : list action) : State * list (list File) :=
  match actions with
  | [] => (st, [])
  | a :: rest =>
      let (st', call) := step st a in
      let (final, calls) := run st' rest in
      (final, match call with Some arg => arg :: calls | None => calls end)
  end.

(** A drag that enters with files. *)
Definition enters_with_files (a : action) : bool :=
  match a with
  | DragEnter e => isDragEventWithFiles e
  | _ => false
  end.

End Component.

(** The state of a component that was just mounted. *)
Definition initial : State := {| isDragOver := false; files := []; shown := [] |}.

End Zone.

(** ** Runs of the client, in words *)

Module Runs.

Import FileUtils Contract.

Definition is_fetch (ev : Api.event) : bool :=
  match ev with
  | Api.Fetch _ => true
  | _ => false
  end.

Definition is_download (ev : Api.event) : bool :=
  match ev with
  | Api.Download _ _ => true
  | _ => false
  end.

(** How many requests, and how many downloads, a run has made. *)
Definition fetches (t : list Api.event) : nat := List.length (filter is_fetch t).

Definition downloads (t : list Api.event) : nat := List.length (filter is_download t).

(** The arguments an operation refuses: data that is not an object or an
    array, no file or a file whose type is not [application/json], an empty
    job identifier, what is not an array with an element. *)
Definition refused (op : operation) : bool :=
  match op with
  | ConvertJsonToZip jsonData _ _ => negb (container jsonData)
  | UploadAndConvertJson file _ _ =>
      match file with
      | Some f => negb (str_eqb (type f) (js "application/json"))
      | None => true
      end
  | GetConversionStatus jobId => str_eqb jobId js_empty
  | ConvertMultipleJsonToZip jsonArray _ _ =>
      match jsonArray with
      | VArray (_ :: _) => false
      | _ => true
      end
  | ValidateJsonData _ => false
  | GetSupportedFormats => false
  end.

(** What it says then. *)
Definition refusal (op : operation) : jsstring :=
  match op with
  | ConvertJsonToZip _ _ _ => js "Invalid JSON data provided"
  | UploadAndConvertJson _ _ _ => js "Please provide a valid JSON file"
  | GetConversionStatus _ => js "Job ID is required"
  | ConvertMultipleJsonToZip _ _ _ => js "Please provide a non-empty array of JSON objects"
  | ValidateJsonData _ => js_empty
  | GetSupportedFormats => js_empty
  end.

(** The value an operation hands to [JSON.stringify], when it hands one. *)
Definition stringified (op : operation) : option value :=
  match op with
  | ConvertJsonToZip jsonData filename options =>
      Some (Api.convertJsonToZip_requestBody jsonData filename options)
  | UploadAndConvertJson _ _ options =>
      match options with
      | [] => None
      | _ => Some (VObject options)
      end
  | GetConversionStatus _ => None
  | ConvertMultipleJsonToZip jsonArray filename options =>
      Some (Api.convertMultipleJsonToZip_requestBody jsonArray filename options)
  | ValidateJsonData jsonData => Some (VObject [(js "data", jsonData)])
  | GetSupportedFormats => None
  end.

(** It holds a BigInt, which [JSON.stringify] throws on. *)
Definition unserializable (op : operation) : bool :=
  match stringified op with
  | Some v => Api.has_bigint v
  | None => false
  end.

(** The operations that end with a download. *)
Definition converts (op : operation) : bool :=
  match op with
  | ConvertJsonToZip _ _ _ | UploadAndConvertJson _ _ _ | ConvertMultipleJsonToZip _ _ _ => true
  | _ => false
  end.

Definition resolved {A} (o : Api.thrown + A) : bool :=
  match o with
  | inr _ => true
  | inl _ => false
  end.

(** The name the caller gives to the download, when it gives one. *)
Definition given_name (op : operation) : option jsstring :=
  match op with
  | ConvertJsonToZip _ filename _ => Some filename
  | ConvertMultipleJsonToZip _ filename _ => Some filename
  | UploadAndConvertJson _ (Some n) _ => if str_eqb n js_empty then None else Some n
  | _ => None
  end.

(** The key under which the result of a converting operation has the name
    of the download. *)
Definition name_key (op : operation) : jsstring :=
  match op with
  | UploadAndConvertJson _ _ _ => js "outputFile"
  | _ => js "filename"
  end.

(** A response that is a success, with a body that can be read. *)
Definition zip_response (size : N) : Api.Response :=
  {| Api.status := 200; Api.contentType := Some (js "application/zip");
     Api.bodyText := Some (js "PK"); Api.bodySize := size |}.

End Runs.

(** ** The pages

    [App] and [FileConverter] are the two pages with a text area for the
    JSON and a button that converts it.  A handler is a function on the
    state of the component; what it does to the outside is a list of
    events. *)

Module Text.

(** The code units that [trim] takes off: the white space and the line
    terminators of the language. *)
Definition is_white (c : N) : bool :=
  (c =? 9) || (c =? 10) || (c =? 11) || (c =? 12) || (c =? 13) || (c =? 32)
  || (c =? 160) || (c =? 5760) || ((8192 <=? c) && (c <=? 8202))
  || (c =? 8232) || (c =? 8233) || (c =? 8239) || (c =? 8287)
  || (c =? 12288) || (c =? 65279).

Fixpoint trimStart (s : jsstring) : jsstring :=
  match s with
  | c :: s' => if is_white c then trimStart s' else s
  | [] => []
  end.

Definition trimEnd (s : jsstring) : jsstring := rev (trimStart (rev s)).

(** [s.trim()]. *)
Definition trim (s : jsstring) : jsstring := trimEnd (trimStart s).

(** [!s.trim()]. *)
Definition blank (s : jsstring) : bool := str_eqb (trim s) js_empty.

(** [s.endsWith(p)]. *)
Definition endsWith (s p : jsstring) : bool := starts_with (rev p) (rev s).

End Text.

Module App.

Import Text.

Record State := {
  jsonInput : jsstring;
  isLoading : bool;
  status : jsstring;
  error : jsstring
}.

Definition initial : State :=
  {| jsonInput := js_empty; isLoading := false; status := js_empty; error := js_empty |}.

Definition setJsonInput (st : State) (text : jsstring) : State :=
  {| jsonInput := text; isLoading := isLoading st; status := status st; error := error st |}.

Definition setIsLoading (st : State) (b : bool) : State :=
  {| jsonInput := jsonInput st; isLoading := b; status := status st; error := error st |}.

Definition setStatus (st : State) (text : jsstring) : State :=
  {| jsonInput := jsonInput st; isLoading := isLoading st; status := text; error := error st |}.

Definition setError (st : State) (text : jsstring) : State :=
  {| jsonInput := jsonInput st; isLoading := isLoading st; status := status st; error := text |}.

Definition validateJSON (text : jsstring) : bool :=
  match JSON.parse text with
  | Some _ => true
  | None => false
  end.

Inductive event :=
| Fetch (req : Api.Request)
| Download (name : jsstring) (size : N)
| SetTimeout (ms : N).

(** An [async] handler has run to its end, or waits for ever at an
    [await]; the state is the one the page shows then. *)
Inductive progress :=
| Settled (st : State)
| Pending (st : State).

(** What [convertToZip] gives to [JSON.stringify], for the parsed input. *)
Definition requestBody (parsed : value) : value :=
  VObject [ (js "data", parsed);
            (js "filename", VString (js "converted-data.json")) ].

(** The request of [convertToZip] for the parsed input. *)
Definition request (parsed : value) : Api.Request :=
  {| Api.url := js "/api/convert-to-zip";
     Api.method := js "POST";
     Api.headers := [(js "Content-Type", js "application/json")];
     Api.body := Api.JsonBody (requestBody parsed) |}.

(** [convertToZip]: [fetch] is called as it is, with no timer beside it. *)
Definition convertToZip (network : Api.Request -> Api.Network) (st : State)
  : list event * progress :=
  if blank (jsonInput st) then
    ([], Settled (setError st (js "Please enter JSON data")))
  else if negb (validateJSON (jsonInput st)) then
    ([], Settled (setError st (js "Invalid JSON format")))
  else
    let st1 := setStatus (setError (setIsLoading st true) js_empty)
                 (js "Converting JSON to ZIP...") in
    let caught (t : list event) :=
      (t, Settled (setIsLoading
                     (setError st1 (js "Failed to convert JSON to ZIP. Please try again."))
                     false)) in
    match JSON.parse (jsonInput st) with
    | None => caught []
    | Some parsed =>
        if Api.has_bigint (requestBody parsed) then caught []
        else
          match network (request parsed) with
          | Api.Hangs => ([Fetch (request parsed)], Pending st1)
          | Api.Settles _ (Api.Failed _) => caught [Fetch (request parsed)]
          | Api.Settles _ (Api.Fulfilled response) =>
              if negb (Api.ok response) then caught [Fetch (request parsed)]
              else
                match Api.response_blob response with
                | inl _ => caught [Fetch (request parsed)]
                | inr blob =>
                    ([Fetch (request parsed);
                      Download (js "converted-data.zip") blob;
                      SetTimeout 3000],
                     Settled (setIsLoading
                                (setStatus st1 (js "ZIP file downloaded successfully!"))
                                false))
                end
          end
    end.

(** The service answered with a success whose body can be read. *)
Definition delivered (n : Api.Network) : bool :=
  match n with
  | Api.Settles _ (Api.Fulfilled response) =>
      Api.ok response &&
      match Api.bodyText response with
      | Some _ => true
      | None => false
      end
  | _ => false
  end.

(** The function given to [setTimeout] in [convertToZip]. *)
Definition clearStatus (st : State) : State := setStatus st js_empty.

(** [handleFileUpload], with the files of the input; the state is the one
    after the reader has loaded the file, when it reads one: a read that
    fails has no listener. *)
Definition handleFileUpload (st : State) (files : list FileUtils.File) : State :=
  match files with
  | file :: _ =>
      if str_eqb (FileUtils.type file) (js "application/json") then
        match FileUtils.content file with
        | Some result => setError (setJsonInput st result) js_empty
        | None => st
        end
      else setError st (js "Please select a valid JSON file")
  | [] => setError st (js "Please select a valid JSON file")
  end.

Definition clearInput (st : State) : State :=
  setStatus (setError (setJsonInput st js_empty) js_empty) js_empty.

(** [onChange] of the text area. *)
Definition handleChange (st : State) (text : jsstring) : State :=
  setError (setJsonInput st text) js_empty.

(** [disabled] of the button that converts. *)
Definition convert_disabled (st : State) : bool :=
  blank (jsonInput st) || negb (validateJSON (jsonInput st)) || isLoading st.

End App.

Module FileConverter.

Import Text.

Record State := {
  jsonInput : jsstring;
  isConverting : bool;
  error : jsstring;
  success : jsstring;
  dragActive : bool
}.

Definition initial : State :=
  {| jsonInput := js_empty; isConverting := false; error := js_empty;
     success := js_empty; dragActive := false |}.

Definition setJsonInput (st : State) (text : jsstring) : State :=
  {| jsonInput := text; isConverting := isConverting st; error := error st;
     success := success st; dragActive := dragActive st |}.

Definition setIsConverting (st : State) (b : bool) : State :=
  {| jsonInput := jsonInput st; isConverting := b; error := error st;
     success := success st; dragActive := dragActive st |}.

Definition setError (st : State) (text : jsstring) : State :=
  {| jsonInput := jsonInput st; isConverting := isConverting st; error := text;
     success := success st; dragActive := dragActive st |}.

Definition setSuccess (st : State) (text : jsstring) : State :=
  {| jsonInput := jsonInput st; isConverting := isConverting st; error := error st;
     success := text; dragActive := dragActive st |}.

Definition setDragActive (st : State) (b : bool) : State :=
  {| jsonInput := jsonInput st; isConverting := isConverting st; error := error st;
     success := success st; dragActive := b |}.

Definition validateJSON (jsonString : jsstring) : bool :=
  match JSON.parse jsonString with
  | Some _ => true
  | None => false
  end.

(** [handleDrag], with the type of the event. *)
Definition handleDrag (st : State) (type : jsstring) : State :=
  if str_eqb type (js "dragenter") || str_eqb type (js "dragover") then
    setDragActive st true
  else if str_eqb type (js "dragleave") then setDragActive st false
  else st.

(** [handleDrop], with the files of the drop; the state is the one after
    the reader has loaded the file, when it reads one: a read that fails
    has no listener. *)
Definition handleDrop (st : State) (files : list FileUtils.File) : State :=
  let st1 := setDragActive st false in
  match files with
  | file :: _ =>
      if str_eqb (FileUtils.type file) (js "application/json")
         || endsWith (FileUtils.name file) (js ".json") then
        match FileUtils.content file with
        | Some result => setError (setJsonInput st1 result) js_empty
        | None => st1
        end
      else setError st1 (js "Please upload a valid JSON file")
  | [] => st1
  end.

(** [handleFileUpload], with the files of the input; the state is the one
    after the reader has loaded the file, when it reads one. *)
Definition handleFileUpload (st : State) (files : list FileUtils.File) : State :=
  match files with
  | file :: _ =>
      if str_eqb (FileUtils.type file) (js "application/json")
         || endsWith (FileUtils.name file) (js ".json") then
        match FileUtils.content file with
        | Some result => setError (setJsonInput st result) js_empty
        | None => st
        end
      else setError st (js "Please upload a valid JSON file")
  | [] => st
  end.

(** A download: the name, and the value whose text, indented by two, is
    the content. *)
Inductive event :=
| Download (name : jsstring) (content : value)
| ConsoleError (label : jsstring).

(** [convertToZip], at the moment when [new Date().toISOString()] is
    [now]. *)
Definition convertToZip (now : jsstring) (st : State) : list event * State :=
  if blank (jsonInput st) then
    ([], setError st (js "Please provide JSON data to convert"))
  else if negb (validateJSON (jsonInput st)) then
    ([], setError st (js "Invalid JSON format. Please check your input."))
  else
    let st1 := setSuccess (setError (setIsConverting st true) js_empty) js_empty in
    let caught :=
      ([ConsoleError (js "Conversion error:")],
       setIsConverting (setError st1 (js "Failed to convert file. Please try again.")) false) in
    match JSON.parse (jsonInput st) with
    | None => caught
    | Some parsedJson =>
        if Api.has_bigint parsedJson then caught
        else
          let timestamp := Timestamp.replace_colon_dot now in
          let filename := js "converted-data-" ++ timestamp ++ js ".json" in
          ([Download filename parsedJson],
           setIsConverting
             (setSuccess st1 (js "File converted and downloaded successfully!")) false)
    end.

Definition clearInput (st : State) : State :=
  setSuccess (setError (setJsonInput st js_empty) js_empty) js_empty.

(** [onChange] of the text area. *)
Definition handleChange (st : State) (text : jsstring) : State :=
  setSuccess (setError (setJsonInput st text) js_empty) js_empty.

(** [disabled] of the button that converts. *)
Definition convert_disabled (st : State) : bool :=
  blank (jsonInput st) || isConverting st.

End FileConverter.

(** ** Values that [JSON.stringify] takes *)

Module Plain.

Definition plain (v : value) : bool := negb (Api.has_bigint v).

Definition plain_frame (f : JSON.frame) : bool :=
  match f with
  | JSON.FArray items => forallb plain items
  | JSON.FObject props _ => forallb (fun kv => plain (snd kv)) props
  end.

Definition plain_mode (m : JSON.mode) : bool :=
  match m with
  | JSON.MDone v => plain v
  | JSON.MLiteral _ v => plain v
  | _ => true
  end.

Definition plain_state (s : JSON.state) : bool :=
  forallb plain_frame (fst s) && plain_mode (snd s).

End Plain.

(** * Properties *)

Import FileUtils Contract.

(** ** Strings *)

Lemma str_eqb_refl (a : jsstring) : str_eqb a a = true.
Proof.
  induction a as [|x a IH]; simpl; [reflexivity|].
  now rewrite N.eqb_refl, IH.
Qed.

Lemma str_eqb_eq (a b : jsstring) : str_eqb a b = true <-> a = b.
Proof.
  split.
  - revert b; induction a as [|x a IH]; intros [|y b]; simpl; try discriminate; auto.
    intros H; apply andb_true_iff in H as [Hx Hab].
    apply N.eqb_eq in Hx; subst; f_equal; auto.
  - intros ->; apply str_eqb_refl.
Qed.

Lemma str_eqb_neq (a b : jsstring) : str_eqb a b = false <-> a <> b.
Proof.
  split.
  - intros H E; apply str_eqb_eq in E; congruence.
  - intros H; destruct (str_eqb a b) eqn:E; [apply str_eqb_eq in E; contradiction | reflexivity].
Qed.

(** ** [validateJsonData] *)

Lemma typeof_object (v : value) :
  str_eqb (typeof v) (js "object") = container v || match v with VNull => true | _ => false end.
Proof. destruct v; reflexivity. Qed.

Lemma typeof_string (v : value) :
  str_eqb (typeof v) (js "string") = true <-> exists text, v = VString text.
Proof.
  split.
  - destruct v; try discriminate; eauto.
  - intros [text ->]; reflexivity.
Qed.

(** The guard [!data]. *)
Lemma validateJsonData_falsy (data : value) :
  ToBoolean data = false -> validateJsonData data = invalid (js "Data is required").
Proof.
  intros H; unfold validateJsonData; rewrite H; reflexivity.
Qed.

(** A string that is not empty is parsed, and judged by what it parses to. *)
Lemma validateJsonData_text (text : jsstring) :
  text <> [] ->
  validateJsonData (VString text) =
  match JSON.parse text with
  | None => invalid (js "Invalid JSON format")
  | Some v =>
      if str_eqb (typeof v) (js "object") then valid
      else invalid (js "JSON must be an object or array")
  end.
Proof.
  intros H; apply str_eqb_neq in H.
  unfold validateJsonData, isValidJson; cbn [ToBoolean]; rewrite H; cbn [negb].
  destruct (JSON.parse text) as [v|]; cbn [negb]; [|reflexivity].
  destruct (str_eqb (typeof v) (js "object")); reflexivity.
Qed.

(** A truthy value that is not a string is judged as it is. *)
Lemma validateJsonData_given (data : value) :
  ToBoolean data = true ->
  (forall text, data <> VString text) ->
  validateJsonData data =
  if str_eqb (typeof data) (js "object") then valid
  else invalid (js "JSON must be an object or array").
Proof.
  intros H Hs; unfold validateJsonData; rewrite H; cbn [negb].
  destruct data; try (now destruct (Hs s)); try reflexivity.
Qed.

Lemma parse_empty : JSON.parse [] = None.
Proof. reflexivity. Qed.

(** C1 (as amended).  [validateJsonData] keeps its contract case by case: a
    falsy input (null, undefined, the empty string, and also 0, NaN and
    false) gives "Data is required"; a string that is not empty and does not
    parse gives "Invalid JSON format"; a string that parses to a boolean, a
    number or a string, and a truthy value given as it is that is neither an
    object nor an array, give "JSON must be an object or array"; a string
    that parses to an object or an array, and an object or array given as it
    is, are valid.  Every input is in one of these cases, except a string
    that parses to [null]. *)
Theorem validateJsonData_contract :
  (forall data r, expected data r -> validateJsonData data = r) /\
  (forall data,
     (forall text, data = VString text -> JSON.parse text <> Some VNull) ->
     exists r, expected data r).
Proof.
  split.
  - intros data r H; destruct H as
      [data H | text Ht Hp | text v Hp Hc Hn | text v Hp Hc | data Ht Hs Hc | data Hc].
    + now apply validateJsonData_falsy.
    + rewrite validateJsonData_text by assumption. now rewrite Hp.
    + assert (Ht : text <> []) by (intros ->; rewrite parse_empty in Hp; discriminate).
      rewrite validateJsonData_text by assumption. rewrite Hp, typeof_object, Hc.
      destruct v; try reflexivity; congruence.
    + assert (Ht : text <> []) by (intros ->; rewrite parse_empty in Hp; discriminate).
      rewrite validateJsonData_text by assumption. now rewrite Hp, typeof_object, Hc.
    + rewrite validateJsonData_given by assumption. rewrite typeof_object, Hc.
      destruct data; try reflexivity; discriminate.
    + rewrite validateJsonData_given.
      * now rewrite typeof_object, Hc.
      * destruct data; try discriminate; reflexivity.
      * intros text ->; discriminate.
  - intros data Hnull.
    destruct (ToBoolean data) eqn:Ht; [|eexists; now apply required].
    destruct data as [ | |b|n|z|text|id|id|items|props];
      try discriminate;
      try (eexists; apply given_scalar; [assumption | intros t; discriminate | reflexivity]);
      try (eexists; apply given_container; reflexivity).
    destruct (JSON.parse text) as [v|] eqn:Hp.
    + destruct (container v) eqn:Hc.
      * eexists; eapply parsed_container; eassumption.
      * eexists; eapply parsed_scalar; try eassumption.
        intros ->; now apply (Hnull text).
    + eexists; apply bad_format; [|assumption].
      intros ->; discriminate.
Qed.

(** The contract at a string that parses to a number. *)
Lemma validateJsonData_contract_witness :
  validateJsonData (VString (js "12")) = invalid (js "JSON must be an object or array").
Proof.
  apply (proj1 validateJsonData_contract).
  apply (parsed_scalar (js "12") (VNumber (Fin false 12 0))).
  - reflexivity.
  - reflexivity.
  - discriminate.
Defined.

(** The number 0, given as it is, is neither an object nor an array, and is
    not told "JSON must be an object or array"; the text [null] parses to a
    value that is neither, and is found valid. *)
Lemma validateJsonData_zero_and_null_text :
  validateJsonData (VNumber (of_N 0)) <> invalid (js "JSON must be an object or array") /\
  JSON.parse (js "null") = Some VNull /\
  validateJsonData (VString (js "null")) = valid.
Proof.
  split; [discriminate | split; reflexivity].
Qed.

(** C10.  A falsy input that is not [null] and not the empty string (the
    number 0, the boolean false, NaN) gets the answer that missing input
    gets: invalid, with the one error "Data is required". *)
Theorem validateJsonData_falsy_is_missing :
  validateJsonData (VNumber (of_N 0)) = invalid (js "Data is required") /\
  validateJsonData (VBool false) = invalid (js "Data is required") /\
  validateJsonData (VNumber NaN) = invalid (js "Data is required") /\
  (forall data,
     ToBoolean data = false ->
     validateJsonData data = invalid (js "Data is required") /\
     validateJsonData data = validateJsonData VNull /\
     validateJsonData data = validateJsonData VUndefined).
Proof.
  repeat (split; [reflexivity|]).
  intros d H; rewrite (validateJsonData_falsy d H); repeat split.
Qed.

(** Negative zero is missing input too. *)
Lemma validateJsonData_falsy_is_missing_witness :
  validateJsonData (VNumber (Fin true 0 0)) = validateJsonData VNull.
Proof.
  apply (proj2 (proj2 (proj2 validateJsonData_falsy_is_missing))).
  reflexivity.
Defined.

(** The second parse of [validateJsonData] cannot fail after the first:
    "Failed to parse JSON" is never among the errors. *)
Lemma validateJsonData_parses_once (d : value) :
  ~ In (js "Failed to parse JSON") (FileUtils.errors (validateJsonData d)).
Proof.
  destruct (ToBoolean d) eqn:Ht.
  - destruct d as [ | |b|n|z|text|id|id|items|props];
      try (rewrite validateJsonData_given by (assumption || (intros t; discriminate));
           cbn; intuition discriminate).
    assert (Hn : text <> []) by (intros ->; discriminate).
    rewrite validateJsonData_text by assumption.
    destruct (JSON.parse text) as [v|]; [|cbn; intuition discriminate].
    destruct (str_eqb (typeof v) (js "object")); cbn; intuition discriminate.
  - rewrite validateJsonData_falsy by assumption. cbn; intuition discriminate.
Qed.

(** X1.  The text [null], and any text that parses to [null], is found
    valid: the type of [null] is ['object']. *)
Theorem validateJsonData_null_text (text : jsstring) :
  JSON.parse text = Some VNull -> validateJsonData (VString text) = valid.
Proof.
  intros H.
  assert (Hn : text <> []) by (intros ->; discriminate).
  rewrite validateJsonData_text by assumption. now rewrite H.
Qed.

Lemma validateJsonData_null_text_witness :
  validateJsonData (VString (js " null ")) = valid.
Proof.
  apply (validateJsonData_null_text (js " null ")).
  reflexivity.
Defined.

(** ** [parseMultipleJsonFiles] *)

Lemma includes_cons (s p : jsstring) (c : N) :
  includes s p = true -> includes (c :: s) p = true.
Proof.
  intros H; cbn [includes]; fold includes; rewrite H; apply orb_true_r.
Qed.

Lemma starts_with_app (p s : jsstring) : starts_with p (p ++ s) = true.
Proof.
  induction p as [|x p IH]; simpl; [reflexivity|].
  now rewrite N.eqb_refl, IH.
Qed.

(** A string includes each of its pieces. *)
Lemma includes_app (a p b : jsstring) : includes (a ++ p ++ b) p = true.
Proof.
  induction a as [|c a IH].
  - destruct p as [|x p]; [destruct b; reflexivity|].
    change ((x :: p) ++ b) with (x :: (p ++ b)); cbn [app includes].
    change (starts_with (x :: p) (x :: p ++ b)) with (starts_with (x :: p) ((x :: p) ++ b)).
    now rewrite starts_with_app.
  - change ((c :: a) ++ p ++ b) with (c :: (a ++ p ++ b)).
    now apply includes_cons.
Qed.

(** A text that is found valid parses. *)
Lemma valid_parses (text : jsstring) :
  isValid (validateJsonData (VString text)) = true ->
  exists v, JSON.parse text = Some v.
Proof.
  destruct text as [|c text]; [discriminate|].
  rewrite validateJsonData_text by discriminate.
  destruct (JSON.parse (c :: text)) as [v|]; [eauto | discriminate].
Qed.

(** One file that passes: it is read, and its record is pushed. *)
Lemma process_passes (f : File) (results : list ParsedFile) :
  fails f = false ->
  exists r, record_of f r /\ process f results = ([ReadAsText f], inr (results ++ [r])).
Proof.
  unfold fails, fails_validation, process, readFileAsText.
  intros H.
  apply orb_false_iff in H as [H Hread].
  apply orb_false_iff in H as [H Hjson].
  apply orb_false_iff in H as [Htype Hsize].
  rewrite Htype, Hsize.
  destruct (content f) as [text|] eqn:Hc; [|discriminate].
  apply negb_false_iff in Hjson.
  destruct (valid_parses text Hjson) as [v Hv].
  exists {| filename := name f; data := v; psize := size f |}.
  split.
  - repeat split; exists text; auto.
  - cbn. rewrite Hjson, Hv. reflexivity.
Qed.

(** One file that fails: the [try] block throws, with the reason as message,
    and has read the file when its type and size passed. *)
Lemma process_fails (f : File) (results : list ParsedFile) :
  fails f = true ->
  exists tr e,
    process f results = (tr, inl e) /\ message_text e = reason f /\
    tr = (if validateFileType f default_allowedTypes && validateFileSize f default_maxSize
          then [ReadAsText f] else []).
Proof.
  unfold fails, fails_validation, process, readFileAsText, reason.
  intros H.
  destruct (validateFileType f default_allowedTypes); cbn [negb andb orb] in *;
    [|do 2 eexists; repeat split].
  destruct (validateFileSize f default_maxSize); cbn [negb andb orb] in *;
    [|do 2 eexists; repeat split].
  destruct (content f) as [text|]; cbn; [|do 2 eexists; repeat split].
  rewrite orb_false_r in H. rewrite H.
  do 2 eexists; repeat split.
Qed.

(** The loop over files that pass, followed by more files. *)
Lemma parse_loop_passes (pre : list File) :
  forallb (fun f => negb (fails f)) pre = true ->
  exists records,
    Forall2 record_of pre records /\
    forall rest results,
      parse_loop (pre ++ rest) results =
      (map ReadAsText pre ++ fst (parse_loop rest (results ++ records)),
       snd (parse_loop rest (results ++ records))).
Proof.
  induction pre as [|f pre IH]; intros H.
  - exists []; split; [constructor|].
    intros rest results; rewrite app_nil_r; cbn [app map].
    now destruct (parse_loop rest results).
  - cbn [forallb] in H. apply andb_true_iff in H as [Hf Hpre].
    apply negb_true_iff in Hf.
    destruct (IH Hpre) as [records [Hrec Hloop]].
    destruct (process_passes f [] Hf) as [r [Hr _]].
    exists (r :: records); split; [constructor; assumption|].
    intros rest results.
    destruct (process_passes f results Hf) as [r' [Hr' Hp]].
    assert (r' = r) as ->.
    { destruct Hr as (Hn & Hs & t & Ht & Hd), Hr' as (Hn' & Hs' & t' & Ht' & Hd').
      destruct r, r'; cbn in *; subst.
      rewrite Ht in Ht'; injection Ht' as <-.
      rewrite Hd in Hd'; now injection Hd' as <-. }
    change ((f :: pre) ++ rest) with (f :: (pre ++ rest)).
    cbn [parse_loop]. rewrite Hp. cbn [try_catch bind].
    rewrite Hloop, <- app_assoc. reflexivity.
Qed.

Lemma passes_fails (f : File) : passes f = negb (fails f).
Proof.
  unfold passes, fails, fails_validation.
  destruct (validateFileType f default_allowedTypes),
           (validateFileSize f default_maxSize), (content f) as [text|]; cbn;
    try reflexivity.
  now destruct (isValid (validateJsonData (VString text))).
Qed.

(** The first file that fails, in a list that has one. *)
Lemma first_failing (files : list File) :
  existsb fails files = true ->
  exists pre f post,
    files = pre ++ f :: post /\
    forallb (fun g => negb (fails g)) pre = true /\
    fails f = true.
Proof.
  induction files as [|g files IH]; [discriminate|].
  cbn [existsb]. destruct (fails g) eqn:Hg.
  - intros _. exists [], g, files. repeat split; assumption.
  - cbn [orb]. intros H. destruct (IH H) as (pre & f & post & -> & Hpre & Hf).
    exists (g :: pre), f, post. repeat split; [|assumption].
    cbn [forallb]. now rewrite Hg.
Qed.

(** The loop at a file that fails: the rejection names it and nothing
    after it is touched. *)
Lemma parse_loop_fails (f : File) (post : list File) (results : list ParsedFile) :
  fails f = true ->
  parse_loop (f :: post) results =
  ((if validateFileType f default_allowedTypes && validateFileSize f default_maxSize
    then [ReadAsText f] else []),
   inl (Error (js "Error processing " ++ name f ++ js ": " ++ reason f))).
Proof.
  intros H. destruct (process_fails f results H) as (tr & e & Hp & He & Htr).
  cbn [parse_loop]. rewrite Hp. cbn [try_catch throw bind].
  now rewrite app_nil_r, He, Htr.
Qed.

(** The loop is the loop on the first files, then the loop on the others
    from the results of the first. *)
Lemma parse_loop_app (pre post : list File) (results : list ParsedFile) :
  parse_loop (pre ++ post) results = bind (parse_loop pre results) (parse_loop post).
Proof.
  revert results; induction pre as [|f pre IH]; intros results.
  - cbn. now destruct (parse_loop post results).
  - change ((f :: pre) ++ post) with (f :: (pre ++ post)). cbn [parse_loop].
    destruct (try_catch (process f results) _) as [t [e|results']]; cbn [bind].
    + reflexivity.
    + rewrite IH.
      destruct (parse_loop pre results') as [t1 [e1|r1]]; cbn [bind].
      * reflexivity.
      * destruct (parse_loop post r1) as [t2 r2]. now rewrite app_assoc.
Qed.

(** C2 (as amended).  When some file of the list fails one of the four steps
    (validation of its type, of its size, the read of its text, validation
    of the text as JSON), there is a first such file; [parseMultipleJsonFiles]
    rejects with the message "Error processing <name>: <reason>" for that
    file, which contains its name; the outcome is the rejection alone, with
    no record of any file, and no file after the failing one is read. *)
Theorem parseMultipleJsonFiles_fails_fast (files : list File) :
  existsb fails files = true ->
  exists pre f post,
    files = pre ++ f :: post /\
    forallb (fun g => negb (fails g)) pre = true /\
    fails f = true /\
    outcome (parseMultipleJsonFiles files) =
      inl (Error (js "Error processing " ++ name f ++ js ": " ++ reason f)) /\
    includes (js "Error processing " ++ name f ++ js ": " ++ reason f) (name f) = true /\
    trace (parseMultipleJsonFiles files) =
      map ReadAsText pre ++
      (if validateFileType f default_allowedTypes && validateFileSize f default_maxSize
       then [ReadAsText f] else []).
Proof.
  intros H. destruct (first_failing files H) as (pre & f & post & -> & Hpre & Hf).
  exists pre, f, post. repeat split; try assumption.
  - destruct (parse_loop_passes pre Hpre) as (records & _ & Hloop).
    unfold parseMultipleJsonFiles, outcome. rewrite Hloop, parse_loop_fails by assumption.
    reflexivity.
  - apply includes_app.
  - destruct (parse_loop_passes pre Hpre) as (records & _ & Hloop).
    unfold parseMultipleJsonFiles, trace. rewrite Hloop, parse_loop_fails by assumption.
    reflexivity.
Qed.

(** A valid file, then one whose text is a number. *)
Lemma parseMultipleJsonFiles_fails_fast_witness :
  exists pre f post,
    [settings_json; number_json; list_txt] = pre ++ f :: post /\
    forallb (fun g => negb (fails g)) pre = true /\
    fails f = true /\
    outcome (parseMultipleJsonFiles [settings_json; number_json; list_txt]) =
      inl (Error (js "Error processing " ++ name f ++ js ": " ++ reason f)) /\
    includes (js "Error processing " ++ name f ++ js ": " ++ reason f) (name f) = true /\
    trace (parseMultipleJsonFiles [settings_json; number_json; list_txt]) =
      map ReadAsText pre ++
      (if validateFileType f default_allowedTypes && validateFileSize f default_maxSize
       then [ReadAsText f] else []).
Proof.
  apply (parseMultipleJsonFiles_fails_fast [settings_json; number_json; list_txt]).
  reflexivity.
Defined.

(** A file that passes the three validations but cannot be read comes before
    a file of a type that is not allowed: the rejection is about the first,
    and its message does not contain the name of the second. *)
Lemma unreadable_file_is_reported_first :
  fails_validation unreadable_json = false /\
  fails_validation picture = true /\
  outcome (parseMultipleJsonFiles [unreadable_json; picture]) =
    inl (Error (js "Error processing a.json: undefined")) /\
  includes (js "Error processing a.json: undefined") (name picture) = false.
Proof.
  repeat split; reflexivity.
Qed.

(** C3.  When every file passes the validation of its type, of its size and
    of its text as JSON, [parseMultipleJsonFiles] resolves with one record
    per file, in the order of the files, each with the name and size of its
    file and what the text of the file parses to; the files are read one
    after the other in that order, and the run on a list is the run on its
    first files followed by the run on the others from the records of the
    first. *)
Theorem parseMultipleJsonFiles_all_valid (files : list File) :
  forallb passes files = true ->
  (exists records,
     Forall2 record_of files records /\
     parseMultipleJsonFiles files = (map ReadAsText files, inr records)) /\
  (forall pre post,
     files = pre ++ post ->
     parseMultipleJsonFiles files =
     bind (parseMultipleJsonFiles pre) (parse_loop post)).
Proof.
  intros H. split.
  - assert (H' : forallb (fun g => negb (fails g)) files = true).
    { rewrite <- H. clear H. induction files as [|f files IH]; [reflexivity|].
      cbn [forallb]. now rewrite IH, passes_fails. }
    destruct (parse_loop_passes files H') as (records & Hrec & Hloop).
    exists records; split; [assumption|].
    unfold parseMultipleJsonFiles. rewrite <- (app_nil_r files) at 1.
    rewrite Hloop. cbn. now rewrite app_nil_r.
  - intros pre post ->. apply parse_loop_app.
Qed.

(** Two files that pass. *)
Lemma parseMultipleJsonFiles_all_valid_witness :
  exists records,
    Forall2 record_of [settings_json; list_txt] records /\
    parseMultipleJsonFiles [settings_json; list_txt] =
      (map ReadAsText [settings_json; list_txt], inr records).
Proof.
  apply (parseMultipleJsonFiles_all_valid [settings_json; list_txt]).
  reflexivity.
Defined.

(** ** The drop zone *)

Lemma validate_one_rejects (acceptedTypes : list jsstring) (maxFileSize : N)
  (acc : DropZone.Validated) (f : File) :
  DropZone.validate_one acceptedTypes maxFileSize acc f =
  {| DropZone.validFiles := DropZone.validFiles acc;
     DropZone.errors := DropZone.errors acc ++
       [{| DropZone.file := Some (name f); DropZone.message := VUndefined |}] |}.
Proof. reflexivity. Qed.

Lemma validateFiles_from (acceptedTypes : list jsstring) (maxFileSize : N)
  (fileList : list File) (acc : DropZone.Validated) :
  fold_left (DropZone.validate_one acceptedTypes maxFileSize) fileList acc =
  {| DropZone.validFiles := DropZone.validFiles acc;
     DropZone.errors := DropZone.errors acc ++
       map (fun f => {| DropZone.file := Some (name f); DropZone.message := VUndefined |})
           fileList |}.
Proof.
  revert acc; induction fileList as [|f fileList IH]; intros acc; cbn [fold_left map].
  - rewrite app_nil_r. now destruct acc.
  - rewrite IH, validate_one_rejects. cbn. now rewrite <- app_assoc.
Qed.

(** C4 (what the code does).  The drop zone reads [.isValid] and [.error]
    on the booleans that [validateFileType] and [validateFileSize] return:
    both are [undefined], so every file of every list is put with the
    rejected ones, with [undefined] for message, and no file is ever
    accepted; a drop and a selection in the picker leave the selected
    files as they were and never call [onFilesSelected].  So it is for a
    file whose type is allowed and whose size is within the limit. *)
Theorem validateFiles_accepts_nothing :
  (forall acceptedTypes maxFileSize fileList,
     DropZone.validateFiles acceptedTypes maxFileSize fileList =
     {| DropZone.validFiles := [];
        DropZone.errors :=
          map (fun f => {| DropZone.file := Some (name f); DropZone.message := VUndefined |})
              fileList |}) /\
  (forall acceptedTypes maxFileSize multiple disabled st e,
     DropZone.files
       (fst (DropZone.handleDrop acceptedTypes maxFileSize multiple disabled st e))
     = DropZone.files st /\
     snd (DropZone.handleDrop acceptedTypes maxFileSize multiple disabled st e) = None) /\
  (forall acceptedTypes maxFileSize multiple st selectedFiles,
     DropZone.files
       (fst (DropZone.handleFileInputChange acceptedTypes maxFileSize multiple st selectedFiles))
     = DropZone.files st /\
     snd (DropZone.handleFileInputChange acceptedTypes maxFileSize multiple st selectedFiles)
     = None) /\
  validateFileType settings_json [js "application/json"] = true /\
  validateFileSize settings_json DropZone.default_maxFileSize = true /\
  DropZone.validateFiles [js "application/json"] DropZone.default_maxFileSize [settings_json] =
  {| DropZone.validFiles := [];
     DropZone.errors :=
       [{| DropZone.file := Some (js "settings.json"); DropZone.message := VUndefined |}] |}.
Proof.
  assert (H : forall acceptedTypes maxFileSize fileList,
     DropZone.validateFiles acceptedTypes maxFileSize fileList =
     {| DropZone.validFiles := [];
        DropZone.errors :=
          map (fun f => {| DropZone.file := Some (name f); DropZone.message := VUndefined |})
              fileList |}).
  { intros. unfold DropZone.validateFiles. now rewrite validateFiles_from. }
  assert (Ht : forall acceptedTypes maxFileSize multiple st fileList,
     DropZone.files (fst (DropZone.take acceptedTypes maxFileSize multiple st fileList))
     = DropZone.files st /\
     snd (DropZone.take acceptedTypes maxFileSize multiple st fileList) = None).
  { intros. unfold DropZone.take. rewrite H. split; reflexivity. }
  split; [exact H|]. split; [|split; [|repeat split]].
  - intros acceptedTypes maxFileSize multiple disabled st e.
    unfold DropZone.handleDrop.
    destruct disabled; [split; reflexivity|].
    destruct (handleFileDrop e) as [error|droppedFiles]; [split; reflexivity|].
    apply (Ht acceptedTypes maxFileSize multiple
              {| DropZone.isDragOver := false; DropZone.files := DropZone.files st;
                 DropZone.shown := DropZone.shown st |}).
  - intros acceptedTypes maxFileSize multiple st selectedFiles.
    unfold DropZone.handleFileInputChange.
    destruct selectedFiles as [[|f l]|]; try (split; reflexivity).
    apply Ht.
Qed.

(** ** [sanitizeFilename] *)

Lemma in_class_kept_ascii :
  forallb (fun c => Bool.eqb (in_class c) (kept c)) (map N.of_nat (seq 0 128)) = true.
Proof. vm_compute. reflexivity. Qed.

Lemma kept_characters_ascii :
  forallb (fun c => c <? 128) kept_characters = true.
Proof. vm_compute. reflexivity. Qed.

(** The class of the regular expression is the list of kept characters. *)
Lemma in_class_kept (c : N) : in_class c = kept c.
Proof.
  destruct (N.lt_ge_cases c 128) as [Hc|Hc].
  - apply eqb_prop.
    apply (proj1 (forallb_forall _ _) in_class_kept_ascii).
    rewrite <- (N2Nat.id c). apply in_map, in_seq. lia.
  - transitivity false; [|symmetry]; apply not_true_is_false; intros H.
    + unfold in_class in H.
      rewrite !orb_true_iff, !andb_true_iff, !N.leb_le, !N.eqb_eq in H. lia.
    + unfold kept in H. apply existsb_exists in H as [x [Hin Hx]].
      apply N.eqb_eq in Hx; subst x.
      apply (proj1 (forallb_forall _ _) kept_characters_ascii) in Hin.
      apply N.ltb_lt in Hin. lia.
Qed.

Lemma replace_outside_class_spec (s : jsstring) :
  replace_outside_class s = underscore_others s.
Proof.
  unfold replace_outside_class, underscore_others.
  apply map_ext; intros c. now rewrite in_class_kept.
Qed.

Lemma replace_runs_two (a b : N) (s : jsstring) :
  replace_runs (a :: b :: s) =
  if (a =? underscore) && (b =? underscore) then replace_runs (b :: s)
  else a :: replace_runs (b :: s).
Proof. reflexivity. Qed.

Lemma replace_runs_cons (c : N) (s : jsstring) :
  (c =? underscore) = false -> replace_runs (c :: s) = c :: replace_runs s.
Proof.
  intros H. destruct s as [|c' s]; [reflexivity|].
  now rewrite replace_runs_two, H.
Qed.

(** Keeping the last underscore of a run or the first gives the same
    string. *)
Lemma replace_runs_collapse (s : jsstring) :
  replace_runs s = collapse false s /\
  replace_runs (underscore :: s) = underscore :: collapse true s.
Proof.
  induction s as [|c s [IHa IHb]]; [split; reflexivity|].
  destruct (c =? underscore) eqn:Hc.
  - apply N.eqb_eq in Hc; subst c. split.
    + rewrite IHb. reflexivity.
    + rewrite replace_runs_two, N.eqb_refl. cbn [andb].
      rewrite IHb. reflexivity.
  - split.
    + rewrite replace_runs_cons by assumption. cbn [collapse]. now rewrite Hc, IHa.
    + rewrite replace_runs_two, Hc, andb_false_r.
      rewrite replace_runs_cons by assumption. cbn [collapse]. now rewrite Hc, IHa.
Qed.

Lemma collapse_no_double (s : jsstring) (b : bool) :
  has_double_underscore (collapse b s) = false /\
  (b = true -> starts_with_underscore (collapse b s) = false).
Proof.
  revert b; induction s as [|c s IH]; intros b; [split; reflexivity|].
  cbn [collapse]. destruct (c =? underscore) eqn:Hc.
  - destruct b.
    + apply IH.
    + split; [|discriminate]. cbn [has_double_underscore].
      destruct (IH true) as [H1 H2]. now rewrite H1, H2, andb_false_r.
  - split.
    + cbn [has_double_underscore]. rewrite Hc. apply IH.
    + intros _. cbn. exact Hc.
Qed.

Lemma drop_underscores_id (s : jsstring) :
  starts_with_underscore s = false -> drop_underscores s = s.
Proof.
  destruct s as [|c s]; [reflexivity|]. cbn. now intros ->.
Qed.

(** Without two underscores in a row, removing one at the start removes
    them all. *)
Lemma remove_first_drop (s : jsstring) :
  has_double_underscore s = false ->
  remove_first_underscore s = drop_underscores s /\
  has_double_underscore (remove_first_underscore s) = false /\
  starts_with_underscore (remove_first_underscore s) = false.
Proof.
  destruct s as [|c s]; [repeat split|].
  cbn [has_double_underscore remove_first_underscore drop_underscores].
  intros H. apply orb_false_iff in H as [H1 H2].
  destruct (c =? underscore) eqn:Hc.
  - cbn [andb] in H1. rewrite drop_underscores_id by assumption. repeat split; assumption.
  - repeat split.
    + cbn [has_double_underscore]. now rewrite Hc, H2.
    + cbn. exact Hc.
Qed.

Lemma remove_last_snoc (s : jsstring) (c : N) :
  remove_last_underscore (s ++ [c]) = if c =? underscore then s else s ++ [c].
Proof.
  induction s as [|x s IH]; [reflexivity|].
  change ((x :: s) ++ [c]) with (x :: (s ++ [c])).
  cbn [remove_last_underscore]. rewrite IH.
  destruct (s ++ [c]) eqn:E; [now destruct s|].
  now destruct (c =? underscore).
Qed.

Lemma has_double_snoc (s : jsstring) (c : N) :
  has_double_underscore (s ++ [c]) = false ->
  has_double_underscore s = false /\
  ((c =? underscore) = true -> ends_with_underscore s = false).
Proof.
  unfold ends_with_underscore.
  induction s as [|x s IH]; [split; reflexivity|].
  change ((x :: s) ++ [c]) with (x :: (s ++ [c])).
  cbn [has_double_underscore]. intros H. apply orb_false_iff in H as [H1 H2].
  destruct (IH H2) as [IH1 IH2]. split.
  - cbn [has_double_underscore]. rewrite IH1, orb_false_r.
    destruct s as [|y s]; [apply andb_false_r | exact H1].
  - intros Hc. cbn [rev]. specialize (IH2 Hc).
    destruct s as [|y s].
    + cbn in *. rewrite Hc, andb_true_r in H1. exact H1.
    + destruct (rev (y :: s)) as [|z r] eqn:E; [|exact IH2].
      apply (f_equal (@List.length N)) in E. rewrite length_rev in E. discriminate.
Qed.

(** Without two underscores in a row, removing one at the end removes
    them all. *)
Lemma remove_last_drop (s : jsstring) :
  has_double_underscore s = false ->
  remove_last_underscore s = rev (drop_underscores (rev s)) /\
  ends_with_underscore (remove_last_underscore s) = false.
Proof.
  destruct s as [|c s] using rev_ind; [split; reflexivity|].
  intros H. destruct (has_double_snoc s c H) as [_ Hend].
  rewrite remove_last_snoc, rev_app_distr. cbn [rev app drop_underscores].
  destruct (c =? underscore) eqn:Hc.
  - specialize (Hend eq_refl). unfold ends_with_underscore in Hend.
    rewrite drop_underscores_id, rev_involutive by assumption. split; [reflexivity|].
    exact Hend.
  - cbn [rev]. rewrite rev_involutive. split; [reflexivity|].
    unfold ends_with_underscore. rewrite rev_app_distr. cbn. exact Hc.
Qed.

Lemma has_double_remove_last (s : jsstring) :
  has_double_underscore s = false ->
  has_double_underscore (remove_last_underscore s) = false.
Proof.
  destruct s as [|c s] using rev_ind; [reflexivity|].
  intros H. rewrite remove_last_snoc.
  destruct (c =? underscore); [apply (has_double_snoc s c H) | exact H].
Qed.

Lemma starts_remove_last (s : jsstring) :
  starts_with_underscore s = false ->
  starts_with_underscore (remove_last_underscore s) = false.
Proof.
  destruct s as [|c [|c' s]]; try reflexivity.
  - cbn. intros H. now rewrite H.
  - intros H. exact H.
Qed.

Lemma replace_runs_incl (s : jsstring) (x : N) : In x (replace_runs s) -> In x s.
Proof.
  induction s as [|a [|b s] IH]; [auto | auto |].
  rewrite replace_runs_two.
  destruct ((a =? underscore) && (b =? underscore)).
  - intros H. right. auto.
  - intros [H|H]; [left; exact H | right; auto].
Qed.

Lemma remove_first_incl (s : jsstring) (x : N) : In x (remove_first_underscore s) -> In x s.
Proof.
  destruct s as [|c s]; [auto|]. cbn.
  destruct (c =? underscore); [intros H; right; exact H | auto].
Qed.

Lemma remove_last_incl (s : jsstring) (x : N) : In x (remove_last_underscore s) -> In x s.
Proof.
  destruct s as [|c s] using rev_ind; [auto|].
  rewrite remove_last_snoc.
  destruct (c =? underscore); [intros H; apply in_or_app; left; exact H | auto].
Qed.

Lemma kept_underscore : kept underscore = false.
Proof. reflexivity. Qed.

Lemma filter_kept_replace (s : jsstring) :
  filter kept (replace_outside_class s) = filter kept s.
Proof.
  induction s as [|c s IH]; [reflexivity|].
  cbn [replace_outside_class map filter]. fold (replace_outside_class s).
  rewrite in_class_kept. destruct (kept c) eqn:Hc.
  - now rewrite Hc, IH.
  - now rewrite kept_underscore, IH.
Qed.

Lemma filter_kept_runs (s : jsstring) : filter kept (replace_runs s) = filter kept s.
Proof.
  induction s as [|a [|b s] IH]; [reflexivity | reflexivity |].
  rewrite replace_runs_two.
  destruct (a =? underscore) eqn:Ha; cbn [andb].
  - apply N.eqb_eq in Ha; subst a.
    destruct (b =? underscore).
    + rewrite IH. symmetry. cbn [filter]. now rewrite kept_underscore.
    + cbn [filter] in *. now rewrite kept_underscore, IH.
  - change (filter kept (a :: replace_runs (b :: s)))
      with (if kept a then a :: filter kept (replace_runs (b :: s))
            else filter kept (replace_runs (b :: s))).
    rewrite IH. reflexivity.
Qed.

Lemma filter_kept_first (s : jsstring) :
  filter kept (remove_first_underscore s) = filter kept s.
Proof.
  destruct s as [|c s]; [reflexivity|]. cbn [remove_first_underscore].
  destruct (c =? underscore) eqn:Hc; [|reflexivity].
  apply N.eqb_eq in Hc; subst c. cbn [filter]. now rewrite kept_underscore.
Qed.

Lemma filter_kept_last (s : jsstring) :
  filter kept (remove_last_underscore s) = filter kept s.
Proof.
  destruct s as [|c s] using rev_ind; [reflexivity|].
  rewrite remove_last_snoc.
  destruct (c =? underscore) eqn:Hc; [|reflexivity].
  apply N.eqb_eq in Hc; subst c.
  rewrite filter_app. cbn [filter]. now rewrite kept_underscore, app_nil_r.
Qed.

(** C5 (as amended).  [sanitizeFilename] is what the specification words:
    every character outside the letters, digits, dot and hyphen becomes an
    underscore, runs of underscores become one underscore, and the
    underscores at the start and at the end are trimmed.  So the result
    holds kept characters and underscores only, has no underscore at its
    start or end and no two in a row, and its kept characters are those of
    the filename in their order.  In particular "my file!!.json" becomes
    "my_file_.json". *)
Theorem sanitizeFilename_spec :
  (forall s, sanitizeFilename s = sanitize_spec s) /\
  (forall s, forallb (fun c => kept c || (c =? underscore)) (sanitizeFilename s) = true) /\
  (forall s,
     starts_with_underscore (sanitizeFilename s) = false /\
     ends_with_underscore (sanitizeFilename s) = false /\
     has_double_underscore (sanitizeFilename s) = false) /\
  (forall s, filter kept (sanitizeFilename s) = filter kept s) /\
  sanitizeFilename (js "my file!!.json") = js "my_file_.json".
Proof.
  assert (Hd : forall s, has_double_underscore (replace_runs (replace_outside_class s)) = false).
  { intros s. rewrite (proj1 (replace_runs_collapse _)). apply collapse_no_double. }
  split; [|split; [|split; [|split]]].
  - intros s. unfold sanitizeFilename, sanitize_spec, replace_ends, trim.
    destruct (remove_first_drop _ (Hd s)) as (H1 & H2 & _).
    rewrite (proj1 (remove_last_drop _ H2)), H1.
    now rewrite (proj1 (replace_runs_collapse _)), replace_outside_class_spec.
  - intros s. apply forallb_forall. intros x Hx.
    unfold sanitizeFilename, replace_ends in Hx.
    apply remove_last_incl, remove_first_incl, replace_runs_incl in Hx.
    unfold replace_outside_class in Hx. apply in_map_iff in Hx as [c [Hc _]].
    rewrite in_class_kept in Hc. destruct (kept c) eqn:Hk; subst x.
    + now rewrite Hk.
    + rewrite N.eqb_refl. apply orb_true_r.
  - intros s. unfold sanitizeFilename, replace_ends.
    destruct (remove_first_drop _ (Hd s)) as (_ & H2 & H3).
    repeat split.
    + now apply starts_remove_last.
    + now apply remove_last_drop.
    + now apply has_double_remove_last.
  - intros s. unfold sanitizeFilename, replace_ends.
    now rewrite filter_kept_last, filter_kept_first, filter_kept_runs, filter_kept_replace.
  - vm_compute. reflexivity.
Qed.

(** The example of the specification: the dot keeps the underscore before
    it from being a trailing one. *)
Lemma sanitizeFilename_example_differs :
  sanitizeFilename (js "my file!!.json") <> js "my_file.json".
Proof. vm_compute. discriminate. Qed.

(** ** [getFileExtension] and [removeFileExtension] *)

Lemma split_dot_nodot (s : jsstring) : has_dot s = false -> split_dot s = [s].
Proof.
  induction s as [|c s IH]; [reflexivity|].
  cbn [has_dot existsb split_dot]. intros H. apply orb_false_iff in H as [Hc Hs].
  rewrite N.eqb_sym, Hc. unfold has_dot in IH. now rewrite (IH Hs).
Qed.

(** A name with a dot splits in two pieces at least. *)
Lemma split_dot_two (base ext : jsstring) :
  exists p q r, split_dot (base ++ 46 :: ext) = p :: q :: r.
Proof.
  induction base as [|c base (p & q & r & IH)].
  - cbn [app split_dot]. rewrite N.eqb_refl.
    destruct ext as [|c ext]; [now exists [], [], []|].
    destruct (split_dot (c :: ext)) as [|q r] eqn:E.
    + cbn in E. destruct (c =? 46); [discriminate|].
      destruct (split_dot ext); discriminate.
    + now exists [], q, r.
  - change ((c :: base) ++ 46 :: ext) with (c :: (base ++ 46 :: ext)).
    cbn [split_dot]. rewrite IH.
    destruct (c =? 46); [now exists [], p, (q :: r) | now exists (c :: p), q, r].
Qed.

(** The last piece of a name is the last piece of what follows a dot. *)
Lemma pop_split_dot (base ext : jsstring) :
  pop (split_dot (base ++ 46 :: ext)) = pop (split_dot (46 :: ext)).
Proof.
  induction base as [|c base IH]; [reflexivity|].
  change ((c :: base) ++ 46 :: ext) with (c :: (base ++ 46 :: ext)).
  rewrite <- IH. destruct (split_dot_two base ext) as (p & q & r & E).
  change (split_dot (c :: base ++ 46 :: ext))
    with (if c =? 46 then [] :: split_dot (base ++ 46 :: ext)
          else match split_dot (base ++ 46 :: ext) with
               | [] => [[c]]
               | piece :: pieces => (c :: piece) :: pieces
               end).
  rewrite E. destruct (c =? 46); reflexivity.
Qed.

Lemma pop_after_dot (base ext : jsstring) :
  has_dot ext = false -> pop (split_dot (base ++ 46 :: ext)) = Some ext.
Proof.
  intros H. rewrite pop_split_dot. cbn [split_dot]. rewrite N.eqb_refl.
  now rewrite (split_dot_nodot ext H).
Qed.

Lemma lastIndexOf_nodot (s : jsstring) (i found : Z) :
  has_dot s = false -> lastIndexOf_from s 46 i found = found.
Proof.
  revert i found; induction s as [|c s IH]; intros i found; [reflexivity|].
  cbn [has_dot existsb lastIndexOf_from]. intros H. apply orb_false_iff in H as [Hc Hs].
  rewrite N.eqb_sym, Hc. now apply IH.
Qed.

(** The index of the last dot is the length of what comes before it. *)
Lemma lastIndexOf_after (base ext : jsstring) (i found : Z) :
  has_dot ext = false ->
  lastIndexOf_from (base ++ 46 :: ext) 46 i found = (i + Z.of_nat (List.length base))%Z.
Proof.
  intros H. revert i found; induction base as [|c base IH]; intros i found.
  - cbn [app lastIndexOf_from List.length]. rewrite N.eqb_refl, lastIndexOf_nodot by assumption.
    lia.
  - change ((c :: base) ++ 46 :: ext) with (c :: (base ++ 46 :: ext)).
    cbn [lastIndexOf_from]. rewrite IH. cbn [List.length]. lia.
Qed.

(** X2.  For a name without a dot, [getFileExtension] returns the whole
    name in lower case: [split] gives one piece, and the fallback to the
    empty string applies to the empty name alone. *)
Theorem getFileExtension_without_dot (s : jsstring) :
  has_dot s = false -> getFileExtension s = toLowerCase s.
Proof.
  intros H. unfold getFileExtension. rewrite split_dot_nodot by assumption.
  cbn [pop option_map].
  destruct (str_eqb (toLowerCase s) js_empty) eqn:E; [|reflexivity].
  apply str_eqb_eq in E. now rewrite E.
Qed.

Lemma getFileExtension_without_dot_witness :
  getFileExtension (js "NoExt") = js "noext".
Proof.
  apply (getFileExtension_without_dot (js "NoExt")).
  reflexivity.
Defined.

(** C6 (as amended).  For a filename with a dot, [getFileExtension] returns
    what follows the last dot, in lower case ("gz" for "archive.tar.gz");
    [removeFileExtension] removes the last dot and what follows it when
    something comes before that dot, and returns the name unchanged when it
    has no dot or its only dot is its first character. *)
Theorem file_extension_spec :
  (forall base ext,
     has_dot ext = false ->
     getFileExtension (base ++ js "." ++ ext) = toLowerCase ext) /\
  getFileExtension (js "archive.tar.gz") = js "gz" /\
  (forall base ext,
     base <> [] -> has_dot ext = false ->
     removeFileExtension (base ++ js "." ++ ext) = base) /\
  (forall s, has_dot s = false -> removeFileExtension s = s) /\
  (forall ext, has_dot ext = false -> removeFileExtension (js "." ++ ext) = js "." ++ ext).
Proof.
  split; [|split; [|split; [|split]]].
  - intros base ext H. change (base ++ js "." ++ ext) with (base ++ 46 :: ext).
    unfold getFileExtension. rewrite pop_after_dot by assumption. cbn [option_map].
    destruct (str_eqb (toLowerCase ext) js_empty) eqn:E; [|reflexivity].
    apply str_eqb_eq in E. now rewrite E.
  - vm_compute. reflexivity.
  - intros base ext Hb H. change (base ++ js "." ++ ext) with (base ++ 46 :: ext).
    unfold removeFileExtension, lastIndexOf, substring0.
    rewrite lastIndexOf_after by assumption.
    destruct base as [|c base]; [contradiction|].
    replace (0 <? 0 + Z.of_nat (List.length (c :: base)))%Z with true
      by (symmetry; apply Z.ltb_lt; cbn [List.length]; lia).
    rewrite Z.add_0_l, Nat2Z.id.
    rewrite firstn_app, Nat.sub_diag, firstn_all. cbn [firstn]. apply app_nil_r.
  - intros s H. unfold removeFileExtension, lastIndexOf.
    now rewrite lastIndexOf_nodot.
  - intros ext H. change (js "." ++ ext) with ([] ++ 46 :: ext).
    unfold removeFileExtension, lastIndexOf.
    rewrite lastIndexOf_after by assumption. reflexivity.
Qed.

(** An extension in capitals. *)
Lemma file_extension_spec_witness :
  getFileExtension (js "README" ++ js "." ++ js "MD") = toLowerCase (js "MD").
Proof.
  apply (proj1 file_extension_spec (js "README") (js "MD")).
  reflexivity.
Defined.

(** A name without a dot comes back whole as its own extension; an
    extension in capitals comes back in lower case; and a name whose only
    dot is the first character has an extension that is not removed. *)
Lemma file_extension_differs :
  getFileExtension (js "noext") <> js_empty /\
  getFileExtension (js "DATA.JSON") <> js "JSON" /\
  getFileExtension (js ".bashrc") = js "bashrc" /\
  removeFileExtension (js ".bashrc") = js ".bashrc".
Proof.
  repeat split; vm_compute; try reflexivity; discriminate.
Qed.

(** ** The client: how an operation runs *)

Section Runs.

Context {Ev Ex : Type}.

Lemma bind_ret {A B} (a : A) (k : A -> M Ev Ex B) : bind (ret a) k = k a.
Proof. unfold bind, ret. now destruct (k a). Qed.

Lemma bind_throw {A B} (e : Ex) (k : A -> M Ev Ex B) : bind (throw e) k = throw e.
Proof. reflexivity. Qed.

Lemma outcome_bind {A B} (m : M Ev Ex A) (k : A -> M Ev Ex B) :
  outcome (bind m k) =
  match outcome m with
  | inl e => inl e
  | inr a => outcome (k a)
  end.
Proof. destruct m as [t [e|a]]; cbn; [reflexivity|]. now destruct (k a). Qed.

Lemma trace_bind {A B} (m : M Ev Ex A) (k : A -> M Ev Ex B) :
  trace (bind m k) =
  trace m ++
  match outcome m with
  | inl e => []
  | inr a => trace (k a)
  end.
Proof.
  destruct m as [t [e|a]]; cbn; [now rewrite app_nil_r|]. now destruct (k a).
Qed.

Lemma outcome_try {A} (m : M Ev Ex A) (h : Ex -> M Ev Ex A) :
  outcome (try_catch m h) =
  match outcome m with
  | inl e => outcome (h e)
  | inr a => inr a
  end.
Proof. destruct m as [t [e|a]]; cbn; [|reflexivity]. now destruct (h e). Qed.

Lemma trace_try {A} (m : M Ev Ex A) (h : Ex -> M Ev Ex A) :
  trace (try_catch m h) =
  trace m ++
  match outcome m with
  | inl e => trace (h e)
  | inr a => []
  end.
Proof.
  destruct m as [t [e|a]]; cbn; [|now rewrite app_nil_r]. now destruct (h e).
Qed.

End Runs.

Import Api.

(** What the [catch] block of an operation makes of the outcome of its
    [try] block. *)
Lemma outcome_rethrow {A} (m : Task A) (label failure : jsstring) :
  outcome (try_catch m (rethrow label failure)) =
  match outcome m with
  | inl e => inl (if instanceof_ApiError e then e else ApiError2 failure 500)
  | inr a => inr a
  end.
Proof. rewrite outcome_try. now destruct (outcome m). Qed.

(** The [catch] block sends no request. *)
Lemma fetch_rethrow {A} (m : Task A) (label failure : jsstring) (req : Request) :
  In (Fetch req) (trace (try_catch m (rethrow label failure))) ->
  In (Fetch req) (trace m).
Proof.
  rewrite trace_try. intros H. apply in_app_or in H as [H|H]; [exact H|].
  destruct (outcome m); [|contradiction].
  cbn in H. destruct H as [H|[]]. discriminate.
Qed.

Lemma fetchWithTimeout_run (net : Request -> Network) (req : Request) :
  fetchWithTimeout net req REQUEST_TIMEOUT = ([Fetch req], raced (net req)).
Proof.
  unfold fetchWithTimeout, raced.
  destruct (net req) as [after [r|m]|]; cbn; try reflexivity;
    destruct (after <? REQUEST_TIMEOUT); reflexivity.
Qed.


Lemma raced_not_ApiError (n : Network) (e : thrown) :
  raced n = inl e -> instanceof_ApiError e = false.
Proof.
  unfold raced. destruct n as [after [r|m]|]; try destruct (after <? REQUEST_TIMEOUT);
    intros H; inversion H; reflexivity.
Qed.

(** [handleResponse] on a response that is not a success. *)
Lemma handleResponse_error (r : Response) :
  ok r = false ->
  outcome (handleResponse r) =
  inl (ApiError (errorMessage (read_error r)) (status r) (errorData (read_error r))).
Proof.
  intros H. unfold handleResponse. rewrite H. cbn [negb].
  rewrite outcome_bind. now destruct (parseError (read_error r)).
Qed.

Lemma handleResponse_no_fetch (r : Response) (req : Request) :
  ~ In (Fetch req) (trace (handleResponse r)).
Proof.
  unfold handleResponse. destruct (ok r); cbn [negb]; [intros []|].
  destruct (parseError (read_error r)); cbn; intuition discriminate.
Qed.

(** A request, the check of its response, and what the operation goes on
    with: the outcome after the request that was sent. *)
Lemma exchange_outcome {A} (net : Request -> Network) (req0 : Request)
  (k : Response -> Task A) (label failure : jsstring) (req : Request) :
  (forall r req', ~ In (Fetch req') (trace (k r))) ->
  let m :=
    try_catch
      (bind (fetchWithTimeout net req0 REQUEST_TIMEOUT)
         (fun response => bind (handleResponse response) (fun _ => k response)))
      (rethrow label failure) in
  In (Fetch req) (trace m) ->
  req = req0 /\
  outcome m =
  match raced (net req) with
  | inr r =>
      if ok r then outcome m
      else inl (ApiError (errorMessage (read_error r)) (status r) (errorData (read_error r)))
  | inl _ => inl (ApiError2 failure 500)
  end.
Proof.
  intros Hk m H. subst m. apply fetch_rethrow in H.
  rewrite trace_bind, fetchWithTimeout_run in H. cbn [trace outcome fst snd app] in H.
  assert (E : req = req0).
  { destruct H as [H|H]; [now injection H|].
    destruct (raced (net req0)) as [e|r]; [contradiction|].
    rewrite trace_bind in H. apply in_app_or in H as [H|H].
    - now apply handleResponse_no_fetch in H.
    - destruct (outcome (handleResponse r)); [contradiction | now apply Hk in H]. }
  subst req0. split; [reflexivity|].
  destruct (raced (net req)) as [e|r] eqn:Hr.
  - rewrite outcome_rethrow, outcome_bind, fetchWithTimeout_run. cbn [outcome snd].
    now rewrite Hr, (raced_not_ApiError _ _ Hr).
  - destruct (ok r) eqn:Hok; [reflexivity|].
    rewrite outcome_rethrow, outcome_bind, fetchWithTimeout_run. cbn [outcome snd].
    rewrite Hr, outcome_bind, handleResponse_error by assumption. reflexivity.
Qed.

Ltac no_fetch :=
  let r := fresh "r" in
  let req' := fresh "req" in
  intros r req';
  unfold await, download, response_blob, response_json;
  destruct (bodyText r); try destruct (JSON.parse _);
  cbn; intuition discriminate.

Ltac not_sent :=
  let H := fresh "H" in
  intros H; apply fetch_rethrow in H; cbn in H; contradiction.

(** What an operation that has sent its request ends with: the generic
    failure of the operation when the request is not answered in time, the
    error of the response when the response is not a success. *)
Lemma call_outcome (env : option jsstring) (net : Request -> Network) (op : operation)
  (req : Request) :
  In (Fetch req) (trace (call env net op)) ->
  outcome (call env net op) =
  match raced (net req) with
  | inr r =>
      if ok r then outcome (call env net op)
      else inl (ApiError (errorMessage (read_error r)) (status r) (errorData (read_error r)))
  | inl _ => inl (ApiError2 (failure_text op) 500)
  end.
Proof.
  destruct op as [jsonData filename options | file outputFilename options | jobId
                 | jsonArray filename options | jsonData | ]; cbn [call failure_text].
  - unfold convertJsonToZip, stringify.
    destruct (negb (ToBoolean jsonData) || _); [not_sent|].
    destruct (has_bigint _); [not_sent|]. rewrite bind_ret.
    intros H. eapply exchange_outcome; [no_fetch | exact H].
  - unfold uploadAndConvertJson, stringify.
    destruct file as [file|]; [|not_sent].
    destruct (negb (str_eqb (type file) _)); [not_sent|].
    destruct (0 <? N.of_nat (List.length options)).
    + destruct (has_bigint _); [not_sent|]. rewrite !bind_ret.
      intros H. eapply exchange_outcome; [no_fetch | exact H].
    + rewrite bind_ret.
      intros H. eapply exchange_outcome; [no_fetch | exact H].
  - unfold getConversionStatus.
    destruct (str_eqb jobId []); [not_sent|].
    intros H. eapply exchange_outcome; [no_fetch | exact H].
  - unfold convertMultipleJsonToZip, stringify.
    destruct (negb (Array_isArray jsonArray) || _); [not_sent|].
    destruct (has_bigint _); [not_sent|]. rewrite bind_ret.
    intros H. eapply exchange_outcome; [no_fetch | exact H].
  - unfold validateJsonData, stringify.
    destruct (has_bigint _); [not_sent|]. rewrite bind_ret.
    intros H. eapply exchange_outcome; [no_fetch | exact H].
  - unfold getSupportedFormats.
    intros H. eapply exchange_outcome; [no_fetch | exact H].
Qed.

(** ** The options of a conversion request *)













(** ** Failures of the client *)

Lemma raced_unanswered (n : Network) :
  timed_out n = true \/ network_failure n = true -> exists e, raced n = inl e.
Proof.
  unfold timed_out, network_failure, raced.
  destruct n as [after [r|m]|]; [| |eauto].
  - intros [H|H]; [|discriminate]. apply N.leb_le in H.
    replace (after <? REQUEST_TIMEOUT) with false by (symmetry; apply N.ltb_ge; exact H).
    eauto.
  - intros _. destruct (after <? REQUEST_TIMEOUT); eauto.
Qed.

Lemma raced_answered (n : Network) (r : Response) : answered n r -> raced n = inr r.
Proof.
  intros (after & -> & H). unfold raced. now rewrite H.
Qed.

(** Every operation rethrows an [ApiError] or makes one. *)
Lemma call_rejects_with_ApiError (env : option jsstring) (net : Request -> Network)
  (op : operation) (e : thrown) :
  outcome (call env net op) = inl e -> instanceof_ApiError e = true.
Proof.
  destruct op; cbn [call];
    unfold convertJsonToZip, uploadAndConvertJson, getConversionStatus,
           convertMultipleJsonToZip, validateJsonData, getSupportedFormats;
    rewrite outcome_rethrow;
    match goal with |- context [outcome ?m] => destruct (outcome m) as [e0|a] end;
    intros H; inversion H; subst;
    destruct (instanceof_ApiError e0) eqn:E; auto.
Qed.

(** C8 (as amended).  The request with a timeout (30 s) rejects with the
    error "Request timeout" when the timer fires first, and with the
    [TypeError] of the network when the request fails first: two different
    errors.  Every failure of every operation of the client is an
    [ApiError], with a message, a status and data.  But an operation whose
    request times out and one whose request fails on the network raise the
    same [ApiError]: the failure message of the operation, status 500, no
    data. *)
Theorem failures_of_the_client :
  (forall net req,
     timed_out (net req) = true ->
     outcome (fetchWithTimeout net req REQUEST_TIMEOUT) = inl (Error (js "Request timeout"))) /\
  (forall net req,
     network_failure (net req) = true ->
     exists message,
       outcome (fetchWithTimeout net req REQUEST_TIMEOUT) = inl (TypeError message)) /\
  (forall env net op e,
     outcome (call env net op) = inl e -> instanceof_ApiError e = true) /\
  (forall env net op req,
     In (Fetch req) (trace (call env net op)) ->
     timed_out (net req) = true \/ network_failure (net req) = true ->
     outcome (call env net op) = inl (ApiError2 (failure_text op) 500)).
Proof.
  repeat match goal with |- _ /\ _ => split end.
  - intros net req H. rewrite fetchWithTimeout_run. cbn [outcome snd].
    unfold timed_out in H. unfold raced.
    destruct (net req) as [after o|]; [|reflexivity].
    apply N.leb_le in H.
    replace (after <? REQUEST_TIMEOUT) with false by (symmetry; apply N.ltb_ge; exact H).
    reflexivity.
  - intros net req H. rewrite fetchWithTimeout_run. cbn [outcome snd].
    unfold network_failure in H. unfold raced.
    destruct (net req) as [after [r|m]|]; try discriminate.
    rewrite H. eauto.
  - apply call_rejects_with_ApiError.
  - intros env net op req H Hn. rewrite (call_outcome env net op req H).
    destruct (raced_unanswered _ Hn) as [e ->]. reflexivity.
Qed.

(** The list of formats, asked of a service that never answers. *)
Lemma failures_of_the_client_witness :
  outcome (call None hanging GetSupportedFormats)
  = inl (ApiError2 (js "Failed to get supported formats") 500).
Proof.
  apply (proj2 (proj2 (proj2 failures_of_the_client)) None hanging GetSupportedFormats
           {| url := js "http://localhost:3001/api/formats"; method := js "GET";
              headers := []; body := NoBody |}).
  - left. reflexivity.
  - left. reflexivity.
Defined.

(** A conversion whose request times out and the same conversion whose
    request fails on the network reject with the same error: nothing in it
    tells the caller which of the two happened. *)
Lemma timeout_is_reported_as_network_failure :
  outcome (call None hanging (ConvertJsonToZip (VObject []) (js "data.zip") []))
  = inl (ApiError2 (js "Failed to convert JSON to ZIP") 500) /\
  outcome (call None offline (ConvertJsonToZip (VObject []) (js "data.zip") []))
  = inl (ApiError2 (js "Failed to convert JSON to ZIP") 500).
Proof. split; reflexivity. Qed.

(** ** Responses that are not a success *)





(** * More of the code *)

(** ** [validateJsonData]: its results *)

(** X3.  [validateJsonData] has four results in all: valid with no error,
    or invalid with exactly one of its three messages; its errors never
    accumulate. *)
Theorem validateJsonData_results (d : value) :
  FileUtils.validateJsonData d = valid \/
  FileUtils.validateJsonData d = invalid (js "Data is required") \/
  FileUtils.validateJsonData d = invalid (js "Invalid JSON format") \/
  FileUtils.validateJsonData d = invalid (js "JSON must be an object or array").
Proof.
  destruct (ToBoolean d) eqn:Ht.
  - destruct d as [ | |b|n|z|text|id|id|items|props];
      try (rewrite validateJsonData_given by (assumption || (intros t; discriminate));
           cbn; auto).
    assert (Hn : text <> []) by (intros ->; discriminate).
    rewrite validateJsonData_text by assumption.
    destruct (JSON.parse text) as [v|]; [|auto].
    destruct (str_eqb (typeof v) (js "object")); auto.
  - rewrite validateJsonData_falsy by assumption. auto.
Qed.

(** ** [parseMultipleJsonFiles]: what it reads *)

Lemma not_fails_checks (f : File) :
  fails f = false ->
  validateFileType f default_allowedTypes = true /\
  validateFileSize f default_maxSize = true.
Proof.
  unfold fails, fails_validation. intros H.
  apply orb_false_iff in H as [H _].
  apply orb_false_iff in H as [H _].
  apply orb_false_iff in H as [H1 H2].
  now apply negb_false_iff in H1, H2.
Qed.

Lemma existsb_forallb_negb {A} (p : A -> bool) (l : list A) :
  existsb p l = false -> forallb (fun x => negb (p x)) l = true.
Proof.
  induction l as [|x l IH]; [reflexivity|]. cbn.
  intros H. apply orb_false_iff in H as [Hx Hl]. now rewrite Hx, IH.
Qed.

Lemma forallb_negb_fails_in (l : list File) (f : File) :
  forallb (fun g => negb (fails g)) l = true -> In f l -> fails f = false.
Proof.
  intros H Hin. apply (proj1 (forallb_forall _ _) H) in Hin.
  now apply negb_true_iff in Hin.
Qed.

(** X4.  [parseMultipleJsonFiles] reads the files of the list from the
    first on, each once and in order, up to some file: a file is read only
    after its type and its size passed validation, and when the batch
    resolves every file was read and there are as many records as files. *)
Theorem parseMultipleJsonFiles_reads (files : list File) :
  exists k,
    trace (parseMultipleJsonFiles files) = map ReadAsText (firstn k files) /\
    (forall f,
       In (ReadAsText f) (trace (parseMultipleJsonFiles files)) ->
       validateFileType f default_allowedTypes = true /\
       validateFileSize f default_maxSize = true) /\
    (forall records,
       outcome (parseMultipleJsonFiles files) = inr records ->
       k = List.length files /\ List.length records = List.length files).
Proof.
  unfold parseMultipleJsonFiles.
  destruct (existsb fails files) eqn:E.
  - destruct (first_failing files E) as (pre & f & post & -> & Hpre & Hf).
    destruct (parse_loop_passes pre Hpre) as (records & _ & Hloop).
    rewrite Hloop, parse_loop_fails by assumption. cbn [trace outcome fst snd].
    destruct (validateFileType f default_allowedTypes && validateFileSize f default_maxSize)
      eqn:Hok.
    + exists (S (List.length pre)). split; [|split].
      * replace (S (List.length pre)) with (List.length pre + 1)%nat by lia.
        rewrite firstn_app_2, map_app. reflexivity.
      * intros g Hg. apply in_app_or in Hg as [Hg|[Hg|[]]].
        -- apply in_map_iff in Hg as (g' & Hg' & Hin). injection Hg' as ->.
           apply not_fails_checks. eapply forallb_negb_fails_in; eassumption.
        -- injection Hg as <-. now apply andb_true_iff in Hok.
      * discriminate.
    + exists (List.length pre). split; [|split].
      * rewrite <- (Nat.add_0_r (List.length pre)), firstn_app_2.
        cbn. now rewrite !app_nil_r.
      * rewrite app_nil_r. intros g Hg.
        apply in_map_iff in Hg as (g' & Hg' & Hin). injection Hg' as ->.
        apply not_fails_checks. eapply forallb_negb_fails_in; eassumption.
      * discriminate.
  - apply existsb_forallb_negb in E.
    destruct (parse_loop_passes files E) as (records & Hrec & Hloop).
    specialize (Hloop [] []). rewrite app_nil_r in Hloop. rewrite Hloop.
    cbn [parse_loop ret trace outcome fst snd app].
    exists (List.length files). rewrite firstn_all, app_nil_r. split; [reflexivity|split].
    + intros g Hg. apply in_map_iff in Hg as (g' & Hg' & Hin). injection Hg' as ->.
      apply not_fails_checks. eapply forallb_negb_fails_in; eassumption.
    + intros records' H. injection H as <-. split; [reflexivity|].
      symmetry. eapply Forall2_length. eassumption.
Qed.

(** ** [sanitizeFilename]: fixed points, empty results, extensions *)

Import Names.

Lemma sanitize_chars (s : jsstring) :
  forallb (fun c => kept c || (c =? underscore)) (sanitizeFilename s) = true.
Proof.
  apply forallb_forall. intros x Hx.
  unfold sanitizeFilename, replace_ends in Hx.
  apply remove_last_incl, remove_first_incl, replace_runs_incl in Hx.
  unfold replace_outside_class in Hx. apply in_map_iff in Hx as [c [Hc _]].
  rewrite in_class_kept in Hc. destruct (kept c) eqn:Hk; subst x.
  - now rewrite Hk.
  - rewrite N.eqb_refl. apply orb_true_r.
Qed.

Lemma sanitize_underscores (s : jsstring) :
  starts_with_underscore (sanitizeFilename s) = false /\
  ends_with_underscore (sanitizeFilename s) = false /\
  has_double_underscore (sanitizeFilename s) = false.
Proof.
  assert (Hd : has_double_underscore (replace_runs (replace_outside_class s)) = false).
  { rewrite (proj1 (replace_runs_collapse _)). apply collapse_no_double. }
  unfold sanitizeFilename, replace_ends.
  destruct (remove_first_drop _ Hd) as (_ & H2 & H3).
  repeat split.
  - now apply starts_remove_last.
  - now apply remove_last_drop.
  - now apply has_double_remove_last.
Qed.

Lemma sanitize_clean (s : jsstring) : clean (sanitizeFilename s) = true.
Proof.
  unfold clean. rewrite sanitize_chars.
  destruct (sanitize_underscores s) as (-> & -> & ->). reflexivity.
Qed.

Lemma replace_outside_class_id (t : jsstring) :
  forallb (fun c => kept c || (c =? underscore)) t = true ->
  replace_outside_class t = t.
Proof.
  induction t as [|c t IH]; [reflexivity|]. cbn [forallb].
  intros H. apply andb_true_iff in H as [Hc Ht].
  cbn [replace_outside_class map]. fold (replace_outside_class t).
  rewrite (IH Ht), in_class_kept. destruct (kept c); [reflexivity|].
  cbn [orb] in Hc. apply N.eqb_eq in Hc. now subst c.
Qed.

Lemma replace_runs_id (t : jsstring) :
  has_double_underscore t = false -> replace_runs t = t.
Proof.
  induction t as [|a [|b t] IH]; [reflexivity | reflexivity |].
  intros H. cbn [has_double_underscore] in H. apply orb_false_iff in H as [H1 H2].
  rewrite replace_runs_two. cbn [starts_with_underscore] in H1. rewrite H1.
  f_equal. apply IH. exact H2.
Qed.

Lemma remove_first_id (t : jsstring) :
  starts_with_underscore t = false -> remove_first_underscore t = t.
Proof.
  destruct t as [|c t]; [reflexivity|]. cbn. now intros ->.
Qed.

Lemma remove_last_id (t : jsstring) :
  ends_with_underscore t = false -> remove_last_underscore t = t.
Proof.
  destruct t as [|c t] using rev_ind; [reflexivity|].
  unfold ends_with_underscore. rewrite rev_app_distr. cbn.
  intros H. now rewrite remove_last_snoc, H.
Qed.

Lemma clean_fixed (t : jsstring) : clean t = true -> sanitizeFilename t = t.
Proof.
  unfold clean. intros H.
  apply andb_true_iff in H as [H Hd]. apply andb_true_iff in H as [H He].
  apply andb_true_iff in H as [Hc Hs].
  apply negb_true_iff in Hd, He, Hs.
  unfold sanitizeFilename, replace_ends.
  rewrite replace_outside_class_id, replace_runs_id, remove_first_id by assumption.
  now apply remove_last_id.
Qed.

(** X5.  [sanitizeFilename] is idempotent, and the names it leaves as they
    are are the clean ones: made of letters, digits, dots, hyphens and
    underscores, with no underscore at either end and no two in a row. *)
Theorem sanitizeFilename_idempotent :
  (forall s, sanitizeFilename (sanitizeFilename s) = sanitizeFilename s) /\
  (forall t, sanitizeFilename t = t <-> clean t = true).
Proof.
  split.
  - intros s. apply clean_fixed, sanitize_clean.
  - intros t. split.
    + intros H. rewrite <- H. apply sanitize_clean.
    + apply clean_fixed.
Qed.

Lemma filter_kept_sanitize (s : jsstring) :
  filter kept (sanitizeFilename s) = filter kept s.
Proof.
  unfold sanitizeFilename, replace_ends.
  now rewrite filter_kept_last, filter_kept_first, filter_kept_runs, filter_kept_replace.
Qed.

Lemma replace_runs_length (s : jsstring) :
  (List.length (replace_runs s) <= List.length s)%nat.
Proof.
  induction s as [|a [|b s] IH]; [auto | auto |].
  rewrite replace_runs_two.
  destruct ((a =? underscore) && (b =? underscore)); cbn [List.length] in *; lia.
Qed.

Lemma remove_first_length (s : jsstring) :
  (List.length (remove_first_underscore s) <= List.length s)%nat.
Proof.
  destruct s as [|c s]; [auto|]. cbn. destruct (c =? underscore); cbn; lia.
Qed.

Lemma remove_last_length (s : jsstring) :
  (List.length (remove_last_underscore s) <= List.length s)%nat.
Proof.
  destruct s as [|c s] using rev_ind; [auto|].
  rewrite remove_last_snoc, length_app. destruct (c =? underscore);
    [|rewrite length_app]; cbn; lia.
Qed.

(** X6.  The result of [sanitizeFilename] is never longer than the
    filename, and it is the empty string exactly when the filename has no
    letter, digit, dot or hyphen: such a name, the empty one included, is
    sanitized to nothing. *)
Theorem sanitizeFilename_empty :
  (forall s, (List.length (sanitizeFilename s) <= List.length s)%nat) /\
  (forall s, sanitizeFilename s = [] <-> filter kept s = []).
Proof.
  split.
  - intros s. unfold sanitizeFilename, replace_ends.
    etransitivity; [apply remove_last_length|].
    etransitivity; [apply remove_first_length|].
    etransitivity; [apply replace_runs_length|].
    unfold replace_outside_class. now rewrite length_map.
  - intros s. split.
    + intros H. rewrite <- filter_kept_sanitize, H. reflexivity.
    + intros H. rewrite <- filter_kept_sanitize in H.
      pose proof (sanitize_chars s) as Hc.
      destruct (sanitize_underscores s) as (Hs & _ & _).
      destruct (sanitizeFilename s) as [|c t]; [reflexivity|].
      cbn [forallb filter starts_with_underscore] in *.
      apply andb_true_iff in Hc as [Hc _]. rewrite Hs, orb_false_r in Hc.
      rewrite Hc in H. discriminate.
Qed.

Lemma sanitize_as_spec (s : jsstring) : sanitizeFilename s = sanitize_spec s.
Proof.
  assert (Hd : has_double_underscore (replace_runs (replace_outside_class s)) = false).
  { rewrite (proj1 (replace_runs_collapse _)). apply collapse_no_double. }
  unfold sanitizeFilename, sanitize_spec, replace_ends, trim.
  destruct (remove_first_drop _ Hd) as (H1 & H2 & _).
  rewrite (proj1 (remove_last_drop _ H2)), H1.
  now rewrite (proj1 (replace_runs_collapse _)), replace_outside_class_spec.
Qed.

Lemma kept_not_underscore (c : N) : kept c = true -> (c =? underscore) = false.
Proof.
  intros H. destruct (c =? underscore) eqn:E; [|reflexivity].
  apply N.eqb_eq in E. subst c. discriminate.
Qed.

Lemma underscore_others_kept (z : jsstring) :
  forallb kept z = true -> underscore_others z = z.
Proof.
  induction z as [|c z IH]; [reflexivity|]. cbn [forallb].
  intros H. apply andb_true_iff in H as [Hc Hz].
  cbn [underscore_others map]. fold (underscore_others z). now rewrite Hc, IH.
Qed.

Lemma collapse_kept (z : jsstring) (b : bool) :
  forallb kept z = true -> collapse b z = z.
Proof.
  revert b; induction z as [|c z IH]; intros b; [reflexivity|]. cbn [forallb].
  intros H. apply andb_true_iff in H as [Hc Hz].
  cbn [collapse]. now rewrite (kept_not_underscore c Hc), IH.
Qed.

Lemma collapse_app (l z : jsstring) (c : N) (b : bool) :
  (c =? underscore) = false ->
  collapse b (l ++ c :: z) = collapse b l ++ c :: collapse false z.
Proof.
  intros Hc. revert b; induction l as [|x l IH]; intros b.
  - cbn [app collapse]. now rewrite Hc.
  - change ((x :: l) ++ c :: z) with (x :: (l ++ c :: z)). cbn [collapse].
    destruct (x =? underscore); [destruct b|]; now rewrite IH.
Qed.

Lemma drop_underscores_app (y z : jsstring) (c : N) :
  (c =? underscore) = false ->
  drop_underscores (y ++ c :: z) = drop_underscores y ++ c :: z.
Proof.
  intros Hc. induction y as [|x y IH].
  - cbn [app drop_underscores]. now rewrite Hc.
  - change ((x :: y) ++ c :: z) with (x :: (y ++ c :: z)). cbn [drop_underscores].
    destruct (x =? underscore); [exact IH | reflexivity].
Qed.

Lemma drop_underscores_kept (z : jsstring) :
  forallb kept z = true -> drop_underscores z = z.
Proof.
  destruct z as [|c z]; [reflexivity|]. cbn [forallb].
  intros H. apply andb_true_iff in H as [Hc _].
  cbn [drop_underscores]. now rewrite (kept_not_underscore c Hc).
Qed.

Lemma forallb_rev {A} (p : A -> bool) (l : list A) :
  forallb p (rev l) = forallb p l.
Proof.
  induction l as [|x l IH]; [reflexivity|].
  cbn [rev forallb]. rewrite forallb_app, IH. cbn. rewrite andb_true_r. apply andb_comm.
Qed.

(** What [sanitizeFilename] makes of a name that ends with a dot and kept
    characters. *)
Lemma sanitize_before_extension (base ext : jsstring) :
  forallb kept ext = true ->
  sanitizeFilename (base ++ 46 :: ext) =
  drop_underscores (collapse false (underscore_others base)) ++ 46 :: ext.
Proof.
  intros He. rewrite sanitize_as_spec. unfold sanitize_spec, trim.
  unfold underscore_others at 1. rewrite map_app. cbn [map].
  fold (underscore_others base). fold (underscore_others ext).
  change (if kept 46 then 46 else underscore) with 46.
  rewrite (underscore_others_kept ext He).
  rewrite collapse_app by reflexivity. rewrite (collapse_kept ext false He).
  rewrite drop_underscores_app by reflexivity.
  rewrite rev_app_distr. cbn [rev]. rewrite <- app_assoc. cbn [app].
  rewrite drop_underscores_app by reflexivity.
  rewrite drop_underscores_kept by (now rewrite forallb_rev).
  rewrite rev_app_distr. cbn [rev]. rewrite !rev_involutive.
  now rewrite <- app_assoc.
Qed.

Lemma getFileExtension_after_dot (stem ext : jsstring) :
  has_dot ext = false -> getFileExtension (stem ++ 46 :: ext) = toLowerCase ext.
Proof.
  intros H. unfold getFileExtension. rewrite pop_after_dot by assumption.
  cbn [option_map].
  destruct (str_eqb (toLowerCase ext) js_empty) eqn:E; [|reflexivity].
  apply str_eqb_eq in E. now rewrite E.
Qed.

(** X7.  Sanitizing a filename leaves its extension in place: when what
    follows the last dot is made of letters, digits and hyphens, the
    sanitized name ends with the same dot and extension, and
    [getFileExtension] of it is the extension of the filename, in lower
    case. *)
Theorem sanitizeFilename_keeps_extension (base ext : jsstring) :
  forallb kept ext = true ->
  has_dot ext = false ->
  (exists stem, sanitizeFilename (base ++ js "." ++ ext) = stem ++ js "." ++ ext) /\
  getFileExtension (sanitizeFilename (base ++ js "." ++ ext)) =
  getFileExtension (base ++ js "." ++ ext) /\
  getFileExtension (sanitizeFilename (base ++ js "." ++ ext)) = toLowerCase ext.
Proof.
  intros He Hd. change (base ++ js "." ++ ext) with (base ++ 46 :: ext).
  rewrite sanitize_before_extension by assumption.
  split; [eexists; reflexivity|].
  now rewrite !getFileExtension_after_dot.
Qed.

Lemma sanitizeFilename_keeps_extension_witness :
  getFileExtension (sanitizeFilename (js "my report (final)" ++ js "." ++ js "JSON"))
  = toLowerCase (js "JSON").
Proof.
  apply (sanitizeFilename_keeps_extension (js "my report (final)") (js "JSON")).
  - reflexivity.
  - reflexivity.
Defined.

(** ** [removeFileExtension] and [getFileExtension] together *)

(** A name with a dot, cut at its last dot. *)
Lemma last_dot_split (s : jsstring) :
  has_dot s = true ->
  exists base ext, s = base ++ 46 :: ext /\ has_dot ext = false.
Proof.
  induction s as [|c s IH]; [discriminate|].
  destruct (has_dot s) eqn:Hs.
  - intros _. destruct (IH eq_refl) as (base & ext & -> & He).
    now exists (c :: base), ext.
  - unfold has_dot in *. cbn [existsb]. rewrite Hs, orb_false_r.
    intros Hc. apply N.eqb_eq in Hc. subst c. now exists [], s.
Qed.

Lemma removeFileExtension_after_dot (base ext : jsstring) :
  has_dot ext = false ->
  removeFileExtension (base ++ 46 :: ext) =
  match base with
  | [] => 46 :: ext
  | _ => base
  end.
Proof.
  intros H. unfold removeFileExtension, lastIndexOf, substring0.
  rewrite lastIndexOf_after by assumption.
  destruct base as [|c base]; [reflexivity|].
  replace (0 <? 0 + Z.of_nat (List.length (c :: base)))%Z with true
    by (symmetry; apply Z.ltb_lt; cbn [List.length]; lia).
  rewrite Z.add_0_l, Nat2Z.id.
  rewrite firstn_app, Nat.sub_diag, firstn_all. cbn [firstn]. apply app_nil_r.
Qed.

Lemma removeFileExtension_nodot (s : jsstring) :
  has_dot s = false -> removeFileExtension s = s.
Proof.
  intros H. unfold removeFileExtension, lastIndexOf. now rewrite lastIndexOf_nodot.
Qed.

(** X8.  [removeFileExtension] returns the name as it is or the name
    without its last dot and the dot-free text after it, never anything
    else; and it never makes a name empty: only the empty name gives the
    empty string. *)
Theorem removeFileExtension_prefix (s : jsstring) :
  (removeFileExtension s = s \/
   exists ext, has_dot ext = false /\ s = removeFileExtension s ++ js "." ++ ext) /\
  (removeFileExtension s = [] <-> s = []).
Proof.
  destruct (has_dot s) eqn:Hd.
  - destruct (last_dot_split s Hd) as (base & ext & -> & He).
    rewrite removeFileExtension_after_dot by assumption.
    destruct base as [|c base].
    + split; [now left|]. split; discriminate.
    + split; [right; now exists ext|]. split; discriminate.
  - rewrite removeFileExtension_nodot by assumption. split; [now left | reflexivity].
Qed.

(** X9.  For a name with something before its last dot, the name without
    its extension, a dot and the extension put the name together again, up
    to the case of the extension: exactly, when the extension is in lower
    case already. *)
Theorem remove_then_extension (base ext : jsstring) :
  base <> [] ->
  has_dot ext = false ->
  removeFileExtension (base ++ js "." ++ ext) ++ js "."
    ++ getFileExtension (base ++ js "." ++ ext)
  = base ++ js "." ++ toLowerCase ext /\
  (toLowerCase ext = ext ->
   removeFileExtension (base ++ js "." ++ ext) ++ js "."
     ++ getFileExtension (base ++ js "." ++ ext)
   = base ++ js "." ++ ext).
Proof.
  intros Hb He. change (base ++ js "." ++ ext) with (base ++ 46 :: ext).
  rewrite removeFileExtension_after_dot, getFileExtension_after_dot by assumption.
  destruct base as [|c base]; [contradiction|].
  split; [reflexivity|]. now intros ->.
Qed.

Lemma remove_then_extension_witness :
  removeFileExtension (js "archive.tar" ++ js "." ++ js "gz") ++ js "."
    ++ getFileExtension (js "archive.tar" ++ js "." ++ js "gz")
  = js "archive.tar" ++ js "." ++ js "gz".
Proof.
  apply (remove_then_extension (js "archive.tar") (js "gz")).
  - discriminate.
  - reflexivity.
  - reflexivity.
Defined.

(** ** [generateFilename] *)

Import Timestamp.

Lemma replace_colon_dot_plain (s : jsstring) :
  plain s = true -> replace_colon_dot s = s.
Proof.
  induction s as [|c s IH]; [reflexivity|]. cbn [plain forallb].
  intros H. apply andb_true_iff in H as [Hc Hs].
  cbn [replace_colon_dot map]. fold (replace_colon_dot s).
  apply negb_true_iff in Hc. rewrite Hc. f_equal. now apply IH.
Qed.

Lemma replace_colon_dot_app (a b : jsstring) :
  replace_colon_dot (a ++ b) = replace_colon_dot a ++ replace_colon_dot b.
Proof. apply map_app. Qed.

Lemma replace_colon_dot_is_plain (s : jsstring) : plain (replace_colon_dot s) = true.
Proof.
  induction s as [|c s IH]; [reflexivity|].
  cbn [replace_colon_dot map plain forallb]. fold (replace_colon_dot s). fold (plain (replace_colon_dot s)).
  rewrite IH, andb_true_r.
  destruct ((c =? 58) || (c =? 46)) eqn:E; [reflexivity | now rewrite E].
Qed.

Lemma plain_firstn (n : nat) (s : jsstring) : plain s = true -> plain (firstn n s) = true.
Proof.
  revert n; induction s as [|c s IH]; intros [|n]; try reflexivity.
  cbn [plain forallb firstn]. intros H. apply andb_true_iff in H as [Hc Hs].
  rewrite Hc. now apply IH.
Qed.

(** X10.  The timestamp of [generateFilename] never has a colon or a dot.
    When the clock reads [<date>T<hh>:<mm>:<ss>.<mmm>Z], the generated name
    is [<base>-<date>T<hh>-<mm>-<ss>.<extension>]: the colons become
    hyphens, the milliseconds and the [Z] are dropped. *)
Theorem generateFilename_timestamp :
  (forall now, plain (slice_off 5 (replace_colon_dot now)) = true) /\
  (forall date hh mm ss mmm baseName extension,
     plain date = true -> plain hh = true -> plain mm = true -> plain ss = true ->
     List.length mmm = 3%nat ->
     generateFilename
       (date ++ js "T" ++ hh ++ js ":" ++ mm ++ js ":" ++ ss ++ js "." ++ mmm ++ js "Z")
       baseName extension
     = baseName ++ js "-" ++ date ++ js "T" ++ hh ++ js "-" ++ mm ++ js "-" ++ ss
         ++ js "." ++ extension).
Proof.
  split.
  - intros now. unfold slice_off. apply plain_firstn, replace_colon_dot_is_plain.
  - intros date hh mm ss mmm baseName extension Hd Hh Hm Hs Hl.
    unfold generateFilename. do 2 f_equal.
    rewrite !replace_colon_dot_app.
    rewrite (replace_colon_dot_plain date Hd), (replace_colon_dot_plain hh Hh),
            (replace_colon_dot_plain mm Hm), (replace_colon_dot_plain ss Hs).
    change (replace_colon_dot (js "T")) with (js "T").
    change (replace_colon_dot (js ":")) with (js "-").
    change (replace_colon_dot (js ".")) with (js "-").
    change (replace_colon_dot (js "Z")) with (js "Z").
    set (kept_part := date ++ js "T" ++ hh ++ js "-" ++ mm ++ js "-" ++ ss).
    replace (date ++ js "T" ++ hh ++ js "-" ++ mm ++ js "-" ++ ss ++ js "-"
               ++ replace_colon_dot mmm ++ js "Z")
      with (kept_part ++ (js "-" ++ replace_colon_dot mmm ++ js "Z"))
      by (unfold kept_part; now rewrite <- !app_assoc).
    unfold slice_off. rewrite length_app.
    assert (Ht : List.length (js "-" ++ replace_colon_dot mmm ++ js "Z") = 5%nat).
    { rewrite !length_app. unfold replace_colon_dot. rewrite length_map, Hl. reflexivity. }
    rewrite Ht. replace (List.length kept_part + 5 - 5)%nat with (List.length kept_part + 0)%nat by lia.
    rewrite firstn_app_2. cbn [firstn]. rewrite app_nil_r.
    unfold kept_part. now rewrite <- !app_assoc.
Qed.

Lemma generateFilename_timestamp_witness :
  generateFilename (js "2024-01-15T10:30:45.123Z") default_baseName default_extension
  = js "converted-2024-01-15T10-30-45.zip".
Proof.
  apply (proj2 generateFilename_timestamp
           (js "2024-01-15") (js "10") (js "30") (js "45") (js "123")
           default_baseName default_extension); reflexivity.
Defined.

(** ** The drop zone: removing files, sessions *)

Lemma filter_index_all {A} (keep : nat -> bool) (i : nat) (a : list A) :
  (forall j, (i <= j)%nat -> keep j = true) -> Zone.filter_index keep i a = a.
Proof.
  revert i; induction a as [|x a IH]; intros i H; [reflexivity|].
  cbn [Zone.filter_index]. rewrite (H i) by lia. f_equal. apply IH.
  intros j Hj. apply H. lia.
Qed.

Lemma filter_index_remove {A} (a : list A) (i k : nat) :
  (k < List.length a)%nat ->
  Zone.filter_index (fun index => negb (Nat.eqb index (i + k))) i a =
  firstn k a ++ skipn (S k) a.
Proof.
  revert i k; induction a as [|x a IH]; intros i k Hk; [cbn in Hk; lia|].
  cbn [Zone.filter_index]. destruct k as [|k].
  - rewrite Nat.add_0_r, Nat.eqb_refl. cbn [negb firstn skipn app].
    apply filter_index_all. intros j Hj.
    apply negb_true_iff, Nat.eqb_neq. lia.
  - replace (Nat.eqb i (i + S k)) with false by (symmetry; apply Nat.eqb_neq; lia).
    cbn [negb firstn skipn app]. f_equal.
    replace (i + S k)%nat with (S i + k)%nat by lia.
    apply IH. cbn in Hk. lia.
Qed.

(** X11.  [removeFile] with the index of a selected file removes that file
    and no other, the others keeping their order, so one file fewer is
    selected; with an index past the end it removes nothing.  Either way
    [onFilesSelected] is called with the files that are left. *)
Theorem removeFile_removes_one (st : DropZone.State) (index : nat) :
  snd (Zone.removeFile st index) = Some (DropZone.files (fst (Zone.removeFile st index))) /\
  ((index < List.length (DropZone.files st))%nat ->
   DropZone.files (fst (Zone.removeFile st index)) =
     firstn index (DropZone.files st) ++ skipn (S index) (DropZone.files st) /\
   S (List.length (DropZone.files (fst (Zone.removeFile st index)))) =
     List.length (DropZone.files st)) /\
  ((List.length (DropZone.files st) <= index)%nat ->
   DropZone.files (fst (Zone.removeFile st index)) = DropZone.files st).
Proof.
  unfold Zone.removeFile. cbn [fst snd DropZone.files].
  split; [reflexivity|]. split.
  - intros H. pose proof (filter_index_remove (DropZone.files st) 0 index H) as E.
    cbn [Nat.add] in E. rewrite E.
    split; [reflexivity|].
    rewrite length_app, length_firstn, length_skipn. lia.
  - intros H. revert H. generalize (DropZone.files st). intros l H.
    assert (G : forall (a : list File) i,
               (i + List.length a <= index)%nat ->
               Zone.filter_index (fun j => negb (Nat.eqb j index)) i a = a).
    { induction a as [|x a IH]; intros i Hi; [reflexivity|].
      cbn [Zone.filter_index List.length] in *.
      replace (Nat.eqb i index) with false by (symmetry; apply Nat.eqb_neq; lia).
      cbn [negb]. f_equal. apply IH. lia. }
    apply G. lia.
Qed.

Lemma removeFile_removes_one_witness :
  DropZone.files
    (fst (Zone.removeFile
            {| DropZone.isDragOver := false;
               DropZone.files := [settings_json; number_json; list_txt];
               DropZone.shown := [] |} 1))
  = [settings_json; list_txt].
Proof.
  apply (proj1 (proj2 (removeFile_removes_one
           {| DropZone.isDragOver := false;
              DropZone.files := [settings_json; number_json; list_txt];
              DropZone.shown := [] |} 1))).
  cbn. lia.
Defined.

Lemma validateFiles_none (acceptedTypes : list jsstring) (maxFileSize : N)
  (fileList : list File) :
  DropZone.validFiles (DropZone.validateFiles acceptedTypes maxFileSize fileList) = [].
Proof. unfold DropZone.validateFiles. now rewrite validateFiles_from. Qed.

Lemma take_state (acceptedTypes : list jsstring) (maxFileSize : N) (multiple : bool)
  (st : DropZone.State) (fileList : list File) :
  DropZone.files (fst (DropZone.take acceptedTypes maxFileSize multiple st fileList))
    = DropZone.files st /\
  DropZone.isDragOver (fst (DropZone.take acceptedTypes maxFileSize multiple st fileList))
    = DropZone.isDragOver st /\
  snd (DropZone.take acceptedTypes maxFileSize multiple st fileList) = None.
Proof.
  unfold DropZone.take. rewrite validateFiles_none. repeat split.
Qed.

Lemma handleDrop_state (acceptedTypes : list jsstring) (maxFileSize : N)
  (multiple disabled : bool) (st : DropZone.State) (e : DragEvent) :
  DropZone.files (fst (DropZone.handleDrop acceptedTypes maxFileSize multiple disabled st e))
    = DropZone.files st /\
  DropZone.isDragOver
    (fst (DropZone.handleDrop acceptedTypes maxFileSize multiple disabled st e)) = false /\
  snd (DropZone.handleDrop acceptedTypes maxFileSize multiple disabled st e) = None.
Proof.
  unfold DropZone.handleDrop.
  destruct disabled; [repeat split|].
  destruct (handleFileDrop e) as [error|droppedFiles]; [repeat split|].
  apply (take_state acceptedTypes maxFileSize multiple
           {| DropZone.isDragOver := false; DropZone.files := DropZone.files st;
              DropZone.shown := DropZone.shown st |}).
Qed.

Lemma handleFileInputChange_state (acceptedTypes : list jsstring) (maxFileSize : N)
  (multiple : bool) (st : DropZone.State) (selectedFiles : option (list File)) :
  DropZone.files
    (fst (DropZone.handleFileInputChange acceptedTypes maxFileSize multiple st selectedFiles))
    = DropZone.files st /\
  DropZone.isDragOver
    (fst (DropZone.handleFileInputChange acceptedTypes maxFileSize multiple st selectedFiles))
    = DropZone.isDragOver st /\
  snd (DropZone.handleFileInputChange acceptedTypes maxFileSize multiple st selectedFiles)
    = None.
Proof.
  unfold DropZone.handleFileInputChange.
  destruct selectedFiles as [[|f l]|]; try (repeat split; reflexivity).
  apply take_state.
Qed.

Lemma filter_index_incl {A} (keep : nat -> bool) (i : nat) (a : list A) :
  incl (Zone.filter_index keep i a) a.
Proof.
  revert i; induction a as [|x a IH]; intros i; [apply incl_refl|].
  cbn [Zone.filter_index]. destruct (keep i).
  - apply incl_cons; [now left | apply incl_tl, IH].
  - apply incl_tl, IH.
Qed.

(** One action selects no file that was not selected. *)
Lemma step_files (acceptedTypes : list jsstring) (maxFileSize : N)
  (multiple disabled : bool) (st : DropZone.State) (a : Zone.action) :
  incl (DropZone.files (fst (Zone.step acceptedTypes maxFileSize multiple disabled st a)))
       (DropZone.files st) /\
  (forall arg,
     snd (Zone.step acceptedTypes maxFileSize multiple disabled st a) = Some arg ->
     incl arg (DropZone.files st)).
Proof.
  destruct a as [e|inside| |e|selectedFiles|index| ]; cbn [Zone.step fst snd].
  - unfold Zone.handleDragEnter.
    destruct (disabled || _); split; try apply incl_refl; discriminate.
  - unfold Zone.handleDragLeave.
    destruct inside; split; try apply incl_refl; discriminate.
  - split; [apply incl_refl | discriminate].
  - destruct (handleDrop_state acceptedTypes maxFileSize multiple disabled st e)
      as (-> & _ & ->).
    split; [apply incl_refl | discriminate].
  - destruct (handleFileInputChange_state acceptedTypes maxFileSize multiple st selectedFiles)
      as (-> & _ & ->).
    split; [apply incl_refl | discriminate].
  - unfold Zone.removeFile. cbn [fst snd DropZone.files]. split.
    + apply filter_index_incl.
    + intros arg H. injection H as <-. apply filter_index_incl.
  - cbn. split; [apply incl_nil_l|]. intros arg H. injection H as <-. apply incl_nil_l.
Qed.

(** X12.  In a session of the drop zone (drags, drops, selections in the
    picker, removals, clearings, in any order) no file is ever added to the
    selection: the files selected at the end, and the files of every call of
    [onFilesSelected], are among those selected at the start.  A zone that
    starts with no file never has one, and only ever reports the empty
    list. *)
Theorem session_adds_no_file (acceptedTypes : list jsstring) (maxFileSize : N)
  (multiple disabled : bool) (actions : list Zone.action) :
  (forall st,
     incl (DropZone.files
             (fst (Zone.run acceptedTypes maxFileSize multiple disabled st actions)))
          (DropZone.files st) /\
     Forall (fun arg => incl arg (DropZone.files st))
            (snd (Zone.run acceptedTypes maxFileSize multiple disabled st actions))) /\
  DropZone.files
    (fst (Zone.run acceptedTypes maxFileSize multiple disabled Zone.initial actions)) = [] /\
  Forall (fun arg => arg = [])
         (snd (Zone.run acceptedTypes maxFileSize multiple disabled Zone.initial actions)).
Proof.
  assert (G : forall st,
     incl (DropZone.files
             (fst (Zone.run acceptedTypes maxFileSize multiple disabled st actions)))
          (DropZone.files st) /\
     Forall (fun arg => incl arg (DropZone.files st))
            (snd (Zone.run acceptedTypes maxFileSize multiple disabled st actions))).
  { induction actions as [|a actions IH]; intros st.
    - cbn. split; [apply incl_refl | constructor].
    - cbn [Zone.run].
      destruct (step_files acceptedTypes maxFileSize multiple disabled st a) as [Hs Hc].
      destruct (Zone.step acceptedTypes maxFileSize multiple disabled st a) as [st' call].
      cbn [fst snd] in Hs, Hc.
      destruct (IH st') as [Hf Hcs].
      destruct (Zone.run acceptedTypes maxFileSize multiple disabled st' actions)
        as [final calls].
      cbn [fst snd] in *. split.
      + eapply incl_tran; eassumption.
      + assert (Hcs' : Forall (fun arg => incl arg (DropZone.files st)) calls).
        { eapply Forall_impl; [|exact Hcs]. intros arg Harg. cbv beta in Harg.
          exact (incl_tran Harg Hs). }
        destruct call as [arg|]; [constructor; auto | assumption]. }
  split; [exact G|].
  destruct (G Zone.initial) as [Hf Hc]. cbn [Zone.initial DropZone.files] in Hf, Hc.
  split.
  - now apply incl_l_nil.
  - eapply Forall_impl; [|exact Hc]. intros arg Harg. now apply incl_l_nil.
Qed.

Lemma step_inactive (acceptedTypes : list jsstring) (maxFileSize : N)
  (multiple disabled : bool) (st : DropZone.State) (a : Zone.action) :
  DropZone.isDragOver st = false ->
  disabled = true \/ Zone.enters_with_files a = false ->
  DropZone.isDragOver (fst (Zone.step acceptedTypes maxFileSize multiple disabled st a))
  = false.
Proof.
  intros Hst Hd.
  destruct a as [e|inside| |e|selectedFiles|index| ]; cbn [Zone.step fst snd].
  - unfold Zone.handleDragEnter. cbn [Zone.enters_with_files] in Hd.
    destruct Hd as [-> | ->]; [exact Hst|].
    cbn [negb]. now rewrite orb_true_r.
  - unfold Zone.handleDragLeave. destruct inside; [exact Hst | reflexivity].
  - exact Hst.
  - apply handleDrop_state.
  - destruct (handleFileInputChange_state acceptedTypes maxFileSize multiple st selectedFiles)
      as (_ & -> & _). exact Hst.
  - exact Hst.
  - exact Hst.
Qed.

(** X13.  The zone shows itself drag-active only after a drag entered it
    with files while it was enabled: a disabled zone, and a zone that no
    drag with files enters, stay inactive through any session.  And a drop
    always leaves the zone inactive, whatever it was. *)
Theorem zone_drag_active (acceptedTypes : list jsstring) (maxFileSize : N)
  (multiple disabled : bool) :
  (forall actions st,
     DropZone.isDragOver st = false ->
     disabled = true \/ existsb Zone.enters_with_files actions = false ->
     DropZone.isDragOver
       (fst (Zone.run acceptedTypes maxFileSize multiple disabled st actions)) = false) /\
  (forall st e,
     DropZone.isDragOver
       (fst (Zone.step acceptedTypes maxFileSize multiple disabled st (Zone.Drop e)))
     = false).
Proof.
  split.
  - induction actions as [|a actions IH]; intros st Hst Hd; [exact Hst|].
    cbn [Zone.run].
    assert (Ha : disabled = true \/ Zone.enters_with_files a = false).
    { destruct Hd as [Hd|Hd]; [now left|]. right.
      cbn [existsb] in Hd. now apply orb_false_iff in Hd. }
    assert (Hr : disabled = true \/ existsb Zone.enters_with_files actions = false).
    { destruct Hd as [Hd|Hd]; [now left|]. right.
      cbn [existsb] in Hd. now apply orb_false_iff in Hd. }
    pose proof (step_inactive acceptedTypes maxFileSize multiple disabled st a Hst Ha) as Hs.
    destruct (Zone.step acceptedTypes maxFileSize multiple disabled st a) as [st' call].
    cbn [fst] in Hs. specialize (IH st' Hs Hr).
    destruct (Zone.run acceptedTypes maxFileSize multiple disabled st' actions)
      as [final calls].
    exact IH.
  - intros st e. cbn [Zone.step]. apply handleDrop_state.
Qed.

Lemma zone_drag_active_witness :
  DropZone.isDragOver
    (fst (Zone.run DropZone.default_acceptedTypes DropZone.default_maxFileSize false true
            Zone.initial
            [Zone.DragEnter {| dataTransfer_types := Some [js "Files"];
                               dataTransfer_files := Some [settings_json] |};
             Zone.DragOver])) = false.
Proof.
  apply (proj1 (zone_drag_active DropZone.default_acceptedTypes
                  DropZone.default_maxFileSize false true)).
  - reflexivity.
  - left. reflexivity.
Defined.

(** ** The client: requests, downloads, results *)

Import Runs.

(** The run of a request, of the check of its response and of what the
    operation goes on with, in full. *)
Lemma exchange_run {A} (net : Request -> Network) (req0 : Request)
  (k : Response -> Task A) (label failure : jsstring) :
  try_catch
    (bind (fetchWithTimeout net req0 REQUEST_TIMEOUT)
       (fun response => bind (handleResponse response) (fun _ => k response)))
    (rethrow label failure)
  = match raced (net req0) with
    | inl e => ([Fetch req0; ConsoleError label e], inl (ApiError2 failure 500))
    | inr r =>
        if ok r then
          match k r with
          | (t, inr a) => (Fetch req0 :: t, inr a)
          | (t, inl e) =>
              (Fetch req0 :: t ++ [ConsoleError label e],
               inl (if instanceof_ApiError e then e else ApiError2 failure 500))
          end
        else
          let e := ApiError (errorMessage (read_error r)) (status r)
                     (errorData (read_error r)) in
          (Fetch req0 ::
             match parseError (read_error r) with
             | Some pe => [ConsoleError (js "Error parsing error response:") pe]
             | None => []
             end ++ [ConsoleError label e],
           inl e)
    end.
Proof.
  rewrite fetchWithTimeout_run.
  destruct (raced (net req0)) as [e|r] eqn:Hr.
  - cbn. now rewrite (raced_not_ApiError _ _ Hr).
  - cbn [bind]. unfold handleResponse. destruct (ok r); cbn [negb].
    + cbn. destruct (k r) as [t [e|a]]; reflexivity.
    + destruct (parseError (read_error r)); reflexivity.
Qed.

Lemma guard_container (v : value) :
  negb (ToBoolean v) || negb (str_eqb (typeof v) (js "object")) = negb (container v).
Proof.
  destruct v; try reflexivity; cbn [typeof container negb]; apply orb_true_r.
Qed.

Lemma guard_array (v : value) :
  negb (Array_isArray v) || (array_length v =? 0) =
  match v with
  | VArray (_ :: _) => false
  | _ => true
  end.
Proof. destruct v as [ | | | | | | | |[|x items]| ]; reflexivity. Qed.


Ltac finish_run :=
  repeat match goal with
         | |- context [raced ?n] => destruct (raced n) as [?e|?r]
         | |- context [if ok ?r then _ else _] => destruct (ok r)
         | |- context [parseError ?s] => destruct (parseError s)
         | |- context [bodyText ?r] => destruct (bodyText r)
         | |- context [JSON.parse ?t] => destruct (JSON.parse t)
         | |- context [instanceof_ApiError ?e] => destruct (instanceof_ApiError e)
         end;
  try reflexivity.

Ltac open_exchange :=
  rewrite ?bind_ret; rewrite exchange_run;
  unfold await, download, response_blob, response_json.

(** X14.  An operation sends one request, or none: none when it refuses
    its arguments or when the data it has to serialize holds a BigInt, one
    in every other case, whatever the network does. *)
Theorem one_request_at_most (env : option jsstring) (net : Request -> Network)
  (op : operation) :
  fetches (trace (call env net op)) = if refused op || unserializable op then 0%nat else 1%nat.
Proof.
  destruct op as [jsonData filename options | file outputFilename options | jobId
                 | jsonArray filename options | jsonData | ];
    unfold unserializable; cbn [call refused stringified].
  - unfold convertJsonToZip, stringify. rewrite guard_container.
    destruct (container jsonData); cbn [negb orb]; [|reflexivity].
    destruct (has_bigint _); [reflexivity|].
    open_exchange. unfold fetches. finish_run.
  - unfold uploadAndConvertJson, stringify.
    destruct file as [file|]; [|reflexivity].
    destruct (negb (str_eqb (type file) _)); cbn [orb]; [reflexivity|].
    destruct options as [|kv options].
    + cbn [List.length N.of_nat N.ltb N.compare]. cbv iota.
      open_exchange. unfold fetches. finish_run.
    + cbn [List.length]. change (0 <? N.of_nat (S (List.length options))) with true.
      cbv iota. destruct (has_bigint (VObject (kv :: options))); [reflexivity|].
      rewrite !bind_ret. open_exchange. unfold fetches. finish_run.
  - unfold getConversionStatus. change js_empty with (@nil N).
    destruct (str_eqb jobId []); cbn [orb]; [reflexivity|].
    open_exchange. unfold fetches. finish_run.
  - unfold convertMultipleJsonToZip, stringify. rewrite guard_array.
    destruct jsonArray as [ | | | | | | | |[|x items]| ]; try reflexivity.
    cbn [orb]. destruct (has_bigint _); [reflexivity|].
    open_exchange. unfold fetches. finish_run.
  - unfold validateJsonData, stringify.
    destruct (has_bigint _); [reflexivity|].
    open_exchange. unfold fetches. finish_run.
  - unfold getSupportedFormats.
    open_exchange. unfold fetches. finish_run.
Qed.

(** X15.  An operation that refuses its arguments rejects with its own
    message and status 400, whatever the network would have done; one that
    accepts them but cannot serialize the data (a BigInt) rejects as it
    does when the network fails: its failure message, status 500. *)
Theorem refused_arguments (env : option jsstring) (net : Request -> Network)
  (op : operation) :
  (refused op = true ->
   outcome (call env net op) = inl (ApiError2 (refusal op) 400)) /\
  (refused op = false -> unserializable op = true ->
   outcome (call env net op) = inl (ApiError2 (failure_text op) 500)).
Proof.
  destruct op as [jsonData filename options | file outputFilename options | jobId
                 | jsonArray filename options | jsonData | ];
    unfold unserializable; cbn [call refused refusal failure_text stringified].
  - unfold convertJsonToZip, stringify. rewrite guard_container.
    destruct (container jsonData); cbn [negb]; split; try discriminate; try reflexivity.
    intros _ H. now rewrite H.
  - unfold uploadAndConvertJson, stringify.
    destruct file as [file|]; [|split; [reflexivity | discriminate]].
    destruct (negb (str_eqb (type file) _)); split; try discriminate; try reflexivity.
    intros _. destruct options as [|kv options]; [discriminate|].
    intros H. cbn [List.length]. change (0 <? N.of_nat (S (List.length options))) with true.
    cbv iota. now rewrite H.
  - unfold getConversionStatus. change js_empty with (@nil N).
    destruct (str_eqb jobId []); split; try discriminate; reflexivity.
  - unfold convertMultipleJsonToZip, stringify. rewrite guard_array.
    destruct jsonArray as [ | | | | | | | |[|x items]| ];
      split; try discriminate; try reflexivity.
    intros _ H. now rewrite H.
  - unfold validateJsonData, stringify. split; [discriminate|].
    intros _ H. now rewrite H.
  - split; discriminate.
Qed.

Lemma refused_arguments_witness :
  outcome (call None offline (ConvertJsonToZip (VString (quoted "{'a':1}")) (js "a.zip") []))
  = inl (ApiError2 (js "Invalid JSON data provided") 400).
Proof.
  apply (proj1 (refused_arguments None offline
                  (ConvertJsonToZip (VString (quoted "{'a':1}")) (js "a.zip") []))).
  reflexivity.
Defined.

(** X16.  A download is triggered by the three converting operations when
    they resolve, once, and by nothing else: no run that rejects has
    downloaded anything, and the three operations that return JSON never
    download. *)
Theorem downloads_on_success (env : option jsstring) (net : Request -> Network)
  (op : operation) :
  downloads (trace (call env net op)) =
  if converts op && resolved (outcome (call env net op)) then 1%nat else 0%nat.
Proof.
  destruct op as [jsonData filename options | file outputFilename options | jobId
                 | jsonArray filename options | jsonData | ];
    cbn [call converts andb].
  - unfold convertJsonToZip, stringify.
    destruct (negb (ToBoolean jsonData) || _); [reflexivity|].
    destruct (has_bigint _); [reflexivity|].
    open_exchange. unfold downloads. finish_run.
  - unfold uploadAndConvertJson, stringify.
    destruct file as [file|]; [|reflexivity].
    destruct (negb (str_eqb (type file) _)); [reflexivity|].
    destruct (0 <? N.of_nat (List.length options)).
    + destruct (has_bigint _); [reflexivity|].
      rewrite !bind_ret. open_exchange. unfold downloads. finish_run.
    + open_exchange. unfold downloads. finish_run.
  - unfold getConversionStatus.
    destruct (str_eqb jobId []); [reflexivity|].
    open_exchange. unfold downloads. finish_run.
  - unfold convertMultipleJsonToZip, stringify.
    destruct (negb (Array_isArray jsonArray) || _); [reflexivity|].
    destruct (has_bigint _); [reflexivity|].
    open_exchange. unfold downloads. finish_run.
  - unfold validateJsonData, stringify.
    destruct (has_bigint _); [reflexivity|].
    open_exchange. unfold downloads. finish_run.
  - unfold getSupportedFormats.
    open_exchange. unfold downloads. finish_run.
Qed.

(** The request of a run in which one was sent, found again. *)
Ltac same_request H E :=
  pose proof (fun Hk => proj1 (exchange_outcome _ _ _ _ _ _ Hk H)) as E;
  specialize (E ltac:(no_fetch)).

Ltac read_body :=
  repeat match goal with
         | |- context [bodyText ?r] => destruct (bodyText r)
         | |- context [JSON.parse ?t] => destruct (JSON.parse t)
         end;
  reflexivity.

Ltac answer Ha Hok E :=
  rewrite exchange_run; rewrite E in Ha;
  rewrite (raced_answered _ _ Ha), Hok;
  unfold await, download, response_blob, response_json.

(** X17.  When the service answers with a success, [getConversionStatus],
    [validateJsonData] and [getSupportedFormats] resolve with the body
    parsed as JSON, whatever value it is; when the body of the success
    cannot be read or is not JSON, they reject with their failure message
    and status 500, the status of the response notwithstanding. *)
Theorem json_results (env : option jsstring) (net : Request -> Network)
  (op : operation) (req : Request) (r : Response) :
  converts op = false ->
  In (Fetch req) (trace (call env net op)) ->
  answered (net req) r ->
  ok r = true ->
  outcome (call env net op) =
  match response_json r with
  | inr v => inr v
  | inl _ => inl (ApiError2 (failure_text op) 500)
  end.
Proof.
  destruct op as [jsonData filename options | file outputFilename options | jobId
                 | jsonArray filename options | jsonData | ];
    cbn [call converts failure_text]; try discriminate; intros _.
  - unfold getConversionStatus.
    destruct (str_eqb jobId []); [not_sent|].
    intros H Ha Hok. same_request H E. answer Ha Hok E. read_body.
  - unfold validateJsonData, stringify.
    destruct (has_bigint _); [not_sent|]. rewrite bind_ret.
    intros H Ha Hok. same_request H E. answer Ha Hok E. read_body.
  - unfold getSupportedFormats.
    intros H Ha Hok. same_request H E. answer Ha Hok E. read_body.
Qed.

Lemma json_results_witness :
  outcome (call None (answering (zip_response 2)) GetSupportedFormats)
  = inl (ApiError2 (js "Failed to get supported formats") 500).
Proof.
  apply (json_results None (answering (zip_response 2)) GetSupportedFormats
           {| url := js "http://localhost:3001/api/formats"; method := js "GET";
              headers := []; body := NoBody |} (zip_response 2)).
  - reflexivity.
  - left. reflexivity.
  - exists 250. split; reflexivity.
  - reflexivity.
Defined.

Ltac converted :=
  match goal with
  | |- context [bodyText ?r] => destruct (bodyText r); [|reflexivity]
  end;
  cbn; do 2 eexists;
  repeat match goal with |- _ /\ _ => split end;
  try reflexivity;
  try (right; left; reflexivity);
  try (intros given Hgiven; now inversion Hgiven).

(** X18.  When the service answers a converting operation with a success:
    if the body can be read, the operation downloads it, under the name the
    caller gave when it gave one, and resolves with [success: true], that
    name and the size of the body; if the body cannot be read, it rejects
    with its failure message and status 500. *)
Theorem conversion_results (env : option jsstring) (net : Request -> Network)
  (op : operation) (req : Request) (r : Response) :
  converts op = true ->
  In (Fetch req) (trace (call env net op)) ->
  answered (net req) r ->
  ok r = true ->
  match bodyText r with
  | None => outcome (call env net op) = inl (ApiError2 (failure_text op) 500)
  | Some _ =>
      exists name result,
        outcome (call env net op) = inr (VObject result) /\
        In (Download name (bodySize r)) (trace (call env net op)) /\
        obj_get result (js "success") = VBool true /\
        obj_get result (name_key op) = VString name /\
        obj_get result (js "size") = VNumber (of_N (bodySize r)) /\
        (forall n, given_name op = Some n -> name = n)
  end.
Proof.
  destruct op as [jsonData filename options | file outputFilename options | jobId
                 | jsonArray filename options | jsonData | ];
    cbn [call converts failure_text name_key given_name]; try discriminate; intros _.
  - unfold convertJsonToZip, stringify.
    destruct (negb (ToBoolean jsonData) || _); [not_sent|].
    destruct (has_bigint _); [not_sent|]. rewrite bind_ret.
    intros H Ha Hok. same_request H E. answer Ha Hok E. converted.
  - unfold uploadAndConvertJson, stringify.
    destruct file as [file|]; [|not_sent].
    destruct (negb (str_eqb (type file) _)); [not_sent|].
    destruct (0 <? N.of_nat (List.length options)).
    + destruct (has_bigint _); [not_sent|]. rewrite !bind_ret.
      intros H Ha Hok. same_request H E. answer Ha Hok E.
      change js_empty with (@nil N).
      destruct outputFilename as [n|]; [destruct (str_eqb n [])|]; converted.
    + rewrite bind_ret.
      intros H Ha Hok. same_request H E. answer Ha Hok E.
      change js_empty with (@nil N).
      destruct outputFilename as [n|]; [destruct (str_eqb n [])|]; converted.
  - unfold convertMultipleJsonToZip, stringify.
    destruct (negb (Array_isArray jsonArray) || _); [not_sent|].
    destruct (has_bigint _); [not_sent|]. rewrite bind_ret.
    intros H Ha Hok. same_request H E. answer Ha Hok E. converted.
Qed.

Lemma conversion_results_witness :
  exists name result,
    outcome (call None (answering (zip_response 2))
               (UploadAndConvertJson (Some settings_json) None [])) = inr (VObject result) /\
    In (Download name 2)
       (trace (call None (answering (zip_response 2))
                 (UploadAndConvertJson (Some settings_json) None []))) /\
    obj_get result (js "success") = VBool true /\
    obj_get result (js "outputFile") = VString name /\
    obj_get result (js "size") = VNumber (of_N 2) /\
    (forall n, None = Some n -> name = n).
Proof.
  apply (conversion_results None (answering (zip_response 2))
           (UploadAndConvertJson (Some settings_json) None [])
           {| url := js "http://localhost:3001/api/convert/upload-json-to-zip";
              method := js "POST"; headers := [];
              body := FormData [(js "file", FormFile settings_json)] |}
           (zip_response 2)).
  - reflexivity.
  - left. reflexivity.
  - exists 250. split; reflexivity.
  - reflexivity.
Defined.

(** The download of an upload to which the caller gave no name. *)
Lemma upload_download (env : option jsstring) (net : Request -> Network)
  (file : File) (outputFilename : option jsstring) (options : obj)
  (req : Request) (r : Response) (text : jsstring) :
  given_name (UploadAndConvertJson (Some file) outputFilename options) = None ->
  In (Fetch req)
     (trace (call env net (UploadAndConvertJson (Some file) outputFilename options))) ->
  answered (net req) r ->
  ok r = true ->
  bodyText r = Some text ->
  let out := remove_first (name file) (js ".json") ++ js ".zip" in
  In (Download out (bodySize r))
     (trace (call env net (UploadAndConvertJson (Some file) outputFilename options))) /\
  outcome (call env net (UploadAndConvertJson (Some file) outputFilename options))
  = inr (VObject [ (js "success", VBool true);
                   (js "originalFile", VString (name file));
                   (js "outputFile", VString out);
                   (js "size", VNumber (of_N (bodySize r))) ]).
Proof.
  cbn [call given_name]. unfold uploadAndConvertJson, stringify.
  change js_empty with (@nil N).
  intros Hg.
  assert (Hn : match outputFilename with
               | Some n => if str_eqb n [] then None else Some n
               | None => None
               end = @None jsstring).
  { destruct outputFilename as [n|]; [|reflexivity].
    destruct (str_eqb n []); [reflexivity|discriminate]. }
  rewrite Hn. clear Hg Hn.
  destruct (negb (str_eqb (type file) _)); [not_sent|].
  destruct (0 <? N.of_nat (List.length options)).
  - destruct (has_bigint _); [not_sent|]. rewrite !bind_ret.
    intros H Ha Hok Ht. same_request H E. answer Ha Hok E. rewrite Ht.
    cbn. split; [right; left|]; reflexivity.
  - rewrite bind_ret.
    intros H Ha Hok Ht. same_request H E. answer Ha Hok E. rewrite Ht.
    cbn. split; [right; left|]; reflexivity.
Qed.

Lemma starts_with_json_app (x rest : jsstring) :
  x <> [] ->
  starts_with (js ".json") (x ++ js ".json" ++ rest) = starts_with (js ".json") x.
Proof.
  intros Hx.
  change (js ".json") with [46; 106; 115; 111; 110].
  destruct x as [|c1 [|c2 [|c3 [|c4 [|c5 x]]]]]; [congruence| | | | |];
    cbn [app starts_with];
    repeat match goal with
           | |- context [(?a =? ?b)] => is_var b; destruct (a =? b); cbn [andb]
           end;
    reflexivity.
Qed.

Lemma remove_first_json (base rest : jsstring) :
  includes base (js ".json") = false ->
  remove_first (base ++ js ".json" ++ rest) (js ".json") = base ++ rest.
Proof.
  induction base as [|c base IH]; intros H.
  - reflexivity.
  - cbn [includes] in H. apply orb_false_iff in H. destruct H as [H1 H2].
    change ((c :: base) ++ js ".json" ++ rest)
      with (c :: (base ++ js ".json" ++ rest)).
    cbn [remove_first].
    change (c :: (base ++ js ".json" ++ rest))
      with ((c :: base) ++ js ".json" ++ rest).
    rewrite starts_with_json_app by discriminate. rewrite H1.
    cbn [app]. now rewrite IH.
Qed.

Lemma remove_first_absent (s p : jsstring) :
  includes s p = false -> remove_first s p = s.
Proof.
  induction s as [|c s IH]; cbn [includes remove_first]; intros H;
    apply orb_false_iff in H; destruct H as [H1 H2]; rewrite H1.
  - reflexivity.
  - now rewrite IH.
Qed.

(** X19.  [uploadAndConvertJson], given no output name, names the download
    after the file with the first [.json] of its name taken out, wherever
    it stands, and [.zip] put at the end: for a file [base.json<rest>] whose
    [base] has no [.json] the download is [base<rest>.zip], so that
    [a.json.bak] gives [a.bak.zip]. *)
Theorem upload_takes_first_json_out (env : option jsstring) (net : Request -> Network)
  (file : File) (outputFilename : option jsstring) (options : obj)
  (req : Request) (r : Response) (text base rest : jsstring) :
  given_name (UploadAndConvertJson (Some file) outputFilename options) = None ->
  name file = base ++ js ".json" ++ rest ->
  includes base (js ".json") = false ->
  In (Fetch req)
     (trace (call env net (UploadAndConvertJson (Some file) outputFilename options))) ->
  answered (net req) r ->
  ok r = true ->
  bodyText r = Some text ->
  In (Download (base ++ rest ++ js ".zip") (bodySize r))
     (trace (call env net (UploadAndConvertJson (Some file) outputFilename options))).
Proof.
  intros Hg Hname Hbase H Ha Hok Ht.
  destruct (upload_download env net file outputFilename options req r text Hg H Ha Hok Ht)
    as [Hd _].
  cbv zeta in Hd. rewrite Hname, (remove_first_json base rest Hbase) in Hd.
  now rewrite <- app_assoc in Hd.
Qed.

Lemma upload_takes_first_json_out_witness :
  In (Download (js "a.bak.zip") 2)
     (trace (call None (answering (zip_response 2))
               (UploadAndConvertJson
                  (Some {| FileUtils.name := js "a.json.bak";
                           FileUtils.type := js "application/json";
                           FileUtils.size := 2;
                           FileUtils.content := Some (js "{}") |})
                  (Some js_empty) []))).
Proof.
  apply (upload_takes_first_json_out None (answering (zip_response 2))
           {| FileUtils.name := js "a.json.bak";
              FileUtils.type := js "application/json";
              FileUtils.size := 2;
              FileUtils.content := Some (js "{}") |}
           (Some js_empty) []
           {| url := js "http://localhost:3001/api/convert/upload-json-to-zip";
              method := js "POST"; headers := [];
              body := FormData [(js "file",
                       FormFile {| FileUtils.name := js "a.json.bak";
                                   FileUtils.type := js "application/json";
                                   FileUtils.size := 2;
                                   FileUtils.content := Some (js "{}") |})] |}
           (zip_response 2) (js "PK") (js "a") (js ".bak")).
  - reflexivity.
  - reflexivity.
  - reflexivity.
  - left. reflexivity.
  - exists 250. split; reflexivity.
  - reflexivity.
  - reflexivity.
Defined.

(** X20.  [uploadAndConvertJson], given no output name, adds [.zip] to the
    whole name of a file whose name has no [.json] in it, in this very
    case: a file [DATA.JSON] is downloaded as [DATA.JSON.zip]. *)
Theorem upload_keeps_other_names (env : option jsstring) (net : Request -> Network)
  (file : File) (outputFilename : option jsstring) (options : obj)
  (req : Request) (r : Response) (text : jsstring) :
  given_name (UploadAndConvertJson (Some file) outputFilename options) = None ->
  includes (name file) (js ".json") = false ->
  In (Fetch req)
     (trace (call env net (UploadAndConvertJson (Some file) outputFilename options))) ->
  answered (net req) r ->
  ok r = true ->
  bodyText r = Some text ->
  In (Download (name file ++ js ".zip") (bodySize r))
     (trace (call env net (UploadAndConvertJson (Some file) outputFilename options))).
Proof.
  intros Hg Hname H Ha Hok Ht.
  destruct (upload_download env net file outputFilename options req r text Hg H Ha Hok Ht)
    as [Hd _].
  cbv zeta in Hd. now rewrite (remove_first_absent _ _ Hname) in Hd.
Qed.

Lemma upload_keeps_other_names_witness :
  In (Download (js "DATA.JSON.zip") 2)
     (trace (call None (answering (zip_response 2))
               (UploadAndConvertJson
                  (Some {| FileUtils.name := js "DATA.JSON";
                           FileUtils.type := js "application/json";
                           FileUtils.size := 2;
                           FileUtils.content := Some (js "{}") |})
                  None []))).
Proof.
  apply (upload_keeps_other_names None (answering (zip_response 2))
           {| FileUtils.name := js "DATA.JSON";
              FileUtils.type := js "application/json";
              FileUtils.size := 2;
              FileUtils.content := Some (js "{}") |}
           None []
           {| url := js "http://localhost:3001/api/convert/upload-json-to-zip";
              method := js "POST"; headers := [];
              body := FormData [(js "file",
                       FormFile {| FileUtils.name := js "DATA.JSON";
                                   FileUtils.type := js "application/json";
                                   FileUtils.size := 2;
                                   FileUtils.content := Some (js "{}") |})] |}
           (zip_response 2) (js "PK")).
  - reflexivity.
  - reflexivity.
  - left. reflexivity.
  - exists 250. split; reflexivity.
  - reflexivity.
  - reflexivity.
Defined.

(** ** The pages *)

Lemma trimStart_empty (s : jsstring) :
  Text.trimStart s = [] -> forallb Text.is_white s = true.
Proof.
  induction s as [|c s IH]; [reflexivity|].
  cbn [Text.trimStart forallb]. destruct (Text.is_white c); [exact IH|discriminate].
Qed.

Lemma trimStart_head (s : jsstring) :
  match Text.trimStart s with
  | c :: _ => Text.is_white c = false
  | [] => True
  end.
Proof.
  induction s as [|c s IH]; [exact I|].
  cbn [Text.trimStart]. destruct (Text.is_white c) eqn:Hc; [exact IH|exact Hc].
Qed.

Lemma blank_is_white (s : jsstring) :
  Text.blank s = true -> forallb Text.is_white s = true.
Proof.
  unfold Text.blank, Text.trim, Text.trimEnd. intros H.
  apply str_eqb_eq in H.
  apply (f_equal (@rev N)) in H. rewrite rev_involutive in H.
  change (rev js_empty) with (@nil N) in H.
  apply trimStart_empty in H.
  pose proof (trimStart_head s) as Hh.
  destruct (Text.trimStart s) as [|c t] eqn:Ht.
  - now apply trimStart_empty.
  - cbn [rev] in H. rewrite forallb_app in H. cbn [forallb] in H.
    rewrite Hh in H. cbn in H. now rewrite andb_false_r in H.
Qed.

Lemma white_starts_no_value (stack : list JSON.frame) (c : N) :
  Text.is_white c = true -> JSON.is_ws c = false -> JSON.start_value stack c = None.
Proof.
  intros Hw Hs. unfold JSON.start_value, JSON.is_digit.
  repeat match goal with
         | |- context [c =? ?k] =>
             destruct (N.eqb_spec c k) as [->|_]; [vm_compute in Hw; discriminate|]
         end.
  destruct (N.leb_spec 48 c), (N.leb_spec c 57); try reflexivity.
  exfalso. unfold Text.is_white in Hw.
  rewrite !orb_true_iff, andb_true_iff, !N.eqb_eq, !N.leb_le in Hw. lia.
Qed.

(** A text of white space alone is no JSON. *)
Lemma white_not_json (s : jsstring) :
  forallb Text.is_white s = true -> JSON.parse s = None.
Proof.
  unfold JSON.parse. induction s as [|c s IH]; [reflexivity|].
  cbn [forallb]. intros H. apply andb_true_iff in H as [Hc Hs].
  cbn [JSON.run JSON.step JSON.step_simple].
  destruct (JSON.is_ws c) eqn:Hws; [exact (IH Hs)|].
  now rewrite (white_starts_no_value [] c Hc Hws).
Qed.

Lemma blank_not_json (s : jsstring) : Text.blank s = true -> JSON.parse s = None.
Proof. intros H. now apply white_not_json, blank_is_white. Qed.

(** *** What [JSON.parse] returns has no BigInt in it *)

Lemma plain_array (items : list value) :
  forallb Plain.plain items = true -> Plain.plain (VArray items) = true.
Proof.
  unfold Plain.plain. cbn [Api.has_bigint].
  induction items as [|x items IH]; [reflexivity|].
  cbn [forallb existsb]. intros H. apply andb_true_iff in H as [Hx Hi].
  apply negb_true_iff in Hx. rewrite Hx. exact (IH Hi).
Qed.

Lemma plain_object (props : obj) :
  forallb (fun kv => Plain.plain (snd kv)) props = true -> Plain.plain (VObject props) = true.
Proof.
  unfold Plain.plain. cbn [Api.has_bigint].
  induction props as [|x props IH]; [reflexivity|].
  cbn [forallb existsb]. intros H. apply andb_true_iff in H as [Hx Hi].
  apply negb_true_iff in Hx. rewrite Hx. exact (IH Hi).
Qed.

Lemma obj_set_plain (props : obj) (k : jsstring) (v : value) :
  forallb (fun kv => Plain.plain (snd kv)) props = true ->
  Plain.plain v = true ->
  forallb (fun kv => Plain.plain (snd kv)) (obj_set props k v) = true.
Proof.
  intros Hp Hv. induction props as [|[k' v'] props IH].
  - cbn. now rewrite Hv.
  - cbn [obj_set]. cbn [forallb snd] in Hp. apply andb_true_iff in Hp as [H1 H2].
    destruct (str_eqb k k'); cbn [forallb snd].
    + now rewrite Hv, H2.
    + now rewrite H1, (IH H2).
Qed.

Lemma plain_state_intro (stack : list JSON.frame) (m : JSON.mode) :
  forallb Plain.plain_frame stack = true -> Plain.plain_mode m = true ->
  Plain.plain_state (stack, m) = true.
Proof. intros H1 H2. unfold Plain.plain_state. cbn [fst snd]. now rewrite H1, H2. Qed.

Lemma deliver_plain (stack : list JSON.frame) (v : value) (s : JSON.state) :
  forallb Plain.plain_frame stack = true -> Plain.plain v = true ->
  JSON.deliver stack v = Some s -> Plain.plain_state s = true.
Proof.
  intros Hs Hv. unfold JSON.deliver.
  destruct stack as [|[items|props [k|]] stack]; intros H; inversion H; subst; clear H.
  - now apply plain_state_intro.
  - cbn [forallb Plain.plain_frame] in Hs. apply andb_true_iff in Hs as [H1 H2].
    apply plain_state_intro; [|reflexivity].
    cbn [forallb Plain.plain_frame]. rewrite forallb_app, H1, H2. cbn. now rewrite Hv.
  - cbn [forallb Plain.plain_frame] in Hs. apply andb_true_iff in Hs as [H1 H2].
    apply plain_state_intro; [|reflexivity].
    cbn [forallb Plain.plain_frame]. now rewrite (obj_set_plain _ k v H1 Hv), H2.
Qed.

Lemma close_array_plain (stack : list JSON.frame) (s : JSON.state) :
  forallb Plain.plain_frame stack = true ->
  JSON.close_array stack = Some s -> Plain.plain_state s = true.
Proof.
  unfold JSON.close_array. destruct stack as [|[items|props k] stack]; try discriminate.
  cbn [forallb Plain.plain_frame]. intros H. apply andb_true_iff in H as [H1 H2].
  apply deliver_plain; [exact H2|now apply plain_array].
Qed.

Lemma close_object_plain (stack : list JSON.frame) (s : JSON.state) :
  forallb Plain.plain_frame stack = true ->
  JSON.close_object stack = Some s -> Plain.plain_state s = true.
Proof.
  unfold JSON.close_object. destruct stack as [|[items|props [k|]] stack]; try discriminate.
  cbn [forallb Plain.plain_frame]. intros H. apply andb_true_iff in H as [H1 H2].
  apply deliver_plain; [exact H2|now apply plain_object].
Qed.

Lemma start_value_plain (stack : list JSON.frame) (c : N) (s : JSON.state) :
  forallb Plain.plain_frame stack = true ->
  JSON.start_value stack c = Some s -> Plain.plain_state s = true.
Proof.
  intros Hs. unfold JSON.start_value.
  repeat match goal with
         | |- context [if ?b then _ else _] => destruct b
         end;
    intros H; inversion H; subst; clear H;
    apply plain_state_intro; try reflexivity; try exact Hs;
    cbn [forallb Plain.plain_frame]; now rewrite Hs.
Qed.

Lemma end_string_plain (stack : list JSON.frame) (iskey : bool) (acc : jsstring)
  (s : JSON.state) :
  forallb Plain.plain_frame stack = true ->
  JSON.end_string stack iskey acc = Some s -> Plain.plain_state s = true.
Proof.
  intros Hs. unfold JSON.end_string. destruct iskey.
  - destruct stack as [|[items|props [k|]] stack]; try discriminate.
    intros H; inversion H; subst; clear H.
    apply plain_state_intro; [exact Hs|reflexivity].
  - now apply deliver_plain.
Qed.

Lemma step_string_plain (stack : list JSON.frame) (iskey : bool) (acc : jsstring)
  (st : JSON.strstate) (c : N) (s : JSON.state) :
  forallb Plain.plain_frame stack = true ->
  JSON.step_string stack iskey acc st c = Some s -> Plain.plain_state s = true.
Proof.
  intros Hs. unfold JSON.step_string. destruct st as [| |k code].
  - destruct (c =? 34); [now apply end_string_plain|].
    repeat match goal with
           | |- context [if ?b then _ else _] => destruct b
           end;
      intros H; inversion H; subst; clear H; now apply plain_state_intro.
  - repeat match goal with
           | |- context [if ?b then _ else _] => destruct b
           end;
      intros H; inversion H; subst; clear H; now apply plain_state_intro.
  - destruct (JSON.hex_digit c); [|discriminate].
    destruct (Nat.eqb k 3); intros H; inversion H; subst; clear H;
      now apply plain_state_intro.
Qed.

Lemma step_simple_plain (s s' : JSON.state) (c : N) :
  Plain.plain_state s = true ->
  JSON.step_simple s c = Some s' -> Plain.plain_state s' = true.
Proof.
  destruct s as [stack m]. unfold Plain.plain_state at 1. cbn [fst snd].
  intros H. apply andb_true_iff in H as [Hs Hm].
  unfold JSON.step_simple.
  destruct m as [ | | | | | |v|rest v|st a|iskey acc st].
  - destruct (JSON.is_ws c).
    + intros H; inversion H; subst. now apply plain_state_intro.
    + now apply start_value_plain.
  - destruct (JSON.is_ws c).
    + intros H; inversion H; subst. now apply plain_state_intro.
    + destruct (c =? _); [now apply close_array_plain|now apply start_value_plain].
  - destruct (JSON.is_ws c).
    + intros H; inversion H; subst. now apply plain_state_intro.
    + destruct (c =? 34).
      * intros H; inversion H; subst. now apply plain_state_intro.
      * destruct (c =? _); [now apply close_object_plain|discriminate].
  - destruct (JSON.is_ws c).
    + intros H; inversion H; subst. now apply plain_state_intro.
    + destruct (c =? 34); [|discriminate].
      intros H; inversion H; subst. now apply plain_state_intro.
  - destruct (JSON.is_ws c).
    + intros H; inversion H; subst. now apply plain_state_intro.
    + destruct (c =? _); [|discriminate].
      intros H; inversion H; subst. now apply plain_state_intro.
  - destruct (JSON.is_ws c).
    + intros H; inversion H; subst. now apply plain_state_intro.
    + destruct (c =? _).
      * destruct stack as [|[items|props [k|]] stack]; try discriminate;
          intros H; inversion H; subst; now apply plain_state_intro.
      * destruct (c =? _); [now apply close_array_plain|].
        destruct (c =? _); [now apply close_object_plain|discriminate].
  - destruct (JSON.is_ws c); [|discriminate].
    intros H; inversion H; subst. now apply plain_state_intro.
  - destruct rest as [|r rest]; [discriminate|].
    destruct (c =? r); [|discriminate].
    destruct rest.
    + now apply deliver_plain.
    + intros H; inversion H; subst. now apply plain_state_intro.
  - discriminate.
  - now apply step_string_plain.
Qed.

Lemma step_plain (s s' : JSON.state) (c : N) :
  Plain.plain_state s = true ->
  JSON.step s c = Some s' -> Plain.plain_state s' = true.
Proof.
  intros Hp. unfold JSON.step. destruct s as [stack m].
  destruct m as [ | | | | | |v|rest v|st a|iskey acc st];
    try now apply step_simple_plain.
  unfold Plain.plain_state in Hp. cbn [fst snd] in Hp.
  apply andb_true_iff in Hp as [Hs _].
  destruct (JSON.step_number st a c) as [[st' a']|].
  - intros H; inversion H; subst. now apply plain_state_intro.
  - destruct (JSON.accepting st); [|discriminate].
    destruct (JSON.deliver stack (JSON.number_value a)) as [s1|] eqn:Hd; [|discriminate].
    apply step_simple_plain. now apply (deliver_plain stack (JSON.number_value a)).
Qed.

Lemma run_plain (text : jsstring) (s : JSON.state) (v : value) :
  Plain.plain_state s = true -> JSON.run s text = Some v -> Plain.plain v = true.
Proof.
  revert s. induction text as [|c text IH]; intros s Hp.
  - cbn [JSON.run]. unfold JSON.finish. destruct s as [[|f stack] m]; try discriminate.
    destruct m as [ | | | | | |v'|rest v'|st a|iskey acc st]; try discriminate.
    + intros H; inversion H; subst. unfold Plain.plain_state in Hp. exact Hp.
    + destruct (JSON.accepting st); [|discriminate].
      intros H; inversion H; subst. reflexivity.
  - cbn [JSON.run]. destruct (JSON.step s c) as [s'|] eqn:Hs; [|discriminate].
    apply IH. exact (step_plain s s' c Hp Hs).
Qed.

Lemma parse_plain (text : jsstring) (v : value) :
  JSON.parse text = Some v -> Api.has_bigint v = false.
Proof.
  intros H. apply negb_true_iff. apply (run_plain text ([], JSON.MValue) v); [reflexivity|exact H].
Qed.

(** *** [App] *)

Lemma requestBody_plain (parsed : value) :
  Api.has_bigint parsed = false -> Api.has_bigint (App.requestBody parsed) = false.
Proof. intros H. unfold App.requestBody. cbn. now rewrite H. Qed.

Lemma App_blank (net : Api.Request -> Api.Network) (st : App.State) :
  Text.blank (App.jsonInput st) = true ->
  App.convertToZip net st
  = ([], App.Settled (App.setError st (js "Please enter JSON data"))).
Proof. intros H. unfold App.convertToZip. now rewrite H. Qed.

(** The run of [convertToZip] on an input that is JSON. *)
Lemma App_json (net : Api.Request -> Api.Network) (st : App.State) (parsed : value) :
  JSON.parse (App.jsonInput st) = Some parsed ->
  App.convertToZip net st
  = let st1 := App.setStatus (App.setError (App.setIsLoading st true) js_empty)
                 (js "Converting JSON to ZIP...") in
    match net (App.request parsed) with
    | Api.Hangs => ([App.Fetch (App.request parsed)], App.Pending st1)
    | Api.Settles _ o =>
        if App.delivered (net (App.request parsed)) then
          ([App.Fetch (App.request parsed);
            App.Download (js "converted-data.zip")
              match o with
              | Api.Fulfilled response => Api.bodySize response
              | Api.Failed _ => 0
              end;
            App.SetTimeout 3000],
           App.Settled (App.setIsLoading
                          (App.setStatus st1 (js "ZIP file downloaded successfully!")) false))
        else
          ([App.Fetch (App.request parsed)],
           App.Settled (App.setIsLoading
                          (App.setError st1
                             (js "Failed to convert JSON to ZIP. Please try again."))
                          false))
    end.
Proof.
  intros Hp. unfold App.convertToZip.
  destruct (Text.blank (App.jsonInput st)) eqn:Hb.
  { rewrite (blank_not_json _ Hb) in Hp. discriminate. }
  unfold App.validateJSON. rewrite Hp. cbn [negb].
  rewrite (requestBody_plain parsed (parse_plain _ _ Hp)). cbv zeta.
  destruct (net (App.request parsed)) as [after [response|message]|]; cbn [App.delivered].
  - unfold Api.response_blob.
    destruct (Api.ok response); cbn [negb andb]; [|reflexivity].
    destruct (Api.bodyText response); reflexivity.
  - reflexivity.
  - reflexivity.
Qed.

(** X21.  [convertToZip] of [App] sends a request when its input is JSON,
    and only then: the request carries the parsed input as [data].  For an
    input that is no JSON nothing is sent and nothing but the error
    changes: the error is [Please enter JSON data] for a blank input,
    which is never JSON, and [Invalid JSON format] for any other. *)
Theorem App_sends_what_parses (net : Api.Request -> Api.Network) (st : App.State) :
  match JSON.parse (App.jsonInput st) with
  | Some parsed =>
      exists rest,
        fst (App.convertToZip net st) = App.Fetch (App.request parsed) :: rest /\
        ~ In (App.Fetch (App.request parsed)) rest
  | None =>
      App.convertToZip net st
      = ([], App.Settled
               (App.setError st
                  (if Text.blank (App.jsonInput st) then js "Please enter JSON data"
                   else js "Invalid JSON format")))
  end.
Proof.
  destruct (JSON.parse (App.jsonInput st)) as [parsed|] eqn:Hp.
  - rewrite (App_json net st parsed Hp). cbv zeta.
    destruct (net (App.request parsed)) as [after o|].
    + destruct (App.delivered _); cbn [fst]; eexists; (split; [reflexivity|]).
      * intros [H|[H|[]]]; discriminate.
      * intros [].
    + cbn [fst]. eexists. split; [reflexivity|intros []].
  - unfold App.convertToZip, App.validateJSON. rewrite Hp.
    destruct (Text.blank (App.jsonInput st)); reflexivity.
Qed.

(** X22.  [convertToZip] of [App] never comes to its end when, and only
    when, its input is JSON and the network never settles the request: no
    timer runs beside [fetch], and the page shows [isLoading] from then
    on. *)
Theorem App_waits_for_ever (net : Api.Request -> Api.Network) (st : App.State) :
  ((exists st', snd (App.convertToZip net st) = App.Pending st') <->
   (exists parsed, JSON.parse (App.jsonInput st) = Some parsed /\
                   net (App.request parsed) = Api.Hangs)) /\
  (forall st', snd (App.convertToZip net st) = App.Pending st' ->
               App.isLoading st' = true /\ App.jsonInput st' = App.jsonInput st).
Proof.
  destruct (JSON.parse (App.jsonInput st)) as [parsed|] eqn:Hp.
  - rewrite (App_json net st parsed Hp). cbv zeta.
    destruct (net (App.request parsed)) as [after o|] eqn:Hn.
    + split.
      * split.
        -- intros [st' H]. destruct (App.delivered _); discriminate.
        -- intros [p [Hp' Hh]]. inversion Hp'; subst. congruence.
      * intros st' H. destruct (App.delivered _); discriminate.
    + split.
      * split; [intros _; exists parsed; split; [reflexivity|exact Hn] | intros _; eexists; reflexivity].
      * intros st' H. cbn [snd] in H. inversion H; subst. split; reflexivity.
  - assert (E : exists m, App.convertToZip net st = ([], App.Settled (App.setError st m))).
    { unfold App.convertToZip, App.validateJSON. rewrite Hp.
      destruct (Text.blank (App.jsonInput st)); eexists; reflexivity. }
    destruct E as [m E]. rewrite E. cbn [snd]. split.
    + split; [intros [st' H]; discriminate | intros [p [Hp' _]]; discriminate].
    + intros st' H. discriminate.
Qed.

(** X23.  When [convertToZip] of [App] has sent its request and the
    conversion fails (the network fails, the service answers with an error,
    or the body cannot be read), the page stops loading and shows the
    error beside the status [Converting JSON to ZIP...], which stays: the
    handler sets no timer that would clear it, and downloads nothing. *)
Theorem App_failure_keeps_status (net : Api.Request -> Api.Network) (st : App.State)
  (parsed : value) (after : N) (o : Api.FetchOutcome) :
  JSON.parse (App.jsonInput st) = Some parsed ->
  net (App.request parsed) = Api.Settles after o ->
  App.delivered (net (App.request parsed)) = false ->
  App.convertToZip net st
  = ([App.Fetch (App.request parsed)],
     App.Settled {| App.jsonInput := App.jsonInput st;
                    App.isLoading := false;
                    App.status := js "Converting JSON to ZIP...";
                    App.error := js "Failed to convert JSON to ZIP. Please try again." |}).
Proof.
  intros Hp Hn Hd. rewrite (App_json net st parsed Hp). cbv zeta.
  rewrite Hd, Hn. reflexivity.
Qed.

Lemma App_failure_keeps_status_witness :
  App.convertToZip offline (App.handleChange App.initial (js "[1]"))
  = ([App.Fetch (App.request (VArray [VNumber (of_N 1)]))],
     App.Settled {| App.jsonInput := js "[1]";
                    App.isLoading := false;
                    App.status := js "Converting JSON to ZIP...";
                    App.error := js "Failed to convert JSON to ZIP. Please try again." |}).
Proof.
  apply (App_failure_keeps_status offline (App.handleChange App.initial (js "[1]"))
           (VArray [VNumber (of_N 1)]) 120 (Api.Failed (js "Failed to fetch"))).
  - reflexivity.
  - reflexivity.
  - reflexivity.
Defined.

(** X24.  When the button of [App] that converts is enabled,
    [convertToZip] sends its request and clears the error: the two
    messages with which it refuses an input cannot be seen from the
    button. *)
Theorem App_button_sends (net : Api.Request -> Api.Network) (st : App.State) :
  App.convert_disabled st = false ->
  exists parsed rest st',
    JSON.parse (App.jsonInput st) = Some parsed /\
    fst (App.convertToZip net st) = App.Fetch (App.request parsed) :: rest /\
    (snd (App.convertToZip net st) = App.Settled st' \/
     snd (App.convertToZip net st) = App.Pending st') /\
    App.error st' <> js "Please enter JSON data" /\
    App.error st' <> js "Invalid JSON format".
Proof.
  unfold App.convert_disabled, App.validateJSON. intros H.
  apply orb_false_iff in H as [H _]. apply orb_false_iff in H as [_ H].
  destruct (JSON.parse (App.jsonInput st)) as [parsed|] eqn:Hp; [|discriminate].
  exists parsed. rewrite (App_json net st parsed Hp). cbv zeta.
  destruct (net (App.request parsed)) as [after o|].
  - destruct (App.delivered _); cbn [fst snd]; do 2 eexists;
      (split; [reflexivity|]); (split; [reflexivity|]);
      (split; [left; reflexivity|]); split; discriminate.
  - cbn [fst snd]. do 2 eexists.
    split; [reflexivity|]. split; [reflexivity|].
    split; [right; reflexivity|]. split; discriminate.
Qed.

Lemma App_button_sends_witness :
  exists parsed rest st',
    JSON.parse (js "[1]") = Some parsed /\
    fst (App.convertToZip offline (App.handleChange App.initial (js "[1]")))
    = App.Fetch (App.request parsed) :: rest /\
    (snd (App.convertToZip offline (App.handleChange App.initial (js "[1]")))
     = App.Settled st' \/
     snd (App.convertToZip offline (App.handleChange App.initial (js "[1]")))
     = App.Pending st') /\
    App.error st' <> js "Please enter JSON data" /\
    App.error st' <> js "Invalid JSON format".
Proof.
  apply (App_button_sends offline (App.handleChange App.initial (js "[1]"))).
  reflexivity.
Defined.

(** *** [FileConverter] *)


(** X26.  [handleDrop] of [FileConverter] does with the files what
    [handleFileUpload] does with them, once the drag is over: it looks at
    the first file alone, and a drop of no file changes nothing else. *)
Theorem FileConverter_drop_is_upload (st : FileConverter.State)
  (files : list FileUtils.File) :
  FileConverter.handleDrop st files
  = FileConverter.handleFileUpload (FileConverter.setDragActive st false) (firstn 1 files) /\
  FileConverter.dragActive (FileConverter.handleDrop st files) = false.
Proof.
  unfold FileConverter.handleDrop, FileConverter.handleFileUpload.
  destruct files as [|file files]; [split; reflexivity|].
  cbn [firstn].
  destruct (str_eqb (FileUtils.type file) (js "application/json")
            || Text.endsWith (FileUtils.name file) (js ".json"));
    [destruct (FileUtils.content file)|]; split; reflexivity.
Qed.

(** X27.  A file that is JSON by its name alone, with a type that is not
    [application/json], is taken by [FileConverter], which loads its text,
    and refused by [App], which keeps its input and shows an error, and by
    [uploadAndConvertJson], which rejects with status 400 and sends
    nothing. *)
Theorem json_by_name_alone (file : FileUtils.File) (text : jsstring)
  (fc : FileConverter.State) (app : App.State)
  (env : option jsstring) (net : Api.Request -> Api.Network)
  (outputFilename : option jsstring) (options : obj) :
  str_eqb (FileUtils.type file) (js "application/json") = false ->
  Text.endsWith (FileUtils.name file) (js ".json") = true ->
  FileUtils.content file = Some text ->
  FileConverter.handleFileUpload fc [file]
  = FileConverter.setError (FileConverter.setJsonInput fc text) js_empty /\
  App.handleFileUpload app [file]
  = App.setError app (js "Please select a valid JSON file") /\
  call env net (UploadAndConvertJson (Some file) outputFilename options)
  = ([Api.ConsoleError (js "Error uploading and converting JSON:")
        (ApiError2 (js "Please provide a valid JSON file") 400)],
     inl (ApiError2 (js "Please provide a valid JSON file") 400)).
Proof.
  intros Ht Hn Hc. repeat split.
  - unfold FileConverter.handleFileUpload. now rewrite Ht, Hn, Hc.
  - unfold App.handleFileUpload. now rewrite Ht.
  - cbn [call]. unfold uploadAndConvertJson. now rewrite Ht.
Qed.

Lemma json_by_name_alone_witness :
  FileConverter.handleFileUpload FileConverter.initial
    [{| FileUtils.name := js "data.json"; FileUtils.type := js_empty;
        FileUtils.size := 2; FileUtils.content := Some (js "{}") |}]
  = FileConverter.setError (FileConverter.setJsonInput FileConverter.initial (js "{}")) js_empty /\
  App.handleFileUpload App.initial
    [{| FileUtils.name := js "data.json"; FileUtils.type := js_empty;
        FileUtils.size := 2; FileUtils.content := Some (js "{}") |}]
  = App.setError App.initial (js "Please select a valid JSON file") /\
  call None offline
    (UploadAndConvertJson
       (Some {| FileUtils.name := js "data.json"; FileUtils.type := js_empty;
                FileUtils.size := 2; FileUtils.content := Some (js "{}") |}) None [])
  = ([Api.ConsoleError (js "Error uploading and converting JSON:")
        (ApiError2 (js "Please provide a valid JSON file") 400)],
     inl (ApiError2 (js "Please provide a valid JSON file") 400)).
Proof.
  apply (json_by_name_alone
           {| FileUtils.name := js "data.json"; FileUtils.type := js_empty;
              FileUtils.size := 2; FileUtils.content := Some (js "{}") |}
           (js "{}") FileConverter.initial App.initial None offline None []).
  - reflexivity.
  - reflexivity.
  - reflexivity.
Defined.
